(** * Claim lifecycle service: a shallow embedding of [services/claimService.ts]

    The development follows the TypeScript service method by method.
    The three Mongoose collections it touches ([Post], [Claim],
    [AdminSettings]) are lists of documents in storage order, every
    [static async] method is a computation in a state-and-exception
    monad over that store, and a [throw] inside [try { ... } catch] is
    re-thrown with the prefix the source puts in front of it.

    Modelling conventions.
    - An [ObjectId] is its 24-digit hexadecimal string, so [toString()]
      is the identity.
    - A JavaScript [number] is a binary64 floating-point value, the
      kernel's [float]; [+], [*], [/], [<=] are the IEEE 754 operations and
      [Math.round] is written out on the sign, mantissa and exponent.
    - A [Date] is its millisecond count ([Z]); the clock value a call
      observes is an argument of the call, and so is the [_id] the driver
      generates for a new document.
    - [populate('userId', ...)] is not modelled: no method reads the
      populated user.  After [populate('postIds', 'contentText')] an
      element of [postIds] is the referenced Post document, reduced to
      its [_id] and [contentText]; an id without a stored post is dropped
      from the array.
    - [save()] of a loaded document runs the schema validators (for a
      claim the [enum] of a history action, [maxlength] of a history note
      and of [deductionReason], [min] of the two amounts; for a post
      [required] and [maxlength] of the text and [min] of the counters)
      and then replaces the stored document; when a validator fails it
      throws a ValidationError and writes nothing.  The [required]
      validators of ids and proof urls are taken to pass: the records
      carry these fields.
    - A string is the sequence of its characters, and its [length] their
      number; texts are taken to be ASCII.
    - Socket.IO notifications are not modelled: they neither change the
      store nor the value a method returns. *)

From Stdlib Require Import List String Ascii Bool Arith ZArith Lia Floats.
From Stdlib Require Uint63.

#[local] Set Warnings "-inexact-float".
Import ListNotations.
Open Scope string_scope.

(** [mongoose.Types.ObjectId], read through [toString()]. *)
Abbreviation ObjectId := string.

(** ** models/Post.ts *)
Module Post.
Record IPost : Type := {
  _id : ObjectId;
  userId : ObjectId;
  contentText : string;
  likeCount : float;
  viewCount : float;
  isActive : bool
}.
End Post.

(** ** models/AdminSettings.ts *)
Module AdminSettings.
Record IAdminSettings : Type := {
  ratePerLike : float;
  ratePer100Views : float;
  isActive : bool
}.
End AdminSettings.

(** ** models/Claim.ts *)
Module Claim.
Inductive Status : Type :=
| pending | deducted | user_accepted | user_rejected
| account_approved | admin_approved | settled.

Definition Status_eqb (a b : Status) : bool :=
  match a, b with
  | pending, pending | deducted, deducted | user_accepted, user_accepted
  | user_rejected, user_rejected | account_approved, account_approved
  | admin_approved, admin_approved | settled, settled => true
  | _, _ => false
  end.

Definition Status_toString (s : Status) : string :=
  match s with
  | pending => "pending" | deducted => "deducted"
  | user_accepted => "user_accepted" | user_rejected => "user_rejected"
  | account_approved => "account_approved"
  | admin_approved => "admin_approved" | settled => "settled"
  end.

Record IClaimHistory : Type := {
  action : string;
  by_ : ObjectId;
  timestamp : Z;
  note : option string
}.

Record IClaim : Type := {
  _id : ObjectId;
  userId : ObjectId;
  postIds : list ObjectId;
  proofFileUrls : list string;
  calculatedEarnings : float;
  status : Status;
  lockedBy : option ObjectId;
  lockTimestamp : option Z;
  deductionAmount : float;
  deductionReason : option string;
  reviewedBy : option ObjectId;
  finalApprovedBy : option ObjectId;
  history : list IClaimHistory;
  createdBy : ObjectId;
  updatedBy : ObjectId;
  isActive : bool
}.

(** Field assignments [claim.f = v]. *)
Definition set_status (v : Status) (c : IClaim) : IClaim :=
  {| _id := _id c; userId := userId c; postIds := postIds c;
     proofFileUrls := proofFileUrls c;
     calculatedEarnings := calculatedEarnings c; status := v;
     lockedBy := lockedBy c; lockTimestamp := lockTimestamp c;
     deductionAmount := deductionAmount c;
     deductionReason := deductionReason c; reviewedBy := reviewedBy c;
     finalApprovedBy := finalApprovedBy c; history := history c;
     createdBy := createdBy c; updatedBy := updatedBy c;
     isActive := isActive c |}.

Definition set_lockedBy (v : option ObjectId) (c : IClaim) : IClaim :=
  {| _id := _id c; userId := userId c; postIds := postIds c;
     proofFileUrls := proofFileUrls c;
     calculatedEarnings := calculatedEarnings c; status := status c;
     lockedBy := v; lockTimestamp := lockTimestamp c;
     deductionAmount := deductionAmount c;
     deductionReason := deductionReason c; reviewedBy := reviewedBy c;
     finalApprovedBy := finalApprovedBy c; history := history c;
     createdBy := createdBy c; updatedBy := updatedBy c;
     isActive := isActive c |}.

Definition set_lockTimestamp (v : option Z) (c : IClaim) : IClaim :=
  {| _id := _id c; userId := userId c; postIds := postIds c;
     proofFileUrls := proofFileUrls c;
     calculatedEarnings := calculatedEarnings c; status := status c;
     lockedBy := lockedBy c; lockTimestamp := v;
     deductionAmount := deductionAmount c;
     deductionReason := deductionReason c; reviewedBy := reviewedBy c;
     finalApprovedBy := finalApprovedBy c; history := history c;
     createdBy := createdBy c; updatedBy := updatedBy c;
     isActive := isActive c |}.

Definition set_deductionAmount (v : float) (c : IClaim) : IClaim :=
  {| _id := _id c; userId := userId c; postIds := postIds c;
     proofFileUrls := proofFileUrls c;
     calculatedEarnings := calculatedEarnings c; status := status c;
     lockedBy := lockedBy c; lockTimestamp := lockTimestamp c;
     deductionAmount := v;
     deductionReason := deductionReason c; reviewedBy := reviewedBy c;
     finalApprovedBy := finalApprovedBy c; history := history c;
     createdBy := createdBy c; updatedBy := updatedBy c;
     isActive := isActive c |}.

Definition set_deductionReason (v : option string) (c : IClaim) : IClaim :=
  {| _id := _id c; userId := userId c; postIds := postIds c;
     proofFileUrls := proofFileUrls c;
     calculatedEarnings := calculatedEarnings c; status := status c;
     lockedBy := lockedBy c; lockTimestamp := lockTimestamp c;
     deductionAmount := deductionAmount c;
     deductionReason := v; reviewedBy := reviewedBy c;
     finalApprovedBy := finalApprovedBy c; history := history c;
     createdBy := createdBy c; updatedBy := updatedBy c;
     isActive := isActive c |}.

Definition set_reviewedBy (v : option ObjectId) (c : IClaim) : IClaim :=
  {| _id := _id c; userId := userId c; postIds := postIds c;
     proofFileUrls := proofFileUrls c;
     calculatedEarnings := calculatedEarnings c; status := status c;
     lockedBy := lockedBy c; lockTimestamp := lockTimestamp c;
     deductionAmount := deductionAmount c;
     deductionReason := deductionReason c; reviewedBy := v;
     finalApprovedBy := finalApprovedBy c; history := history c;
     createdBy := createdBy c; updatedBy := updatedBy c;
     isActive := isActive c |}.

Definition set_finalApprovedBy (v : option ObjectId) (c : IClaim) : IClaim :=
  {| _id := _id c; userId := userId c; postIds := postIds c;
     proofFileUrls := proofFileUrls c;
     calculatedEarnings := calculatedEarnings c; status := status c;
     lockedBy := lockedBy c; lockTimestamp := lockTimestamp c;
     deductionAmount := deductionAmount c;
     deductionReason := deductionReason c; reviewedBy := reviewedBy c;
     finalApprovedBy := v; history := history c;
     createdBy := createdBy c; updatedBy := updatedBy c;
     isActive := isActive c |}.

Definition set_history (v : list IClaimHistory) (c : IClaim) : IClaim :=
  {| _id := _id c; userId := userId c; postIds := postIds c;
     proofFileUrls := proofFileUrls c;
     calculatedEarnings := calculatedEarnings c; status := status c;
     lockedBy := lockedBy c; lockTimestamp := lockTimestamp c;
     deductionAmount := deductionAmount c;
     deductionReason := deductionReason c; reviewedBy := reviewedBy c;
     finalApprovedBy := finalApprovedBy c; history := v;
     createdBy := createdBy c; updatedBy := updatedBy c;
     isActive := isActive c |}.

Definition set_updatedBy (v : ObjectId) (c : IClaim) : IClaim :=
  {| _id := _id c; userId := userId c; postIds := postIds c;
     proofFileUrls := proofFileUrls c;
     calculatedEarnings := calculatedEarnings c; status := status c;
     lockedBy := lockedBy c; lockTimestamp := lockTimestamp c;
     deductionAmount := deductionAmount c;
     deductionReason := deductionReason c; reviewedBy := reviewedBy c;
     finalApprovedBy := finalApprovedBy c; history := history c;
     createdBy := createdBy c; updatedBy := v;
     isActive := isActive c |}.

Definition set_isActive (v : bool) (c : IClaim) : IClaim :=
  {| _id := _id c; userId := userId c; postIds := postIds c;
     proofFileUrls := proofFileUrls c;
     calculatedEarnings := calculatedEarnings c; status := status c;
     lockedBy := lockedBy c; lockTimestamp := lockTimestamp c;
     deductionAmount := deductionAmount c;
     deductionReason := deductionReason c; reviewedBy := reviewedBy c;
     finalApprovedBy := finalApprovedBy c; history := history c;
     createdBy := createdBy c; updatedBy := updatedBy c;
     isActive := v |}.
End Claim.

(** ** The persistence store: three collections in storage order *)
Record Db : Type := {
  posts : list Post.IPost;
  claims : list Claim.IClaim;
  adminSettings : list AdminSettings.IAdminSettings
}.

(** ** Exceptions

    The source throws plain [Error]s that differ only by message.  Each
    throw site is tagged with the kind of the error taxonomy it belongs
    to; [Rethrown] is what a [catch (error) { throw new Error(`prefix
    ${error}`) }] produces. *)
Inductive ErrorKind : Type :=
| InvalidInput | DuplicateClaim | ForbiddenPost | ConfigurationMissing
| NotFound | InvalidStateTransition | InvalidDeduction | Unauthorized
| TypeError | ValidationError.

Inductive Exception : Type :=
| Error (kind : ErrorKind) (message : string)
| Rethrown (prefix : string) (cause : Exception).

Fixpoint kindOf (e : Exception) : ErrorKind :=
  match e with
  | Error k _ => k
  | Rethrown _ c => kindOf c
  end.

(** The text of [`${error}`]. *)
Fixpoint Exception_toString (e : Exception) : string :=
  match e with
  | Error TypeError m => "TypeError: " ++ m
  | Error ValidationError m => "ValidationError: " ++ m
  | Error _ m => "Error: " ++ m
  | Rethrown p c => "Error: " ++ p ++ Exception_toString c
  end.

(** ** The service monad: store passing with exceptions *)
Inductive Outcome (A : Type) : Type :=
| Returned (a : A)
| Thrown (e : Exception).
Arguments Returned {A} a.
Arguments Thrown {A} e.

Definition Service (A : Type) : Type := Db -> Outcome A * Db.

Definition ret {A} (a : A) : Service A := fun db => (Returned a, db).

Definition throw {A} (e : Exception) : Service A := fun db => (Thrown e, db).

Definition bind {A B} (m : Service A) (k : A -> Service B) : Service B :=
  fun db =>
    match m db with
    | (Returned a, db') => k a db'
    | (Thrown e, db') => (Thrown e, db')
    end.

Notation "x <- m ;; k" := (bind m (fun x => k))
  (at level 61, m at next level, right associativity).

(** [try { body } catch (error) { throw new Error(`prefix${error}`) }] *)
Definition tryCatch {A} (prefix : string) (body : Service A) : Service A :=
  fun db =>
    match body db with
    | (Returned a, db') => (Returned a, db')
    | (Thrown e, db') => (Thrown (Rethrown prefix e), db')
    end.

Definition get {A} (f : Db -> A) : Service A := fun db => (Returned (f db), db).

(** [Array.prototype.includes] on strings. *)
Definition includes (l : list string) (x : string) : bool :=
  existsb (String.eqb x) l.

(** [[...new Set(l)]]: first occurrences, in insertion order. *)
Fixpoint uniq (seen l : list string) : list string :=
  match l with
  | [] => []
  | x :: r => if includes seen x then uniq seen r else x :: uniq (x :: seen) r
  end.

(** The integer nearest to the fraction [n / d], a tie going toward
    +infinity: [floor (n / d + 1/2)]. *)
Definition nearestInteger (n d : Z) : Z := ((2 * n + d) / (2 * d))%Z.

(** [Math.round]: the integer nearest to [x], a tie going toward
    +infinity; NaN, the infinities, the zeros and integral values are
    returned as they are, and a result of zero keeps the sign of [x].
    A finite [x] is [(-1)^s * m * 2^e], so for [e < 0] it is the fraction
    [(-1)^s * m / 2^(-e)]. *)
Definition Math_round (x : float) : float :=
  match Prim2SF x with
  | S754_finite s m e =>
      if (0 <=? e)%Z then x
      else
        let r := nearestInteger (if s then Z.neg m else Z.pos m) (2 ^ (- e)) in
        if (r =? 0)%Z then (if s then (-0)%float else 0%float)
        else if (r <? 0)%Z then (- of_uint63 (Uint63.of_Z (- r)))%float
        else of_uint63 (Uint63.of_Z r)
  | _ => x
  end.

(** *** Queries of the collections *)

(** [Post.find({ _id: { $in: postIds } })] *)
Definition Post_find_in (postIds : list ObjectId) : Service (list Post.IPost) :=
  get (fun db => filter (fun p => includes postIds (Post._id p)) (posts db)).

(** [AdminSettings.findOne({ isActive: true })] *)
Definition AdminSettings_findOne_active
  : Service (option AdminSettings.IAdminSettings) :=
  get (fun db => find AdminSettings.isActive (adminSettings db)).

(** [Claim.find({ postIds: { $in: postIds } })] *)
Definition Claim_find_postIds_in (postIds : list ObjectId)
  : Service (list Claim.IClaim) :=
  get (fun db =>
         filter (fun c => existsb (includes postIds) (Claim.postIds c))
                (claims db)).

(** [Claim.findById(claimId)] *)
Definition Claim_findById (claimId : ObjectId) : Service (option Claim.IClaim) :=
  get (fun db => find (fun c => String.eqb (Claim._id c) claimId) (claims db)).

(** An element of [postIds] after [populate('postIds', 'contentText')]:
    the referenced Post document with the fields the query selects, its
    [_id] and its [contentText]. *)
Record PopulatedPost : Type := {
  ref_id : ObjectId;
  ref_contentText : string
}.

(** The document an id is replaced by, when a post with that id is
    stored. *)
Definition populatePost (db : Db) (postId : ObjectId) : option PopulatedPost :=
  option_map (fun p => {| ref_id := Post._id p;
                          ref_contentText := Post.contentText p |})
             (find (fun p => String.eqb (Post._id p) postId) (posts db)).

(** The populated array: the documents found, in the order of the ids;
    an id that matches no stored post leaves no element. *)
Definition populateClaim (db : Db) (c : Claim.IClaim)
  : Claim.IClaim * list PopulatedPost :=
  (c, flat_map (fun postId => match populatePost db postId with
                              | Some doc => [doc]
                              | None => []
                              end)
               (Claim.postIds c)).

(** [toString()] of a populated element.  It is a Mongoose document, not
    an ObjectId, and prints as the rendering [util.inspect] gives of its
    fields; the layout past the opening brace depends on the versions of
    Node and Mongoose and is not relied upon. *)
Definition PopulatedPost_toString (doc : PopulatedPost) : string :=
  "{ _id: new ObjectId('" ++ ref_id doc ++ "'), contentText: '"
    ++ ref_contentText doc ++ "' }".

(** [.populate('postIds', 'contentText')] on a query result: each claim
    comes with its populated [postIds]. *)
Definition populate_postIds (query : Service (list Claim.IClaim))
  : Service (list (Claim.IClaim * list PopulatedPost)) :=
  fun db =>
    match query db with
    | (Returned found, db') => (Returned (map (populateClaim db') found), db')
    | (Thrown e, db') => (Thrown e, db')
    end.

(** *** Schema validation, models/Claim.ts *)

(** [enum] of [claimHistorySchema.action]. *)
Definition Claim_historyActions : list string :=
  ["submitted"; "deduction_applied"; "user_accepted"; "user_rejected";
   "account_approved"; "admin_approved"; "settled"].

(** [maxlength: 500] on an optional string. *)
Definition within500 (s : option string) : bool :=
  match s with
  | Some s => (String.length s <=? 500)%nat
  | None => true
  end.

(** The validators of one history entry: [enum] on [action], and
    [maxlength] on [note]. *)
Definition Claim_validateEntry (entry : Claim.IClaimHistory) : bool :=
  includes Claim_historyActions (Claim.action entry)
  && within500 (Claim.note entry).

(** The validators [save()] runs on a claim: those of every history
    entry, [min: 0] on [calculatedEarnings] and [deductionAmount] (which
    NaN fails), and [maxlength] on [deductionReason]. *)
Definition Claim_validate (claim : Claim.IClaim) : bool :=
  forallb Claim_validateEntry (Claim.history claim)
  && (0 <=? Claim.calculatedEarnings claim)%float
  && (0 <=? Claim.deductionAmount claim)%float
  && within500 (Claim.deductionReason claim).

(** The store in which the document with the [_id] of [claim] has been
    replaced by [claim]. *)
Definition replaceClaim (claim : Claim.IClaim) (db : Db) : Db :=
  {| posts := posts db;
     claims := map (fun c => if String.eqb (Claim._id c) (Claim._id claim)
                             then claim else c) (claims db);
     adminSettings := adminSettings db |}.

(** [claim.save()] of a loaded document: validation, then the write.
    The message of the ValidationError, which goes on to list the paths
    that failed, is cut after its head. *)
Definition save (claim : Claim.IClaim) : Service Claim.IClaim :=
  fun db =>
    if Claim_validate claim then (Returned claim, replaceClaim claim db)
    else (Thrown (Error ValidationError "Claim validation failed"), db).

(** [new Claim({...}).save()]: the document is added to the collection.
    The document [createClaim] builds has the single history entry
    "submitted", no deduction, and earnings computed from counters and
    rates whose schemas keep them at or above zero. *)
Definition insert (claim : Claim.IClaim) : Service Claim.IClaim :=
  fun db =>
    (Returned claim,
     {| posts := posts db;
        claims := claims db ++ [claim];
        adminSettings := adminSettings db |}).

(** ** services/claimService.ts *)
Module ClaimService.
Import Claim.

(** The argument of [createClaim] as the controller builds it; the type
    is [Partial<IClaim>], and the method itself checks that [userId]
    and [postIds] are present. *)
Record ClaimData : Type := {
  cd_userId : option ObjectId;
  cd_postIds : option (list ObjectId);
  cd_proofFileUrls : list string;
  cd_createdBy : ObjectId;
  cd_updatedBy : ObjectId
}.

Record DeductionData : Type := {
  amount : float;
  reason : string
}.

Definition postEarnings (settings : AdminSettings.IAdminSettings)
           (post : Post.IPost) : float :=
  let likeEarnings :=
    (Post.likeCount post * AdminSettings.ratePerLike settings)%float in
  let viewEarnings :=
    ((Post.viewCount post / 100) * AdminSettings.ratePer100Views settings)%float in
  (likeEarnings + viewEarnings)%float.

(** [static async calculateEarnings(postIds)] *)
Definition calculateEarnings (postIds : list ObjectId) : Service float :=
  tryCatch "Error calculating earnings: "
    (posts <- Post_find_in postIds ;;
     settings <- AdminSettings_findOne_active ;;
     match settings with
     | None => throw (Error ConfigurationMissing "Admin settings not found")
     | Some settings =>
         let totalEarnings :=
           fold_left (fun totalEarnings post =>
                        (totalEarnings + postEarnings settings post)%float)
                     posts 0%float in
         ret (Math_round (totalEarnings * 100) / 100)%float
     end).

(** [post?.contentText ? post.contentText.substring(0, 50) + '...'
     : `Post ${postIdStr}`] *)
Definition postContent (post : PopulatedPost) (postIdStr : string) : string :=
  match ref_contentText post with
  | String a s => substring 0 50 (String a s) ++ "..."
  | EmptyString => "Post " ++ postIdStr
  end.

(** [`${postIdStr} (${content}) - Status: ${existingClaim.status}`] *)
Definition postDetail (post : PopulatedPost) (postIdStr : string) (st : Status)
  : string :=
  postIdStr ++ " (" ++ postContent post postIdStr ++ ") - Status: "
            ++ Status_toString st.

(** The two nested [forEach] loops that fill [alreadyClaimedPostDetails]
    (the set [alreadyClaimedPostIds] they also fill is never read).  The
    inner loop runs over the populated array, so [postId] is a document
    and [postIdStr] its rendering. *)
Definition alreadyClaimedPostDetails (newPostIds : list ObjectId)
           (existingClaimsWithSamePosts : list (IClaim * list PopulatedPost))
  : list string :=
  flat_map
    (fun existing =>
       let existingClaim := fst existing in
       flat_map (fun postId =>
                   let postIdStr := PopulatedPost_toString postId in
                   if includes newPostIds postIdStr
                   then [postDetail postId postIdStr (status existingClaim)]
                   else [])
                (snd existing))
    existingClaimsWithSamePosts.

Definition duplicateClaimMessage (details : list string) : string :=
  "❌ Duplicate Claim Detected: The following posts are already claimed: "
    ++ concat ", " details ++ ". Each post can only be claimed once.".

Definition invalidPostsMessage (invalidPostIds : list ObjectId) : string :=
  "❌ Invalid Posts: Posts with IDs " ++ concat ", " invalidPostIds
    ++ " do not belong to you. You can only claim earnings for your own posts.".

(** [static async createClaim(claimData)]; [newId] is the [_id] given to
    the new document and [now] the value of [new Date()]. *)
Definition createClaim (claimData : ClaimData) (newId : ObjectId) (now : Z)
  : Service IClaim :=
  tryCatch "Error creating claim: "
    (match cd_userId claimData, cd_postIds claimData with
     | Some userId, Some (p :: ps) =>
         let newPostIds := p :: ps in
         let uniquePostIds := uniq [] newPostIds in
         if negb (List.length uniquePostIds =? List.length newPostIds)%nat then
           throw (Error InvalidInput
             "❌ Duplicate posts detected in your selection. Please remove duplicate posts and try again.")
         else
           existingClaimsWithSamePosts <-
             populate_postIds (Claim_find_postIds_in newPostIds) ;;
           if (0 <? List.length existingClaimsWithSamePosts)%nat then
             throw (Error DuplicateClaim
                      (duplicateClaimMessage
                         (alreadyClaimedPostDetails
                            newPostIds existingClaimsWithSamePosts)))
           else
             posts <- Post_find_in newPostIds ;;
             let invalidPosts :=
               filter (fun post => negb (String.eqb (Post.userId post) userId))
                      posts in
             if (0 <? List.length invalidPosts)%nat then
               throw (Error ForbiddenPost
                        (invalidPostsMessage (map Post._id invalidPosts)))
             else
               earnings <- calculateEarnings newPostIds ;;
               insert {| _id := newId;
                         userId := userId;
                         postIds := newPostIds;
                         proofFileUrls := cd_proofFileUrls claimData;
                         calculatedEarnings := earnings;
                         status := pending;
                         lockedBy := None;
                         lockTimestamp := None;
                         deductionAmount := 0;
                         deductionReason := None;
                         reviewedBy := None;
                         finalApprovedBy := None;
                         history := [ {| action := "submitted";
                                         by_ := cd_createdBy claimData;
                                         timestamp := now;
                                         note := None |} ];
                         createdBy := cd_createdBy claimData;
                         updatedBy := cd_updatedBy claimData;
                         isActive := true |}
     | _, _ =>
         throw (Error InvalidInput
                  "❌ Invalid claim data: User ID and post IDs are required")
     end).

Definition validActions : list string :=
  ["submitted"; "deduction_applied"; "user_accepted"; "user_rejected";
   "account_approved"; "admin_approved"; "settled"].

(** "Clean up any invalid history entries before adding new one":
    [if (claim.history && claim.history.length > 0)
       claim.history = claim.history.filter(...)] *)
Definition cleanHistory (claim : IClaim) : IClaim :=
  if (0 <? List.length (history claim))%nat then
    set_history
      (filter (fun entry => includes validActions (action entry))
              (history claim))
      claim
  else claim.

(** [claim.history.push(entry)] *)
Definition history_push (entry : IClaimHistory) (claim : IClaim) : IClaim :=
  set_history (history claim ++ [entry]) claim.

(** [static async applyDeduction(claimId, deductionData, reviewerId)] *)
Definition applyDeduction (claimId : ObjectId) (deductionData : DeductionData)
           (reviewerId : ObjectId) (now : Z) : Service IClaim :=
  tryCatch "Error applying deduction: "
    (found <- Claim_findById claimId ;;
     match found with
     | None => throw (Error NotFound "Claim not found")
     | Some claim =>
         if negb (Status_eqb (status claim) pending) then
           throw (Error InvalidStateTransition
             "Claim can only have deduction applied when status is pending")
         else if (amount deductionData <=? 0)%float then
           throw (Error InvalidDeduction
             "Deduction amount must be greater than 0")
         else if (* [amount >= calculatedEarnings] *)
                 (calculatedEarnings claim <=? amount deductionData)%float then
           throw (Error InvalidDeduction
             "Deduction amount cannot be greater than or equal to calculated earnings")
         else
           let claim := cleanHistory claim in
           let claim :=
             history_push
               {| action := "deduction_applied";
                  by_ := reviewerId;
                  timestamp := now;
                  note := Some ("Deduction applied: " ++ reason deductionData) |}
               claim in
           let claim := set_deductionAmount (amount deductionData) claim in
           let claim := set_deductionReason (Some (reason deductionData)) claim in
           let claim := set_status deducted claim in
           let claim := set_reviewedBy (Some reviewerId) claim in
           let claim := set_updatedBy reviewerId claim in
           save claim
     end).

(** [static async respondToDeduction(claimId, accepted, userId)] *)
Definition respondToDeduction (claimId : ObjectId) (accepted : bool)
           (userId : ObjectId) (now : Z) : Service IClaim :=
  tryCatch "Error responding to deduction: "
    (found <- Claim_findById claimId ;;
     match found with
     | None => throw (Error NotFound "Claim not found")
     | Some claim =>
         if negb (Status_eqb (status claim) deducted) then
           throw (Error InvalidStateTransition
             "Claim can only be responded to when status is deducted")
         else
           let claimUserIdStr := Claim.userId claim in
           let userIdStr := userId in
           if negb (String.eqb userIdStr claimUserIdStr) then
             throw (Error Unauthorized "Unauthorized to respond to this claim")
           else
             let claim := cleanHistory claim in
             let claim :=
               history_push
                 {| action := if accepted then "user_accepted"
                              else "user_rejected";
                    by_ := userId;
                    timestamp := now;
                    note := Some (if accepted then "User accepted the deduction"
                                  else "User rejected the deduction") |}
                 claim in
             let claim :=
               if accepted then set_status user_accepted claim
               else
                 let claim := set_status user_rejected claim in
                 let claim := set_deductionAmount 0 claim in
                 set_deductionReason (Some "") claim in
             let claim := set_updatedBy userId claim in
             save claim
     end).

(** [static async accountApprove(claimId, reviewerId)] *)
Definition accountApprove (claimId : ObjectId) (reviewerId : ObjectId)
           (now : Z) : Service IClaim :=
  tryCatch "Error approving claim: "
    (found <- Claim_findById claimId ;;
     match found with
     | None => throw (Error NotFound "Claim not found")
     | Some claim =>
         if negb (Status_eqb (status claim) pending)
            && negb (Status_eqb (status claim) user_rejected) then
           throw (Error InvalidStateTransition
             "Claim can only be approved when status is pending or user_rejected")
         else
           let claim := cleanHistory claim in
           let claim :=
             history_push
               {| action := "account_approved";
                  by_ := reviewerId;
                  timestamp := now;
                  note := Some "Claim approved by account reviewer" |}
               claim in
           let claim := set_status account_approved claim in
           let claim := set_reviewedBy (Some reviewerId) claim in
           let claim := set_updatedBy reviewerId claim in
           save claim
     end).

(** [static async accountReject(claimId, reviewerId, reason)] *)
Definition accountReject (claimId : ObjectId) (reviewerId : ObjectId)
           (reason : string) (now : Z) : Service IClaim :=
  tryCatch "Error rejecting claim: "
    (found <- Claim_findById claimId ;;
     match found with
     | None => throw (Error NotFound "Claim not found")
     | Some claim =>
         if negb (Status_eqb (status claim) pending)
            && negb (Status_eqb (status claim) user_rejected) then
           throw (Error InvalidStateTransition
             "Claim cannot be rejected in current status")
         else
           let claim := cleanHistory claim in
           let claim :=
             history_push
               {| action := "user_rejected";
                  by_ := reviewerId;
                  timestamp := now;
                  note := Some reason |}
               claim in
           let claim := set_status user_rejected claim in
           let claim := set_reviewedBy (Some reviewerId) claim in
           let claim := set_updatedBy reviewerId claim in
           let claim := set_deductionReason (Some reason) claim in
           save claim
     end).

(** [static async adminApprove(claimId, adminId)] *)
Definition adminApprove (claimId : ObjectId) (adminId : ObjectId) (now : Z)
  : Service IClaim :=
  tryCatch "Error approving claim: "
    (found <- Claim_findById claimId ;;
     match found with
     | None => throw (Error NotFound "Claim not found")
     | Some claim =>
         if negb (Status_eqb (status claim) account_approved)
            && negb (Status_eqb (status claim) user_accepted) then
           throw (Error InvalidStateTransition
             "Claim can only be finally approved when status is account_approved or user_accepted")
         else
           let claim := cleanHistory claim in
           let claim :=
             history_push
               {| action := "admin_approved";
                  by_ := adminId;
                  timestamp := now;
                  note := Some "Claim finally approved by admin" |}
               claim in
           let claim := set_status admin_approved claim in
           let claim := set_finalApprovedBy (Some adminId) claim in
           let claim := set_updatedBy adminId claim in
           save claim
     end).

(** [30 * 60 * 1000] milliseconds. *)
Definition lockThreshold : Z := 30 * 60 * 1000.

(** [static async lockClaim(claimId, userId)]; [now] is the clock value
    read by [Date.now()] and [new Date()]. *)
Definition lockClaim (claimId : ObjectId) (userId : ObjectId) (now : Z)
  : Service bool :=
  tryCatch "Error locking claim: "
    (found <- Claim_findById claimId ;;
     match found with
     | None => throw (Error NotFound "Claim not found")
     | Some claim =>
         (* "Check if already locked by someone else" *)
         let lockedByOther :=
           match lockedBy claim with
           | Some holder => negb (String.eqb holder userId)
           | None => false
           end in
         heldFresh <-
           (if lockedByOther then
              match lockTimestamp claim with
              | None =>
                  (* [claim.lockTimestamp!.getTime()] on [null] *)
                  throw (Error TypeError
                           "Cannot read properties of null (reading 'getTime')")
              | Some lockTimestamp =>
                  let lockAge := (now - lockTimestamp)%Z in
                  ret (lockAge <? lockThreshold)%Z
              end
            else ret false) ;;
         if heldFresh then ret false
         else
           let claim := set_lockedBy (Some userId) claim in
           let claim := set_lockTimestamp (Some now) claim in
           _ <- save claim ;;
           ret true
     end).

(** [static async unlockClaim(claimId, userId)] *)
Definition unlockClaim (claimId : ObjectId) (userId : ObjectId)
  : Service unit :=
  tryCatch "Error unlocking claim: "
    (found <- Claim_findById claimId ;;
     match found with
     | None => throw (Error NotFound "Claim not found")
     | Some claim =>
         match lockedBy claim with
         | Some holder =>
             if String.eqb holder userId then
               let claim := set_lockedBy None claim in
               let claim := set_lockTimestamp None claim in
               _ <- save claim ;;
               ret tt
             else ret tt
         | None => ret tt
         end
     end).
(** The value [checkPostsAlreadyClaimed] resolves to. *)
Record PostsCheck : Type := {
  alreadyClaimed : bool;
  conflictingPosts : list string
}.

(** [static async checkPostsAlreadyClaimed(userId, postIds)]; the
    [userId] argument is not read. *)
Definition checkPostsAlreadyClaimed (userId : ObjectId)
           (postIds : list ObjectId) : Service PostsCheck :=
  tryCatch "Error checking for existing claims: "
    (existingClaimsWithSamePosts <-
       populate_postIds (Claim_find_postIds_in postIds) ;;
     if (List.length existingClaimsWithSamePosts =? 0)%nat then
       ret {| alreadyClaimed := false; conflictingPosts := [] |}
     else
       let postIdStrings := postIds in
       let conflictingPosts :=
         alreadyClaimedPostDetails postIdStrings existingClaimsWithSamePosts in
       ret {| alreadyClaimed := (0 <? List.length conflictingPosts)%nat;
              conflictingPosts := uniq [] conflictingPosts |}).

(** [Claim.find({ userId: userId, isActive: true }).select('postIds')] *)
Definition Claim_find_active_of (userId : ObjectId) : Service (list IClaim) :=
  get (fun db =>
         filter (fun c => String.eqb (Claim.userId c) userId && isActive c)
                (claims db)).

(** [static async getUserClaimedPostIds(userId)]: the ids are collected
    in a [Set] and returned as [Array.from(set)]. *)
Definition getUserClaimedPostIds (userId : ObjectId) : Service (list string) :=
  tryCatch "Error getting user's claimed post IDs: "
    (found <- Claim_find_active_of userId ;;
     ret (uniq [] (flat_map postIds found))).
End ClaimService.

(** ** The transition operations as one family

    The five state-changing methods of the claim state machine, with the
    arguments each takes besides the claim id and the clock. *)
Inductive Transition : Type :=
| ApplyDeduction (deductionData : ClaimService.DeductionData) (reviewerId : ObjectId)
| RespondToDeduction (accepted : bool) (userId : ObjectId)
| AccountApprove (reviewerId : ObjectId)
| AccountReject (reviewerId : ObjectId) (reason : string)
| AdminApprove (adminId : ObjectId).

Definition perform (t : Transition) (claimId : ObjectId) (now : Z)
  : Service Claim.IClaim :=
  match t with
  | ApplyDeduction d r => ClaimService.applyDeduction claimId d r now
  | RespondToDeduction a u => ClaimService.respondToDeduction claimId a u now
  | AccountApprove r => ClaimService.accountApprove claimId r now
  | AccountReject r why => ClaimService.accountReject claimId r why now
  | AdminApprove a => ClaimService.adminApprove claimId a now
  end.

(** The table of valid source statuses of the state machine, as the
    specification lists it. *)
Definition sourceStatuses (t : Transition) : list Claim.Status :=
  match t with
  | ApplyDeduction _ _ => [Claim.pending]
  | RespondToDeduction _ _ => [Claim.deducted]
  | AccountApprove _ => [Claim.pending; Claim.user_rejected]
  | AccountReject _ _ => [Claim.pending; Claim.user_rejected]
  | AdminApprove _ => [Claim.account_approved; Claim.user_accepted]
  end.

(** ** Outcomes of a call *)

(** The call threw an error of kind [k] and left the store as it was. *)
Definition failsWith {A} (k : ErrorKind) (r : Outcome A * Db) (db : Db) : Prop :=
  exists e, r = (Thrown e, db) /\ kindOf e = k.

(** The call returned [a]. *)
Definition returns {A} (r : Outcome A * Db) (a : A) : Prop :=
  fst r = Returned a.

Definition succeeds {A} (r : Outcome A * Db) : Prop :=
  exists a, returns r a.

(** The claim stored under [claimId], as [findById] sees it. *)
Definition lookupClaim (db : Db) (claimId : ObjectId) : option Claim.IClaim :=
  find (fun c => String.eqb (Claim._id c) claimId) (claims db).

(** The store after a [claim.save()] that wrote. *)
Definition saved (claim : Claim.IClaim) (db : Db) : Db := replaceClaim claim db.

(** ** Specification-side notions *)

(** The earnings of one post as the specification writes the formula:
    [L * rl + (V / 100) * rv]. *)
Definition earningsFormula (L V rl rv : float) : float :=
  (L * rl + (V / 100) * rv)%float.

(** The sum of the formula over a list of posts, taken in list order
    from 0. *)
Definition earningsSum (rl rv : float) (ps : list Post.IPost) : float :=
  fold_left (fun total p =>
               (total + earningsFormula (Post.likeCount p) (Post.viewCount p)
                                        rl rv)%float)
            ps 0%float.

(** Rounding to two decimal places: the nearest whole number of
    hundredths, a tie going up, divided by 100. *)
Definition roundTo2dp (x : float) : float := (Math_round (x * 100) / 100)%float.

(** The posts of the store that a list of ids refers to. *)
Definition referencedPosts (db : Db) (postIds : list ObjectId) : list Post.IPost :=
  filter (fun p => includes postIds (Post._id p)) (posts db).


(** The store after [new Claim(...).save()]. *)
Definition inserted (claim : Claim.IClaim) (db : Db) : Db := snd (insert claim db).

(** The entry [respondToDeduction] appends. *)
Definition responseEntry (accepted : bool) (actorId : ObjectId) (now : Z)
  : Claim.IClaimHistory :=
  {| Claim.action := if accepted then "user_accepted" else "user_rejected";
     Claim.by_ := actorId;
     Claim.timestamp := now;
     Claim.note := Some (if accepted then "User accepted the deduction"
                         else "User rejected the deduction") |}.

(** The status a transition leaves the claim in. *)
Definition targetStatus (t : Transition) : Claim.Status :=
  match t with
  | ApplyDeduction _ _ => Claim.deducted
  | RespondToDeduction accepted _ =>
      if accepted then Claim.user_accepted else Claim.user_rejected
  | AccountApprove _ => Claim.account_approved
  | AccountReject _ _ => Claim.user_rejected
  | AdminApprove _ => Claim.admin_approved
  end.

(** What a transition checks on the loaded claim besides its status: the
    bounds of the deduction, and that the responding user owns the claim. *)
Definition otherGuards (t : Transition) (c : Claim.IClaim) : Prop :=
  match t with
  | ApplyDeduction d _ =>
      (0 <? ClaimService.amount d)%float = true
      /\ (ClaimService.amount d <? Claim.calculatedEarnings c)%float = true
  | RespondToDeduction _ userId => userId = Claim.userId c
  | _ => True
  end.

(** The document [createClaim] builds once every check has passed. *)
Definition newClaim (claimData : ClaimService.ClaimData) (owner : ObjectId)
           (ids : list ObjectId) (earnings : float) (newId : ObjectId) (now : Z)
  : Claim.IClaim :=
  {| Claim._id := newId; Claim.userId := owner; Claim.postIds := ids;
     Claim.proofFileUrls := ClaimService.cd_proofFileUrls claimData;
     Claim.calculatedEarnings := earnings; Claim.status := Claim.pending;
     Claim.lockedBy := None; Claim.lockTimestamp := None;
     Claim.deductionAmount := 0; Claim.deductionReason := None;
     Claim.reviewedBy := None; Claim.finalApprovedBy := None;
     Claim.history := [ {| Claim.action := "submitted";
                           Claim.by_ := ClaimService.cd_createdBy claimData;
                           Claim.timestamp := now; Claim.note := None |} ];
     Claim.createdBy := ClaimService.cd_createdBy claimData;
     Claim.updatedBy := ClaimService.cd_updatedBy claimData;
     Claim.isActive := true |}.

(** Every entry of a history carries an action of the vocabulary. *)
Definition historyInVocabulary (h : list Claim.IClaimHistory) : Prop :=
  Forall (fun entry => In (Claim.action entry) ClaimService.validActions) h.

(** ** Preconditions on inputs and on stored data *)

(** A hexadecimal digit in lower case. *)
Definition isHexDigit (c : ascii) : bool :=
  let n := nat_of_ascii c in
  ((48 <=? n)%nat && (n <=? 57)%nat) || ((97 <=? n)%nat && (n <=? 102)%nat).

(** A string that is the [toString()] of an ObjectId: 24 hexadecimal
    digits. *)
Definition isObjectId (s : string) : bool :=
  (String.length s =? 24)%nat && forallb isHexDigit (list_ascii_of_string s).

(** The stored claim passes the validators of [save()] once the entries
    of its history outside the vocabulary are dropped: the notes of the
    entries kept and [deductionReason] have at most 500 characters, and
    [calculatedEarnings] and [deductionAmount] are not below 0. *)
Definition storable (c : Claim.IClaim) : Prop :=
  Claim_validate (ClaimService.cleanHistory c) = true.

(** The texts a transition writes fit the 500 characters the schema
    allows a history note and [deductionReason]. *)
Definition textsFit (t : Transition) : Prop :=
  match t with
  | ApplyDeduction d _ =>
      (String.length ("Deduction applied: " ++ ClaimService.reason d) <= 500)%nat
  | AccountReject _ reason => (String.length reason <= 500)%nat
  | _ => True
  end.

(** [text] contains [piece]. *)
Definition mentions (text piece : string) : Prop :=
  exists before after : string, text = before ++ piece ++ after.

(** Earnings in whole cents under standard rounding, for counters and
    rates given exactly, the rates in cents: the sum
    [likes * centsPerLike + views * centsPer100Views / 100], rounded to
    the nearest cent with a half cent going up. *)
Definition expectedCents (likes views centsPerLike centsPer100Views : Z) : Z :=
  nearestInteger (100 * likes * centsPerLike + views * centsPer100Views) 100.

(** ** Notions used by the further properties *)

(** What no transition touches: identity, owner, posts, proofs, the
    earnings fixed at creation, the creator, the active flag and the lock. *)
Definition keepsCoreFields (c c' : Claim.IClaim) : Prop :=
  Claim._id c' = Claim._id c
  /\ Claim.userId c' = Claim.userId c
  /\ Claim.postIds c' = Claim.postIds c
  /\ Claim.proofFileUrls c' = Claim.proofFileUrls c
  /\ Claim.calculatedEarnings c' = Claim.calculatedEarnings c
  /\ Claim.createdBy c' = Claim.createdBy c
  /\ Claim.isActive c' = Claim.isActive c
  /\ Claim.lockedBy c' = Claim.lockedBy c
  /\ Claim.lockTimestamp c' = Claim.lockTimestamp c.

(** [c'] is [c] with the given lock fields and nothing else changed. *)
Definition relocked (holder : option ObjectId) (at_ : option Z)
           (c : Claim.IClaim) : Claim.IClaim :=
  Claim.set_lockTimestamp at_ (Claim.set_lockedBy holder c).

(** [lockedBy] and [lockTimestamp] are both set or both unset. *)
Definition lockConsistent (c : Claim.IClaim) : Prop :=
  Claim.lockedBy c = None <-> Claim.lockTimestamp c = None.

(** No post id is referenced twice, within a claim or across claims. *)
Definition postsClaimedOnce (db : Db) : Prop :=
  NoDup (flat_map Claim.postIds (claims db)).

(** The store a call leaves behind. *)
Definition storeAfter {A} (r : Outcome A * Db) : Db := snd r.

(** The call threw. *)
Definition throws {A} (r : Outcome A * Db) : Prop :=
  exists e, fst r = Thrown e.

(** A request [createClaim] accepts as input: an owner and a non-empty
    list of post ids without repetition. *)
Definition wellFormed (claimData : ClaimService.ClaimData) (owner : ObjectId)
           (ids : list ObjectId) : Prop :=
  ClaimService.cd_userId claimData = Some owner
  /\ ClaimService.cd_postIds claimData = Some ids
  /\ ids <> []
  /\ NoDup ids.

(** No stored claim references one of these post ids. *)
Definition conflictFree (db : Db) (ids : list ObjectId) : Prop :=
  forall c p, In c (claims db) -> In p ids -> ~ In p (Claim.postIds c).

(** Every stored post among the referenced ones belongs to [owner]. *)
Definition allOwnedBy (db : Db) (ids : list ObjectId) (owner : ObjectId) : Prop :=
  forall q, In q (posts db) -> In (Post._id q) ids -> Post.userId q = owner.

(** Stored claims have distinct ids. *)
Definition claimIdsUnique (db : Db) : Prop :=
  NoDup (map Claim._id (claims db)).

(** ** The HTTP layer

    A controller reads [req.user], [req.params.id] and [req.body], calls
    the service inside [try { ... } catch], and answers with a status
    code and a JSON body; it never throws. *)

(** Modelled from the spec: [models/User.ts] is not among the sources;
    the identity collaborator supplies an actor id and a role, the two
    fields of [req.user] the controllers read. *)
Record IUser : Type := {
  user_id : ObjectId;
  role : string
}.

(** The JSON bodies the modelled controllers send. *)
Inductive Body : Type :=
| Message (message : string)
| Success (message : string)
| Failure (message : string)
| ClaimSummary (id : ObjectId) (status : Claim.Status)
| DeductionSummary (id : ObjectId) (status : Claim.Status)
                   (deductionAmount : float) (deductionReason : option string)
| Rates (ratePerLike ratePer100Views : float)
| SettingsSaved (message : string) (settings : AdminSettings.IAdminSettings)
| LikeCount (likeCount : float)
| ViewCount (viewCount : float).

Record HttpResponse : Type := {
  code : nat;
  body : Body
}.

Definition Handler : Type := Db -> HttpResponse * Db.

(** [res.status(code).json(body); return;] *)
Definition respond (code : nat) (body : Body) : Handler :=
  fun db => ({| code := code; body := body |}, db).

(** [error.message]: the text an [Error] was built with. *)
Definition Exception_message (e : Exception) : string :=
  match e with
  | Error _ m => m
  | Rethrown p c => p ++ Exception_toString c
  end.

(** [a || b] on strings: the empty string is falsy. *)
Definition orElse (a b : string) : string :=
  match a with
  | EmptyString => b
  | _ => a
  end.

(** [!x] on a number: 0, -0 and NaN are falsy. *)
Definition falsyNumber (x : float) : bool :=
  (x =? 0)%float || negb (x =? x)%float.

(** ** controllers/claimController.ts: the transition endpoints *)
Module ClaimController.

(** [req.body] of [applyDeduction], for bodies whose [deductionAmount] is
    a number and whose [deductionReason] is a string; a field is [None]
    when it is absent. *)
Record DeductionBody : Type := {
  deductionAmount : option float;
  deductionReason : option string
}.

Definition applyDeduction (user : option IUser) (id : ObjectId)
           (body : DeductionBody) (now : Z) : Handler :=
  fun db =>
    match user with
    | None => respond 401 (Message "Authentication required") db
    | Some user =>
        if negb (String.eqb (role user) "account") then
          respond 403 (Message "Only account reviewers can apply deductions") db
        else
          match deductionAmount body, deductionReason body with
          | Some amount, Some (String a r) =>
              if falsyNumber amount then
                respond 400 (Message "Deduction amount and reason are required") db
              else
                match ClaimService.applyDeduction
                        id {| ClaimService.amount := amount;
                              ClaimService.reason := String a r |}
                        (user_id user) now db with
                | (Returned claim, db') =>
                    respond 200
                      (DeductionSummary (Claim._id claim) (Claim.status claim)
                                        (Claim.deductionAmount claim)
                                        (Claim.deductionReason claim)) db'
                | (Thrown _, db') =>
                    respond 500
                      (Message "Server error while applying deduction") db'
                end
          | _, _ =>
              respond 400 (Message "Deduction amount and reason are required") db
          end
    end.

(** [accepted] is [None] when [typeof accepted !== 'boolean']. *)
Definition respondToDeduction (user : option IUser) (id : ObjectId)
           (accepted : option bool) (now : Z) : Handler :=
  fun db =>
    match user with
    | None => respond 401 (Message "Authentication required") db
    | Some user =>
        if negb (String.eqb (role user) "user") then
          respond 403 (Message "Only users can respond to deductions") db
        else
          match accepted with
          | None => respond 400 (Message "Accepted field must be a boolean") db
          | Some accepted =>
              match ClaimService.respondToDeduction
                      id accepted (user_id user) now db with
              | (Returned claim, db') =>
                  respond 200
                    (ClaimSummary (Claim._id claim) (Claim.status claim)) db'
              | (Thrown _, db') =>
                  respond 500
                    (Message "Server error while responding to deduction") db'
              end
          end
    end.

Definition accountApprove (user : option IUser) (id : ObjectId) (now : Z)
  : Handler :=
  fun db =>
    match user with
    | None => respond 401 (Message "Authentication required") db
    | Some user =>
        if negb (String.eqb (role user) "account") then
          respond 403 (Message "Only account reviewers can approve claims") db
        else
          match ClaimService.accountApprove id (user_id user) now db with
          | (Returned claim, db') =>
              respond 200
                (ClaimSummary (Claim._id claim) (Claim.status claim)) db'
          | (Thrown error, db') =>
              respond 500
                (Message (orElse (Exception_message error)
                                 "Server error while approving claim")) db'
          end
    end.

(** [reason] is [None] when the body has none. *)
Definition accountReject (user : option IUser) (id : ObjectId)
           (reason : option string) (now : Z) : Handler :=
  fun db =>
    match user with
    | None => respond 401 (Message "Authentication required") db
    | Some user =>
        if negb (String.eqb (role user) "account") then
          respond 403 (Message "Only account reviewers can reject claims") db
        else
          match reason with
          | Some (String a r) =>
              match ClaimService.accountReject
                      id (user_id user) (String a r) now db with
              | (Returned claim, db') =>
                  respond 200
                    (ClaimSummary (Claim._id claim) (Claim.status claim)) db'
              | (Thrown error, db') =>
                  respond 500
                    (Message (orElse (Exception_message error)
                                     "Server error while rejecting claim")) db'
              end
          | _ => respond 400 (Message "Rejection reason is required") db
          end
    end.

Definition adminApprove (user : option IUser) (id : ObjectId) (now : Z)
  : Handler :=
  fun db =>
    match user with
    | None => respond 401 (Message "Authentication required") db
    | Some user =>
        if negb (String.eqb (role user) "admin") then
          respond 403 (Message "Only admins can finalize claims") db
        else
          match ClaimService.adminApprove id (user_id user) now db with
          | (Returned claim, db') =>
              respond 200
                (ClaimSummary (Claim._id claim) (Claim.status claim)) db'
          | (Thrown _, db') =>
              respond 500 (Message "Server error while finalizing claim") db'
          end
    end.

Definition lockClaim (user : option IUser) (id : ObjectId) (now : Z)
  : Handler :=
  fun db =>
    match user with
    | None => respond 401 (Message "Authentication required") db
    | Some user =>
        match ClaimService.lockClaim id (user_id user) now db with
        | (Returned locked, db') =>
            if negb locked then
              respond 409
                (Message "Claim is currently being edited by another user") db'
            else respond 200 (Success "Claim locked successfully") db'
        | (Thrown _, db') =>
            respond 500 (Message "Server error while locking claim") db'
        end
    end.

Definition unlockClaim (user : option IUser) (id : ObjectId) : Handler :=
  fun db =>
    match user with
    | None => respond 401 (Message "Authentication required") db
    | Some user =>
        match ClaimService.unlockClaim id (user_id user) db with
        | (Returned _, db') =>
            respond 200 (Success "Claim unlocked successfully") db'
        | (Thrown _, db') =>
            respond 500 (Message "Server error while unlocking claim") db'
        end
    end.
End ClaimController.

(** ** controllers/adminController.ts: the rate configuration *)
Module AdminController.

(** [getCurrentSettings] *)
Definition getCurrentSettings : Handler :=
  fun db =>
    match find AdminSettings.isActive (adminSettings db) with
    | None => respond 200 (Rates 1 50) db
    | Some settings =>
        respond 200 (Rates (AdminSettings.ratePerLike settings)
                           (AdminSettings.ratePer100Views settings)) db
    end.

(** [req.body] of [updateAdminSettings]; a field is [None] when
    [typeof] of it is not ['number']. *)
Record RatesBody : Type := {
  ratePerLike : option float;
  ratePer100Views : option float
}.

(** [AdminSettings.updateMany({ isActive: true }, { isActive: false, ... })] *)
Definition deactivateAll (db : Db) : Db :=
  {| posts := posts db;
     claims := claims db;
     adminSettings :=
       map (fun s =>
              if AdminSettings.isActive s then
                {| AdminSettings.ratePerLike := AdminSettings.ratePerLike s;
                   AdminSettings.ratePer100Views := AdminSettings.ratePer100Views s;
                   AdminSettings.isActive := false |}
              else s)
           (adminSettings db) |}.

(** [new AdminSettings({...}).save()] *)
Definition insertSettings (s : AdminSettings.IAdminSettings) (db : Db) : Db :=
  {| posts := posts db;
     claims := claims db;
     adminSettings := adminSettings db ++ [s] |}.

(** [updateAdminSettings]; [user] is [req.user?._id]. *)
Definition updateAdminSettings (user : option ObjectId) (body : RatesBody)
  : Handler :=
  fun db =>
    match ratePerLike body, ratePer100Views body with
    | Some ratePerLike, Some ratePer100Views =>
        if (ratePerLike <? 0)%float || (ratePer100Views <? 0)%float then
          respond 400 (Failure "Rates cannot be negative") db
        else
          match user with
          | None => respond 401 (Failure "User not authenticated") db
          | Some _ =>
              let existingSettings :=
                filter AdminSettings.isActive (adminSettings db) in
              let db :=
                if (0 <? List.length existingSettings)%nat
                then deactivateAll db else db in
              let newSettings :=
                {| AdminSettings.ratePerLike := ratePerLike;
                   AdminSettings.ratePer100Views := ratePer100Views;
                   AdminSettings.isActive := true |} in
              respond 200
                (SettingsSaved "Admin settings updated successfully" newSettings)
                (insertSettings newSettings db)
          end
    | _, _ =>
        respond 400
          (Failure "ratePerLike and ratePer100Views must be numbers") db
    end.
End AdminController.

(** ** controllers/postController.ts: likes, views and soft deletion *)
Module PostController.

(** [Post.findById(id)] *)
Definition Post_findById (db : Db) (id : ObjectId) : option Post.IPost :=
  find (fun p => String.eqb (Post._id p) id) (posts db).

(** The stored post with this [_id] replaced by [f] of it. *)
Definition updatePostById (id : ObjectId) (f : Post.IPost -> Post.IPost)
           (db : Db) : Db :=
  {| posts := map (fun p => if String.eqb (Post._id p) id then f p else p)
                  (posts db);
     claims := claims db;
     adminSettings := adminSettings db |}.

Definition set_likeCount (v : float) (p : Post.IPost) : Post.IPost :=
  {| Post._id := Post._id p; Post.userId := Post.userId p;
     Post.contentText := Post.contentText p; Post.likeCount := v;
     Post.viewCount := Post.viewCount p; Post.isActive := Post.isActive p |}.

Definition set_viewCount (v : float) (p : Post.IPost) : Post.IPost :=
  {| Post._id := Post._id p; Post.userId := Post.userId p;
     Post.contentText := Post.contentText p; Post.likeCount := Post.likeCount p;
     Post.viewCount := v; Post.isActive := Post.isActive p |}.

Definition set_isActive (v : bool) (p : Post.IPost) : Post.IPost :=
  {| Post._id := Post._id p; Post.userId := Post.userId p;
     Post.contentText := Post.contentText p; Post.likeCount := Post.likeCount p;
     Post.viewCount := Post.viewCount p; Post.isActive := v |}.

(** [incrementLikes]:
    [Post.findByIdAndUpdate(id, { $inc: { likeCount: 1 } }, { new: true })] *)
Definition incrementLikes (id : ObjectId) : Handler :=
  fun db =>
    match Post_findById db id with
    | None => respond 404 (Message "Post not found") db
    | Some post =>
        let post := set_likeCount (Post.likeCount post + 1)%float post in
        respond 200 (LikeCount (Post.likeCount post))
                (updatePostById id (fun _ => post) db)
    end.

(** [incrementViews] *)
Definition incrementViews (id : ObjectId) : Handler :=
  fun db =>
    match Post_findById db id with
    | None => respond 404 (Message "Post not found") db
    | Some post =>
        let post := set_viewCount (Post.viewCount post + 1)%float post in
        respond 200 (ViewCount (Post.viewCount post))
                (updatePostById id (fun _ => post) db)
    end.

(** The validators of models/Post.ts that [post.save()] runs:
    [required] and [maxlength: 1000] on [contentText], [min: 0] on the
    two counters. *)
Definition Post_validate (post : Post.IPost) : bool :=
  match Post.contentText post with
  | EmptyString => false
  | String _ _ => true
  end
  && (String.length (Post.contentText post) <=? 1000)%nat
  && (0 <=? Post.likeCount post)%float
  && (0 <=? Post.viewCount post)%float.

(** [deletePost]: the post is kept and marked inactive; a [post.save()]
    that fails validation is caught and answered 500. *)
Definition deletePost (user : option IUser) (id : ObjectId) : Handler :=
  fun db =>
    match user with
    | None => respond 401 (Message "Authentication required") db
    | Some user =>
        match Post_findById db id with
        | None => respond 404 (Message "Post not found") db
        | Some post =>
            if negb (String.eqb (Post.userId post) (user_id user)) then
              respond 403 (Message "Not authorized to delete this post") db
            else
              let post := set_isActive false post in
              if Post_validate post then
                respond 200 (Success "Post deleted successfully")
                        (updatePostById id (fun _ => post) db)
              else
                respond 500 (Message "Server error while deleting post") db
        end
    end.
End PostController.

(** ** The transition endpoints as one family

    The five endpoints of [claimController.ts] that change the status of
    a claim, with what each reads from [req.body]. *)
Inductive Endpoint : Type :=
| PutDeduction (body : ClaimController.DeductionBody)
| PutDeductionResponse (accepted : option bool)
| PutAccountApprove
| PutAccountReject (reason : option string)
| PutAdminApprove.

Definition serve (e : Endpoint) (user : option IUser) (id : ObjectId) (now : Z)
  : Handler :=
  match e with
  | PutDeduction body => ClaimController.applyDeduction user id body now
  | PutDeductionResponse accepted =>
      ClaimController.respondToDeduction user id accepted now
  | PutAccountApprove => ClaimController.accountApprove user id now
  | PutAccountReject reason => ClaimController.accountReject user id reason now
  | PutAdminApprove => ClaimController.adminApprove user id now
  end.

(** The role each endpoint compares [req.user.role] with. *)
Definition endpointRole (e : Endpoint) : string :=
  match e with
  | PutDeduction _ => "account"
  | PutDeductionResponse _ => "user"
  | PutAccountApprove => "account"
  | PutAccountReject _ => "account"
  | PutAdminApprove => "admin"
  end.

(** The service call an endpoint makes for [actor] once its checks of
    the body have passed; [None] when the body is refused. *)
Definition endpointCall (e : Endpoint) (actor : ObjectId) : option Transition :=
  match e with
  | PutDeduction body =>
      match ClaimController.deductionAmount body,
            ClaimController.deductionReason body with
      | Some amount, Some (String a r) =>
          if falsyNumber amount then None
          else Some (ApplyDeduction {| ClaimService.amount := amount;
                                       ClaimService.reason := String a r |}
                                    actor)
      | _, _ => None
      end
  | PutDeductionResponse accepted =>
      option_map (fun accepted => RespondToDeduction accepted actor) accepted
  | PutAccountApprove => Some (AccountApprove actor)
  | PutAccountReject (Some (String a r)) => Some (AccountReject actor (String a r))
  | PutAccountReject _ => None
  | PutAdminApprove => Some (AdminApprove actor)
  end.

(** Stored posts have distinct ids. *)
Definition postIdsUnique (db : Db) : Prop :=
  NoDup (map Post._id (posts db)).

(** ** A small store used to exercise the definitions *)
Module Example.
Definition alice : ObjectId := "64b0000000000000000000a1".
Definition bob : ObjectId := "64b0000000000000000000b2".
Definition reviewer : ObjectId := "64b0000000000000000000c3".
Definition admin : ObjectId := "64b0000000000000000000d4".

Definition post1 : Post.IPost :=
  {| Post._id := "64c000000000000000000001"; Post.userId := alice;
     Post.contentText := "first post"; Post.likeCount := 10;
     Post.viewCount := 500; Post.isActive := true |}.

Definition post2 : Post.IPost :=
  {| Post._id := "64c000000000000000000002"; Post.userId := bob;
     Post.contentText := "second post"; Post.likeCount := 3;
     Post.viewCount := 0; Post.isActive := true |}.

Definition post3 : Post.IPost :=
  {| Post._id := "64c000000000000000000003"; Post.userId := alice;
     Post.contentText := "third post"; Post.likeCount := 7;
     Post.viewCount := 250; Post.isActive := true |}.

Definition rates : AdminSettings.IAdminSettings :=
  {| AdminSettings.ratePerLike := 0.01;
     AdminSettings.ratePer100Views := 0.5;
     AdminSettings.isActive := true |}.

(** A pending claim of alice on [post1].  Its history holds an entry
    "edited", an action outside the vocabulary of the schema: the state
    the history cleanup of the transitions is written for. *)
Definition claim1 : Claim.IClaim :=
  {| Claim._id := "64d000000000000000000001"; Claim.userId := alice;
     Claim.postIds := ["64c000000000000000000001"];
     Claim.proofFileUrls := ["/uploads/proof.png"];
     Claim.calculatedEarnings := 2.6; Claim.status := Claim.pending;
     Claim.lockedBy := None; Claim.lockTimestamp := None;
     Claim.deductionAmount := 0; Claim.deductionReason := None;
     Claim.reviewedBy := None; Claim.finalApprovedBy := None;
     Claim.history := [ {| Claim.action := "submitted"; Claim.by_ := alice;
                           Claim.timestamp := 1000; Claim.note := None |};
                        {| Claim.action := "edited"; Claim.by_ := alice;
                           Claim.timestamp := 1500; Claim.note := None |} ];
     Claim.createdBy := alice; Claim.updatedBy := alice;
     Claim.isActive := true |}.

Definition withStatus (s : Claim.Status) : Claim.IClaim :=
  Claim.set_status s claim1.

(** [claim1] locked by the reviewer at the given time. *)
Definition lockedAt (t : Z) : Claim.IClaim :=
  Claim.set_lockTimestamp (Some t) (Claim.set_lockedBy (Some reviewer) claim1).

(** [claim1] with the history a fresh submission has. *)
Definition cleanClaim : Claim.IClaim :=
  Claim.set_history
    [ {| Claim.action := "submitted"; Claim.by_ := alice;
         Claim.timestamp := 1000; Claim.note := None |} ]
    claim1.

(** [cleanClaim] locked by the reviewer at the given time. *)
Definition cleanLockedAt (t : Z) : Claim.IClaim :=
  Claim.set_lockTimestamp (Some t)
    (Claim.set_lockedBy (Some reviewer) cleanClaim).

(** A post of alice with no like and 115 views. *)
Definition post4 : Post.IPost :=
  {| Post._id := "64c000000000000000000004"; Post.userId := alice;
     Post.contentText := "fourth post"; Post.likeCount := 0;
     Post.viewCount := 115; Post.isActive := true |}.

(** A post of alice with no like and 29 views. *)
Definition post5 : Post.IPost :=
  {| Post._id := "64c000000000000000000005"; Post.userId := alice;
     Post.contentText := "fifth post"; Post.likeCount := 0;
     Post.viewCount := 29; Post.isActive := true |}.

(** The two posts above, at the rates 0.01 and 0.50. *)
Definition dbViews : Db :=
  {| posts := [post4; post5]; claims := []; adminSettings := [rates] |}.

(** One claim, in the given status. *)
Definition dbWith (c : Claim.IClaim) : Db :=
  {| posts := [post1; post2; post3]; claims := [c];
     adminSettings := [rates] |}.

(** No claim yet. *)
Definition dbEmpty : Db :=
  {| posts := [post1; post2; post3]; claims := [];
     adminSettings := [rates] |}.

(** No rate configuration. *)
Definition dbNoRates : Db :=
  {| posts := [post1; post2; post3]; claims := []; adminSettings := [] |}.

Definition submission (owner : ObjectId) (ids : list ObjectId)
  : ClaimService.ClaimData :=
  {| ClaimService.cd_userId := Some owner;
     ClaimService.cd_postIds := Some ids;
     ClaimService.cd_proofFileUrls := ["/uploads/proof.png"];
     ClaimService.cd_createdBy := owner;
     ClaimService.cd_updatedBy := owner |}.

Definition newClaimId : ObjectId := "64d000000000000000000002".

Definition deduction (a : float) (why : string) : ClaimService.DeductionData :=
  {| ClaimService.amount := a; ClaimService.reason := why |}.

(** The callers of the endpoints. *)
Definition aliceUser : IUser := {| user_id := alice; role := "user" |}.
Definition reviewerUser : IUser := {| user_id := reviewer; role := "account" |}.
Definition adminUser : IUser := {| user_id := admin; role := "admin" |}.
End Example.

(** * Properties *)

(** ** Auxiliary facts *)

Lemma Status_eqb_spec (a b : Claim.Status) :
  reflect (a = b) (Claim.Status_eqb a b).
Proof. destruct a, b; simpl; constructor; congruence. Qed.

Lemma includes_In (l : list string) (x : string) :
  includes l x = true <-> In x l.
Proof.
  unfold includes. rewrite existsb_exists. split.
  - intros [y [Hy Heq]]. apply String.eqb_eq in Heq. now subst.
  - intros H. exists x. split; [assumption | apply String.eqb_refl].
Qed.

Lemma includes_false (l : list string) (x : string) :
  includes l x = false <-> ~ In x l.
Proof.
  rewrite <- includes_In. destruct (includes l x); split; congruence.
Qed.

(** Every transition starts by loading the claim. *)
Lemma perform_missing (t : Transition) claimId now db :
  lookupClaim db claimId = None ->
  exists p, perform t claimId now db
            = (Thrown (Rethrown p (Error NotFound "Claim not found")), db).
Proof.
  unfold lookupClaim. intros H.
  destruct t; simpl;
    unfold ClaimService.applyDeduction, ClaimService.respondToDeduction,
      ClaimService.accountApprove, ClaimService.accountReject,
      ClaimService.adminApprove, tryCatch, bind, Claim_findById, get, throw;
    rewrite H; eexists; reflexivity.
Qed.

(** What each transition does once the claim is loaded: the guards in
    source order, then the mutation and [save]. *)
Ltac run_transition H :=
  unfold lookupClaim in H;
  unfold ClaimService.applyDeduction, ClaimService.respondToDeduction,
    ClaimService.accountApprove, ClaimService.accountReject,
    ClaimService.adminApprove, tryCatch, bind, Claim_findById, get, throw;
  rewrite H.

(** A transition on a stored claim whose status is not a valid source
    throws the method's status error and writes nothing. *)
Lemma perform_wrong_status (t : Transition) claimId now db c :
  lookupClaim db claimId = Some c ->
  ~ In (Claim.status c) (sourceStatuses t) ->
  failsWith InvalidStateTransition (perform t claimId now db) db.
Proof.
  intros H Hs. unfold failsWith.
  destruct t; simpl in *; run_transition H;
    destruct (Claim.status c); simpl in *;
      try (exfalso; apply Hs; tauto);
      (eexists; split; [reflexivity | reflexivity]).
Qed.

(** A transition that returns was started from a valid source status. *)
Lemma perform_returns_source (t : Transition) claimId now db c :
  lookupClaim db claimId = Some c ->
  succeeds (perform t claimId now db) ->
  In (Claim.status c) (sourceStatuses t).
Proof.
  intros H [a Ha].
  destruct (in_dec (fun x y : Claim.Status =>
                      reflect_dec _ _ (Status_eqb_spec x y))
                   (Claim.status c) (sourceStatuses t)) as [Hin | Hout];
    [assumption |].
  destruct (perform_wrong_status t claimId now db c H Hout) as [e [He _]].
  unfold returns in Ha. rewrite He in Ha. discriminate.
Qed.

(** ** C1: state machine completeness *)

(** C1.  For each of the five transition operations and every stored
    claim: when the claim's status is not one of the operation's valid
    source statuses the call fails with an InvalidStateTransition error
    (and stores nothing), and the call succeeds only when the status is
    one of them. *)
Theorem C1_state_machine_completeness :
  forall (t : Transition) (claimId : ObjectId) (now : Z) (db : Db)
         (c : Claim.IClaim),
    lookupClaim db claimId = Some c ->
    (~ In (Claim.status c) (sourceStatuses t) ->
     failsWith InvalidStateTransition (perform t claimId now db) db)
    /\ (succeeds (perform t claimId now db) ->
        In (Claim.status c) (sourceStatuses t)).
Proof.
  intros t claimId now db c H. split.
  - apply perform_wrong_status; assumption.
  - apply perform_returns_source; assumption.
Qed.

Lemma C1_witness :
  failsWith InvalidStateTransition
    (perform (AdminApprove Example.admin) "64d000000000000000000001" 2000
             (Example.dbWith Example.claim1))
    (Example.dbWith Example.claim1)
  /\ In (Claim.status Example.claim1)
        (sourceStatuses (AccountApprove Example.reviewer)).
Proof.
  split.
  - apply (proj1 (C1_state_machine_completeness
                    (AdminApprove Example.admin) "64d000000000000000000001"
                    2000 (Example.dbWith Example.claim1) Example.claim1
                    eq_refl)).
    simpl. intros [H | [H | []]]; discriminate.
  - apply (proj2 (C1_state_machine_completeness
                    (AccountApprove Example.reviewer) "64d000000000000000000001"
                    2000 (Example.dbWith Example.claim1) Example.claim1
                    eq_refl)).
    eexists. reflexivity.
Defined.

(** ** C2: duplicate-claim prevention *)

Lemma uniq_fresh (l seen : list string) :
  NoDup l -> (forall x, In x l -> ~ In x seen) -> uniq seen l = l.
Proof.
  revert seen. induction l as [| x r IH]; intros seen Hnd Hfresh; simpl.
  - reflexivity.
  - inversion Hnd as [| ? ? Hx Hr]; subst.
    assert (Hs : includes seen x = false).
    { apply includes_false. apply Hfresh. now left. }
    rewrite Hs. f_equal. apply IH; [assumption |].
    intros y Hy [Heq | Hin].
    + subst. contradiction.
    + apply (Hfresh y); [now right | assumption].
Qed.

Lemma uniq_NoDup_length (l : list string) :
  NoDup l -> (List.length (uniq [] l) =? List.length l)%nat = true.
Proof.
  intros H. rewrite uniq_fresh; [apply Nat.eqb_refl | assumption |].
  intros x _ [].
Qed.

Lemma nonempty_length {A} (l : list A) (x : A) :
  In x l -> (0 <? List.length l)%nat = true.
Proof. destruct l; simpl; [intros [] | reflexivity]. Qed.

(** The claims the duplicate query returns are exactly the stored claims
    that share a post id with the request. *)
Lemma conflicting_claim_found (db : Db) (ids : list ObjectId) (c : Claim.IClaim) :
  In c (filter (fun c => existsb (includes ids) (Claim.postIds c)) (claims db))
  <-> In c (claims db) /\ exists p, In p ids /\ In p (Claim.postIds c).
Proof.
  rewrite filter_In, existsb_exists. split.
  - intros [Hc [p [Hp Hi]]]. apply includes_In in Hi. eauto.
  - intros [Hc [p [Hp Hi]]]. split; [assumption |].
    exists p. split; [assumption | now apply includes_In].
Qed.

(** The rendering of a document opens with a brace: it is no ObjectId. *)
Lemma rendering_not_ObjectId (doc : PopulatedPost) :
  isObjectId (PopulatedPost_toString doc) = false.
Proof.
  unfold isObjectId, PopulatedPost_toString. apply andb_false_iff. right.
  reflexivity.
Qed.

Lemma includes_rendering (ids : list ObjectId) (doc : PopulatedPost) :
  (forall p, In p ids -> isObjectId p = true) ->
  includes ids (PopulatedPost_toString doc) = false.
Proof.
  intros Hids. apply includes_false. intros Hin. apply Hids in Hin.
  rewrite rendering_not_ObjectId in Hin. discriminate.
Qed.

(** The test [newPostIds.includes(postIdStr)] never succeeds on a
    populated element, so the two loops collect nothing. *)
Lemma no_detail_collected (ids : list ObjectId)
      (populated : list (Claim.IClaim * list PopulatedPost)) :
  (forall p, In p ids -> isObjectId p = true) ->
  ClaimService.alreadyClaimedPostDetails ids populated = [].
Proof.
  intros Hids. unfold ClaimService.alreadyClaimedPostDetails.
  induction populated as [| [c docs] r IH]; simpl; [reflexivity |].
  rewrite IH, app_nil_r.
  induction docs as [| doc docs' IHd]; simpl; [reflexivity |].
  rewrite (includes_rendering ids doc Hids). exact IHd.
Qed.

(** C2.  A submission (owner id present, post ids a duplicate-free list
    of ObjectIds) that shares a post id with any stored claim, whatever
    the status and the active flag of that claim, fails with a
    DuplicateClaim error and stores nothing.  The message of the error
    lists no post and no status: the list between "already claimed: " and
    the full stop is empty, because the loop that fills it compares the
    requested ids with the rendering of the populated documents. *)
Theorem C2_duplicate_claim_names_nothing :
  forall (db : Db) (claimData : ClaimService.ClaimData) (owner : ObjectId)
         (ids : list ObjectId) (newId : ObjectId) (now : Z)
         (existing : Claim.IClaim) (shared : ObjectId),
    ClaimService.cd_userId claimData = Some owner ->
    ClaimService.cd_postIds claimData = Some ids ->
    NoDup ids ->
    (forall p, In p ids -> isObjectId p = true) ->
    In existing (claims db) ->
    In shared ids -> In shared (Claim.postIds existing) ->
    ClaimService.createClaim claimData newId now db
    = (Thrown
         (Rethrown "Error creating claim: "
            (Error DuplicateClaim
               "❌ Duplicate Claim Detected: The following posts are already claimed: . Each post can only be claimed once.")),
       db).
Proof.
  intros db claimData owner ids newId now existing shared
         Hu Hp Hnd Hids Hex Hs1 Hs2.
  unfold ClaimService.createClaim, tryCatch. rewrite Hu, Hp.
  destruct ids as [| p ps]; [destruct Hs1 |].
  cbv zeta. rewrite (uniq_NoDup_length _ Hnd).
  unfold bind, populate_postIds, Claim_find_postIds_in, get.
  cbv beta iota delta [negb].
  assert (Hf : In (populateClaim db existing)
                  (map (populateClaim db)
                       (filter (fun c => existsb (includes (p :: ps))
                                                 (Claim.postIds c))
                               (claims db)))).
  { apply in_map. apply conflicting_claim_found.
    split; [assumption |]. eauto. }
  rewrite (nonempty_length _ _ Hf).
  rewrite (no_detail_collected (p :: ps) _ Hids). reflexivity.
Qed.

(** The failing input of C2: bob submits two posts, one of them already
    in a settled, inactive claim; the message of the DuplicateClaim error
    contains neither the id of that post nor the status of the claim. *)
Lemma C2_witness :
  ClaimService.createClaim
    (Example.submission Example.bob
       ["64c000000000000000000002"; "64c000000000000000000001"])
    Example.newClaimId 3000
    (Example.dbWith (Claim.set_isActive false (Example.withStatus Claim.settled)))
  = (Thrown
       (Rethrown "Error creating claim: "
          (Error DuplicateClaim
             "❌ Duplicate Claim Detected: The following posts are already claimed: . Each post can only be claimed once.")),
     Example.dbWith (Claim.set_isActive false (Example.withStatus Claim.settled)))
  /\ index 0 "64c000000000000000000001"
            "❌ Duplicate Claim Detected: The following posts are already claimed: . Each post can only be claimed once."
     = None
  /\ index 0 "settled"
            "❌ Duplicate Claim Detected: The following posts are already claimed: . Each post can only be claimed once."
     = None.
Proof.
  split; [| split; reflexivity].
  apply (C2_duplicate_claim_names_nothing
           (Example.dbWith
              (Claim.set_isActive false (Example.withStatus Claim.settled)))
           (Example.submission Example.bob
              ["64c000000000000000000002"; "64c000000000000000000001"])
           Example.bob
           ["64c000000000000000000002"; "64c000000000000000000001"]
           Example.newClaimId 3000
           (Claim.set_isActive false (Example.withStatus Claim.settled))
           "64c000000000000000000001").
  - reflexivity.
  - reflexivity.
  - repeat (constructor; [simpl; intuition discriminate |]). constructor.
  - intros p [<- | [<- | []]]; reflexivity.
  - simpl. tauto.
  - simpl. tauto.
  - simpl. tauto.
Defined.

(** ** C3: the earnings calculation *)

(** The integer [Math.round] picks is within one half of the fraction,
    a tie going up: [r - 1/2 <= n / d < r + 1/2]. *)
Lemma nearestInteger_spec (n d : Z) :
  (0 < d)%Z ->
  (2 * nearestInteger n d * d - d <= 2 * n
   /\ 2 * n < 2 * nearestInteger n d * d + d)%Z.
Proof.
  intros Hd. unfold nearestInteger.
  assert (H2d : (0 < 2 * d)%Z) by lia.
  pose proof (Z.mul_div_le (2 * n + d) (2 * d) H2d) as Hlo.
  pose proof (Z.mul_succ_div_gt (2 * n + d) (2 * d) H2d) as Hhi.
  split; nia.
Qed.

(** [Math.round] on sample values: ties go up, also below zero, and
    the largest double below one half rounds to zero. *)
Lemma Math_round_samples :
  Math_round 2.5 = 3%float /\ Math_round (-2.5) = (-2)%float
  /\ Math_round 1.4 = 1%float /\ Math_round (-7.6) = (-8)%float
  /\ Math_round 0.49999999999999994 = 0%float
  /\ Math_round 100.49999999999999 = 100%float
  /\ Math_round 260 = 260%float.
Proof. repeat split; vm_compute; reflexivity. Qed.

(** [calculateEarnings] reads the store and leaves it as it was. *)
Lemma calculateEarnings_eval (postIds : list ObjectId) (db : Db) :
  ClaimService.calculateEarnings postIds db
  = match find AdminSettings.isActive (adminSettings db) with
    | None =>
        (Thrown (Rethrown "Error calculating earnings: "
                   (Error ConfigurationMissing "Admin settings not found")), db)
    | Some settings =>
        (Returned
           (roundTo2dp
              (earningsSum (AdminSettings.ratePerLike settings)
                           (AdminSettings.ratePer100Views settings)
                           (referencedPosts db postIds))), db)
    end.
Proof.
  unfold ClaimService.calculateEarnings, tryCatch, bind, Post_find_in,
    AdminSettings_findOne_active, get, referencedPosts.
  destruct (find AdminSettings.isActive (adminSettings db)); reflexivity.
Qed.

(** C3.  Where the exact sum ends in half a cent, [calculateEarnings]
    can return a cent less than standard rounding gives.  At the rates
    0.01 and 0.50 a post with 115 views earns exactly 0.575, which rounds
    to 0.58; the method returns 0.57, because the product [total * 100]
    it hands to [Math.round] is, in binary64, just below 57.5.  Likewise
    29 views earn 0.145, which rounds to 0.15, and the method returns
    0.14.  The example of the claim (10 likes and 500 views) does give
    2.60, and without an active rate configuration the method fails with
    a ConfigurationMissing error. *)
Theorem C3_half_cent_rounded_down :
  ClaimService.calculateEarnings [Post._id Example.post4] Example.dbViews
  = (Returned 0.57%float, Example.dbViews)
  /\ expectedCents 0 115 1 50 = 58%Z
  /\ (earningsSum 0.01 0.5 [Example.post4] * 100 <? 57.5)%float = true
  /\ ClaimService.calculateEarnings [Post._id Example.post5] Example.dbViews
     = (Returned 0.14%float, Example.dbViews)
  /\ expectedCents 0 29 1 50 = 15%Z
  /\ ClaimService.calculateEarnings [Post._id Example.post1] Example.dbEmpty
     = (Returned 2.60%float, Example.dbEmpty)
  /\ expectedCents 10 500 1 50 = 260%Z
  /\ (forall (db : Db) (postIds : list ObjectId),
         find AdminSettings.isActive (adminSettings db) = None ->
         failsWith ConfigurationMissing
                   (ClaimService.calculateEarnings postIds db) db).
Proof.
  repeat split; try (vm_compute; reflexivity).
  intros db postIds Hnone. rewrite calculateEarnings_eval, Hnone.
  eexists. split; reflexivity.
Qed.

(** ** C4: the [applyDeduction] contract *)

(** The history cleanup keeps exactly the entries of the vocabulary. *)
Lemma cleanHistory_history (c : Claim.IClaim) :
  Claim.history (ClaimService.cleanHistory c)
  = filter (fun entry => includes ClaimService.validActions (Claim.action entry))
           (Claim.history c).
Proof.
  unfold ClaimService.cleanHistory.
  destruct (Claim.history c) as [| e r] eqn:Hh; simpl.
  - exact Hh.
  - reflexivity.
Qed.

(** [0 < a] excludes [a <= 0], and [a < e] excludes [e <= a]. *)
Lemma SFcompare_Lt_swap (a b : spec_float) :
  SFcompare a b = Some Lt -> SFcompare b a = Some Gt.
Proof.
  destruct a as [sa | sa | | sa ma ea], b as [sb | sb | | sb mb eb];
    simpl; try discriminate;
    try (destruct sa; discriminate || reflexivity);
    try (destruct sb; discriminate || reflexivity);
    try (destruct sa, sb; discriminate || reflexivity).
  change (PosDef.Pos.compare_cont Eq ma mb) with (Pos.compare ma mb).
  change (PosDef.Pos.compare_cont Eq mb ma) with (Pos.compare mb ma).
  rewrite (Z.compare_antisym ea eb), (Pos.compare_antisym ma mb).
  destruct sa, sb; try discriminate; try reflexivity;
    destruct (ea ?= eb)%Z; simpl; try discriminate; try reflexivity;
    destruct (ma ?= mb)%positive; simpl; discriminate || reflexivity.
Qed.

Lemma ltb_leb_false (x y : float) :
  (x <? y)%float = true -> (y <=? x)%float = false.
Proof.
  rewrite FloatAxioms.ltb_spec, FloatAxioms.leb_spec. unfold SFltb, SFleb.
  destruct (SFcompare (Prim2SF x) (Prim2SF y)) as [[| |] |] eqn:E;
    try discriminate.
  intros _. rewrite (SFcompare_Lt_swap _ _ E). reflexivity.
Qed.

(** *** Validation on save *)

Lemma filter_all {A} (f : A -> bool) (l : list A) :
  Forall (fun x => f x = true) l -> filter f l = l.
Proof.
  induction 1 as [| x r Hx _ IH]; simpl; [reflexivity |].
  rewrite Hx, IH. reflexivity.
Qed.

Lemma cleanHistory_eq (c : Claim.IClaim) :
  ClaimService.cleanHistory c
  = Claim.set_history
      (filter (fun entry => includes ClaimService.validActions (Claim.action entry))
              (Claim.history c))
      c.
Proof.
  unfold ClaimService.cleanHistory. destruct c as [i u ps pf ce st lb lt da dr rb fa h cb ub ia].
  destruct h; reflexivity.
Qed.

(** Saving a loaded claim under its own id makes it the stored claim. *)
Lemma lookup_saved (db : Db) (claimId : ObjectId) (c c' : Claim.IClaim) :
  lookupClaim db claimId = Some c ->
  Claim._id c' = Claim._id c ->
  lookupClaim (saved c' db) claimId = Some c'.
Proof.
  unfold lookupClaim, saved, replaceClaim. simpl. intros Hfind Hid.
  assert (Hc : Claim._id c = claimId).
  { apply find_some in Hfind. apply String.eqb_eq. tauto. }
  induction (claims db) as [| x r IH]; simpl in *; [discriminate |].
  destruct (String.eqb (Claim._id x) claimId) eqn:Ex.
  - apply String.eqb_eq in Ex.
    assert (E : String.eqb (Claim._id x) (Claim._id c') = true).
    { apply String.eqb_eq. congruence. }
    rewrite E. simpl.
    assert (E' : String.eqb (Claim._id c') claimId = true).
    { apply String.eqb_eq. congruence. }
    rewrite E'. reflexivity.
  - assert (E : String.eqb (Claim._id x) (Claim._id c') = false).
    { apply String.eqb_neq. apply String.eqb_neq in Ex. congruence. }
    rewrite E. simpl. rewrite Ex. apply IH. exact Hfind.
Qed.


Lemma ltb_leb (x y : float) :
  (x <? y)%float = true -> (x <=? y)%float = true.
Proof.
  rewrite FloatAxioms.ltb_spec, FloatAxioms.leb_spec. unfold SFltb, SFleb.
  destruct (SFcompare (Prim2SF x) (Prim2SF y)) as [[| |] |];
    discriminate || reflexivity.
Qed.

Lemma length_append (a b : string) :
  String.length (a ++ b) = (String.length a + String.length b)%nat.
Proof. induction a as [| x a IH]; simpl; [reflexivity | now rewrite IH]. Qed.

Lemma validate_parts (c : Claim.IClaim) :
  Claim_validate c = true
  <-> forallb Claim_validateEntry (Claim.history c) = true
      /\ (0 <=? Claim.calculatedEarnings c)%float = true
      /\ (0 <=? Claim.deductionAmount c)%float = true
      /\ within500 (Claim.deductionReason c) = true.
Proof. unfold Claim_validate. rewrite !andb_true_iff. tauto. Qed.

(** A claim [save()] accepts has its history within the vocabulary, so
    the cleanup leaves it as it is. *)
Lemma valid_clean (c : Claim.IClaim) :
  Claim_validate c = true -> ClaimService.cleanHistory c = c.
Proof.
  intros Hv. apply validate_parts in Hv. destruct Hv as [Hh _].
  rewrite cleanHistory_eq, filter_all; [destruct c; reflexivity |].
  apply Forall_forall. intros e He.
  rewrite forallb_forall in Hh. specialize (Hh e He).
  unfold Claim_validateEntry in Hh. apply andb_true_iff in Hh.
  exact (proj1 Hh).
Qed.

Lemma valid_storable (c : Claim.IClaim) :
  Claim_validate c = true -> storable c.
Proof. intros Hv. unfold storable. now rewrite (valid_clean c Hv). Qed.

Lemma pushed_entry_valid (entry : Claim.IClaimHistory) :
  includes Claim_historyActions (Claim.action entry) = true ->
  within500 (Claim.note entry) = true ->
  true && forallb Claim_validateEntry [entry] = true.
Proof.
  intros Ha Hn. simpl. unfold Claim_validateEntry. now rewrite Ha, Hn.
Qed.

(** The validity of the claim a transition hands to [save()], from that
    of the stored claim and of the entry pushed. *)
Ltac prove_valid Hst :=
  let Hh := fresh "Hh" in
  let He := fresh "He" in
  let Ha := fresh "Ha" in
  let Hr := fresh "Hr" in
  apply validate_parts;
  destruct (proj1 (validate_parts _) Hst) as (Hh & He & Ha & Hr);
  cbn [Claim.history Claim.calculatedEarnings Claim.deductionAmount
       Claim.deductionReason Claim.set_status Claim.set_deductionAmount
       Claim.set_deductionReason Claim.set_reviewedBy
       Claim.set_finalApprovedBy Claim.set_updatedBy Claim.set_history
       ClaimService.history_push];
  rewrite forallb_app, Hh;
  repeat split; try assumption;
  try (apply pushed_entry_valid; [reflexivity |]);
  try reflexivity.

(** The step [save claim] of a transition, for a claim that validates. *)
Ltac save_valid Hst :=
  cbn [negb andb Claim.Status_eqb]; cbv beta;
  match goal with
  | |- context [save ?x _] =>
      let Hv := fresh "Hv" in
      assert (Hv : Claim_validate x = true);
      [ prove_valid Hst | unfold save; rewrite Hv ]
  end.

Lemma note_fits (s : string) :
  (String.length s <= 500)%nat -> within500 (Some s) = true.
Proof. intros H. simpl. now apply Nat.leb_le. Qed.

(** C4 as stated fails: the note of the appended entry is not the given
    reason.  Deducting 0.50 for the reason "test" from a pending claim of
    2.60 succeeds and leaves the notes [None; "Deduction applied: test"]. *)
Lemma C4_counterexample :
  exists c' : Claim.IClaim,
    returns (ClaimService.applyDeduction "64d000000000000000000001"
               (Example.deduction 0.5 "test") Example.reviewer 77
               (Example.dbWith Example.claim1)) c'
    /\ map Claim.note (Claim.history c')
       = [None; Some "Deduction applied: test"]
    /\ ~ In (Some "test") (map Claim.note (Claim.history c')).
Proof.
  eexists. split; [vm_compute; reflexivity |]. split; [reflexivity |].
  simpl. intros [H | [H | []]]; discriminate.
Qed.

(** C4, amended.  On a stored claim with status pending, [applyDeduction]
    fails with an InvalidDeduction error exactly when [amount <= 0] or
    [amount >= calculatedEarnings] (as JavaScript compares numbers, [a >= b]
    being [b <= a]).  When [0 < amount < calculatedEarnings], the stored
    claim passes the schema validators once its history is cleaned and
    the note "Deduction applied: " + reason has at most 500 characters,
    it succeeds: the claim it returns is the claim stored under the id
    afterwards, its history is the cleaned history followed by the entry
    [{action: "deduction_applied", by: actorId, note: "Deduction applied: "
    + reason}], and it has [deductionAmount = amount], [deductionReason =
    reason], [status = deducted] and [reviewedBy = actorId]. *)
Theorem C4_applyDeduction_contract :
  forall (db : Db) (claimId : ObjectId) (c : Claim.IClaim)
         (d : ClaimService.DeductionData) (actorId : ObjectId) (now : Z),
    lookupClaim db claimId = Some c ->
    Claim.status c = Claim.pending ->
    (failsWith InvalidDeduction
               (ClaimService.applyDeduction claimId d actorId now db) db
     <-> ((ClaimService.amount d <=? 0)%float = true
          \/ (Claim.calculatedEarnings c <=? ClaimService.amount d)%float = true))
    /\ ((0 <? ClaimService.amount d)%float = true ->
        (ClaimService.amount d <? Claim.calculatedEarnings c)%float = true ->
        storable c ->
        (String.length ("Deduction applied: " ++ ClaimService.reason d) <= 500)%nat ->
        exists c' : Claim.IClaim,
          ClaimService.applyDeduction claimId d actorId now db
          = (Returned c', saved c' db)
          /\ lookupClaim (saved c' db) claimId = Some c'
          /\ Claim.history c'
             = (filter (fun entry =>
                          includes ClaimService.validActions (Claim.action entry))
                       (Claim.history c)
                ++ [ {| Claim.action := "deduction_applied";
                        Claim.by_ := actorId;
                        Claim.timestamp := now;
                        Claim.note :=
                          Some ("Deduction applied: " ++ ClaimService.reason d)%string
                     |} ])%list
          /\ Claim.deductionAmount c' = ClaimService.amount d
          /\ Claim.deductionReason c' = Some (ClaimService.reason d)
          /\ Claim.status c' = Claim.deducted
          /\ Claim.reviewedBy c' = Some actorId).
Proof.
  intros db claimId c d actorId now H Hst.
  pose proof H as Hfind.
  run_transition H. rewrite Hst. simpl negb. cbv iota.
  destruct (ClaimService.amount d <=? 0)%float eqn:H0.
  { split.
    - split; [tauto |]. intros _. eexists. split; reflexivity.
    - intros Hpos. apply ltb_leb_false in Hpos. congruence. }
  destruct (Claim.calculatedEarnings c <=? ClaimService.amount d)%float eqn:H1.
  { split.
    - split; [tauto |]. intros _. eexists. split; reflexivity.
    - intros _ Hlt. apply ltb_leb_false in Hlt. congruence. }
  split.
  - split.
    + unfold save. destruct (Claim_validate _); intros [e [He Hk]];
        [discriminate He |].
      injection He as <-. simpl in Hk. discriminate Hk.
    + intros [Hc | Hc]; discriminate.
  - intros Hpos _ Hstorable Hfit.
    save_valid Hstorable.
    + now apply note_fits.
    + now apply ltb_leb.
    + apply note_fits. rewrite length_append in Hfit. simpl in Hfit. lia.
    + eexists. split; [reflexivity |].
      split; [apply (lookup_saved db claimId c);
              [exact Hfind | simpl; now rewrite cleanHistory_eq] |].
      simpl. rewrite cleanHistory_history. repeat split.
Qed.

Lemma C4_witness :
  exists c' : Claim.IClaim,
    returns (ClaimService.applyDeduction "64d000000000000000000001"
               (Example.deduction 0.5 "test") Example.reviewer 77
               (Example.dbWith Example.claim1)) c'
    /\ lookupClaim (saved c' (Example.dbWith Example.claim1))
                   "64d000000000000000000001" = Some c'
    /\ Claim.status c' = Claim.deducted
    /\ Claim.deductionAmount c' = 0.5%float.
Proof.
  destruct (proj2 (C4_applyDeduction_contract
                     (Example.dbWith Example.claim1) "64d000000000000000000001"
                     Example.claim1 (Example.deduction 0.5 "test")
                     Example.reviewer 77 eq_refl eq_refl))
    as [c' [Hrun [Hlook [_ [Hamount [_ [Hstatus _]]]]]]].
  - reflexivity.
  - reflexivity.
  - reflexivity.
  - simpl. lia.
  - exists c'. unfold returns. rewrite Hrun. repeat split; assumption.
Defined.

(** ** C5: the [respondToDeduction] contract *)

(** C5.  On a stored claim with status deducted, [respondToDeduction]
    fails with an Unauthorized error when the actor is not the claim's
    owner.  For the owner, on a claim that passes the schema validators
    once its history is cleaned, it succeeds, and the claim it returns is
    the claim stored under the id afterwards: with [accepted = false] a
    user_rejected history entry is appended, [deductionAmount] is reset
    to 0 and [deductionReason] to the empty string, and the status is
    user_rejected; with [accepted = true] a user_accepted entry is
    appended and the status is user_accepted. *)
Theorem C5_respondToDeduction_contract :
  forall (db : Db) (claimId : ObjectId) (c : Claim.IClaim) (accepted : bool)
         (actorId : ObjectId) (now : Z),
    lookupClaim db claimId = Some c ->
    Claim.status c = Claim.deducted ->
    (actorId <> Claim.userId c ->
     failsWith Unauthorized
               (ClaimService.respondToDeduction claimId accepted actorId now db)
               db)
    /\ (actorId = Claim.userId c ->
        storable c ->
        exists c' : Claim.IClaim,
          ClaimService.respondToDeduction claimId accepted actorId now db
          = (Returned c', saved c' db)
          /\ lookupClaim (saved c' db) claimId = Some c'
          /\ Claim._id c' = Claim._id c
          /\ Claim.history c'
             = (filter (fun entry =>
                          includes ClaimService.validActions (Claim.action entry))
                       (Claim.history c)
                ++ [responseEntry accepted actorId now])%list
          /\ if accepted
             then Claim.status c' = Claim.user_accepted
                  /\ Claim.action (responseEntry accepted actorId now)
                     = "user_accepted"
             else Claim.status c' = Claim.user_rejected
                  /\ Claim.action (responseEntry accepted actorId now)
                     = "user_rejected"
                  /\ Claim.deductionAmount c' = 0%float
                  /\ Claim.deductionReason c' = Some EmptyString).
Proof.
  intros db claimId c accepted actorId now H Hst.
  pose proof H as Hfind.
  run_transition H. rewrite Hst. simpl negb. cbv iota. split.
  - intros Hne. apply String.eqb_neq in Hne. rewrite Hne. simpl.
    eexists. split; reflexivity.
  - intros Heq Hstorable. apply String.eqb_eq in Heq. rewrite Heq.
    simpl negb. cbv iota.
    destruct accepted.
    + save_valid Hstorable.
      eexists. split; [reflexivity |].
      split; [apply (lookup_saved db claimId c);
              [exact Hfind | simpl; now rewrite cleanHistory_eq] |].
      simpl. rewrite cleanHistory_history, cleanHistory_eq. repeat split.
    + save_valid Hstorable.
      eexists. split; [reflexivity |].
      split; [apply (lookup_saved db claimId c);
              [exact Hfind | simpl; now rewrite cleanHistory_eq] |].
      simpl. rewrite cleanHistory_history, cleanHistory_eq. repeat split.
Qed.

Lemma C5_witness :
  failsWith Unauthorized
    (ClaimService.respondToDeduction "64d000000000000000000001" true
       Example.bob 88 (Example.dbWith (Example.withStatus Claim.deducted)))
    (Example.dbWith (Example.withStatus Claim.deducted))
  /\ exists c' : Claim.IClaim,
      returns (ClaimService.respondToDeduction "64d000000000000000000001" false
                 Example.alice 88
                 (Example.dbWith (Example.withStatus Claim.deducted))) c'
      /\ lookupClaim (saved c' (Example.dbWith (Example.withStatus Claim.deducted)))
                     "64d000000000000000000001" = Some c'
      /\ Claim.status c' = Claim.user_rejected.
Proof.
  split.
  - apply (proj1 (C5_respondToDeduction_contract
                    (Example.dbWith (Example.withStatus Claim.deducted))
                    "64d000000000000000000001"
                    (Example.withStatus Claim.deducted) true Example.bob 88
                    eq_refl eq_refl)).
    discriminate.
  - destruct (proj2 (C5_respondToDeduction_contract
                       (Example.dbWith (Example.withStatus Claim.deducted))
                       "64d000000000000000000001"
                       (Example.withStatus Claim.deducted) false Example.alice 88
                       eq_refl eq_refl) eq_refl eq_refl)
      as [c' [Hrun [Hlook [_ [_ [Hstatus _]]]]]].
    exists c'. unfold returns. rewrite Hrun.
    split; [reflexivity |]. split; [exact Hlook | exact Hstatus].
Defined.

(** ** C6: the active flag *)

Lemma cleanHistory_isActive (c : Claim.IClaim) :
  Claim.isActive (ClaimService.cleanHistory c) = Claim.isActive c.
Proof.
  unfold ClaimService.cleanHistory.
  destruct (0 <? List.length (Claim.history c))%nat; reflexivity.
Qed.

(** C6 as stated fails: the claim stored here is inactive and pending,
    and both [accountApprove] and [applyDeduction] perform their
    transition on it. *)
Lemma C6_counterexample :
  Claim.isActive (Claim.set_isActive false Example.claim1) = false
  /\ (exists c' : Claim.IClaim,
         returns (ClaimService.accountApprove "64d000000000000000000001"
                    Example.reviewer 99
                    (Example.dbWith (Claim.set_isActive false Example.claim1))) c'
         /\ Claim.status c' = Claim.account_approved)
  /\ (exists c' : Claim.IClaim,
         returns (ClaimService.applyDeduction "64d000000000000000000001"
                    (Example.deduction 0.5 "test") Example.reviewer 99
                    (Example.dbWith (Claim.set_isActive false Example.claim1))) c'
         /\ Claim.status c' = Claim.deducted).
Proof.
  split; [reflexivity |].
  split; eexists; (split; [vm_compute; reflexivity | reflexivity]).
Qed.

(** A stored claim in a valid source status that passes the operation's
    other checks and the validators of [save()] is transitioned, and the
    claim returned is the claim stored afterwards. *)
Lemma perform_succeeds (t : Transition) claimId now db c :
  lookupClaim db claimId = Some c ->
  In (Claim.status c) (sourceStatuses t) ->
  otherGuards t c ->
  storable c ->
  textsFit t ->
  exists c' : Claim.IClaim,
    perform t claimId now db = (Returned c', saved c' db)
    /\ lookupClaim (saved c' db) claimId = Some c'
    /\ Claim_validate c' = true
    /\ Claim.status c' = targetStatus t
    /\ Claim.isActive c' = Claim.isActive c.
Proof.
  intros H Hs Hg Hstorable Hfit. pose proof H as Hfind.
  assert (Hlook : forall c', Claim._id c' = Claim._id (ClaimService.cleanHistory c) ->
                             lookupClaim (saved c' db) claimId = Some c').
  { intros c' Hid. apply (lookup_saved db claimId c); [exact Hfind |].
    rewrite Hid. now rewrite cleanHistory_eq. }
  destruct t as [d r | accepted u | r | r why | a]; simpl in *;
    run_transition H.
  - destruct Hs as [Hs | []]. rewrite <- Hs. simpl negb. cbv iota.
    destruct Hg as [G0 G1].
    rewrite (ltb_leb_false _ _ G0), (ltb_leb_false _ _ G1).
    save_valid Hstorable.
    + apply note_fits. simpl. lia.
    + now apply ltb_leb.
    + apply note_fits. lia.
    + eexists. split; [reflexivity |]. split; [now apply Hlook |].
      split; [exact Hv |]. split; [reflexivity | apply cleanHistory_isActive].
  - destruct Hs as [Hs | []]. rewrite <- Hs. simpl negb. cbv iota.
    subst u. rewrite String.eqb_refl. simpl negb. cbv iota.
    destruct accepted; save_valid Hstorable;
      (eexists; split; [reflexivity |]; split; [now apply Hlook |];
       split; [exact Hv |]; split; [reflexivity | apply cleanHistory_isActive]).
  - destruct Hs as [Hs | [Hs | []]]; rewrite <- Hs;
      cbn [negb andb Claim.Status_eqb]; save_valid Hstorable;
      (eexists; split; [reflexivity |]; split; [now apply Hlook |];
       split; [exact Hv |]; split; [reflexivity | apply cleanHistory_isActive]).
  - destruct Hs as [Hs | [Hs | []]]; rewrite <- Hs;
      cbn [negb andb Claim.Status_eqb]; save_valid Hstorable;
      try (now apply note_fits);
      (eexists; split; [reflexivity |]; split; [now apply Hlook |];
       split; [exact Hv |]; split; [reflexivity | apply cleanHistory_isActive]).
  - destruct Hs as [Hs | [Hs | []]]; rewrite <- Hs;
      cbn [negb andb Claim.Status_eqb]; save_valid Hstorable;
      (eexists; split; [reflexivity |]; split; [now apply Hlook |];
       split; [exact Hv |]; split; [reflexivity | apply cleanHistory_isActive]).
Qed.

(** C6, amended.  Every transition operation requires that the
    referenced claim exists: without it the call fails with a NotFound
    error.  The active flag is not consulted: a stored claim in a valid
    source status that meets the operation's other checks (and, with the
    texts the operation writes, the schema validators run on save) is
    transitioned whether it is active or not; the claim returned is the
    claim stored under the id afterwards, in the target status, and its
    flag is left as it was. *)
Theorem C6_existence_required_flag_ignored :
  forall (t : Transition) (claimId : ObjectId) (now : Z) (db : Db),
    (lookupClaim db claimId = None ->
     failsWith NotFound (perform t claimId now db) db)
    /\ (forall c : Claim.IClaim,
           lookupClaim db claimId = Some c ->
           In (Claim.status c) (sourceStatuses t) ->
           otherGuards t c ->
           storable c ->
           textsFit t ->
           exists c' : Claim.IClaim,
             perform t claimId now db = (Returned c', saved c' db)
             /\ lookupClaim (saved c' db) claimId = Some c'
             /\ Claim.status c' = targetStatus t
             /\ Claim.isActive c' = Claim.isActive c).
Proof.
  intros t claimId now db. split.
  - intros H. destruct (perform_missing t claimId now db H) as [p Hp].
    rewrite Hp. eexists. split; reflexivity.
  - intros c H Hs Hg Hstorable Hfit.
    destruct (perform_succeeds t claimId now db c H Hs Hg Hstorable Hfit)
      as [c' [Hrun [Hlook [_ [Hstatus Hflag]]]]].
    exists c'. repeat split; assumption.
Qed.

Lemma C6_witness :
  failsWith NotFound
    (perform (AdminApprove Example.admin) "64d0000000000000000000ff" 99
             (Example.dbWith Example.claim1))
    (Example.dbWith Example.claim1)
  /\ exists c' : Claim.IClaim,
      returns (perform (AccountReject Example.reviewer "blurry proof")
                       "64d000000000000000000001" 99
                       (Example.dbWith (Claim.set_isActive false Example.claim1)))
              c'
      /\ lookupClaim
           (saved c' (Example.dbWith (Claim.set_isActive false Example.claim1)))
           "64d000000000000000000001" = Some c'
      /\ Claim.status c' = Claim.user_rejected
      /\ Claim.isActive c' = false.
Proof.
  split.
  - apply (proj1 (C6_existence_required_flag_ignored
                    (AdminApprove Example.admin) "64d0000000000000000000ff" 99
                    (Example.dbWith Example.claim1))).
    reflexivity.
  - destruct (proj2 (C6_existence_required_flag_ignored
                       (AccountReject Example.reviewer "blurry proof")
                       "64d000000000000000000001" 99
                       (Example.dbWith (Claim.set_isActive false Example.claim1)))
                    (Claim.set_isActive false Example.claim1) eq_refl)
      as [c' [Hrun [Hlook [Hstatus Hflag]]]].
    + simpl. tauto.
    + exact I.
    + reflexivity.
    + simpl. lia.
    + exists c'. unfold returns. rewrite Hrun.
      split; [reflexivity |]. repeat split; assumption.
Defined.

(** ** C7 and C10: the checks of [createClaim] *)

(** The checks of [createClaim] in source order, for a request that
    carries an owner and at least one post id. *)
Lemma createClaim_steps (claimData : ClaimService.ClaimData) (owner p : ObjectId)
      (ps : list ObjectId) (newId : ObjectId) (now : Z) (db : Db) :
  ClaimService.cd_userId claimData = Some owner ->
  ClaimService.cd_postIds claimData = Some (p :: ps) ->
  ClaimService.createClaim claimData newId now db
  = let ids := p :: ps in
    let existing :=
      filter (fun c => existsb (includes ids) (Claim.postIds c)) (claims db) in
    let invalidPosts :=
      filter (fun post => negb (String.eqb (Post.userId post) owner))
             (referencedPosts db ids) in
    if negb (List.length (uniq [] ids) =? List.length ids)%nat then
      (Thrown (Rethrown "Error creating claim: "
                 (Error InvalidInput
                    "❌ Duplicate posts detected in your selection. Please remove duplicate posts and try again.")),
       db)
    else if (0 <? List.length existing)%nat then
      (Thrown (Rethrown "Error creating claim: "
                 (Error DuplicateClaim
                    (ClaimService.duplicateClaimMessage
                       (ClaimService.alreadyClaimedPostDetails
                          ids (map (populateClaim db) existing))))),
       db)
    else if (0 <? List.length invalidPosts)%nat then
      (Thrown (Rethrown "Error creating claim: "
                 (Error ForbiddenPost
                    (ClaimService.invalidPostsMessage
                       (map Post._id invalidPosts)))),
       db)
    else
      match fst (ClaimService.calculateEarnings ids db) with
      | Returned earnings =>
          (Returned (newClaim claimData owner ids earnings newId now),
           inserted (newClaim claimData owner ids earnings newId now) db)
      | Thrown e => (Thrown (Rethrown "Error creating claim: " e), db)
      end.
Proof.
  intros Hu Hp. cbv zeta.
  unfold ClaimService.createClaim, tryCatch. rewrite Hu, Hp. cbv zeta.
  destruct (negb (List.length (uniq [] (p :: ps)) =? List.length (p :: ps))%nat);
    [reflexivity |].
  unfold bind at 1. unfold populate_postIds, Claim_find_postIds_in at 1.
  unfold get at 1. cbv beta iota. rewrite length_map.
  destruct (0 <? List.length
                   (filter (fun c => existsb (includes (p :: ps)) (Claim.postIds c))
                           (claims db)))%nat; [reflexivity |].
  unfold bind at 1. unfold Post_find_in at 1. unfold get at 1.
  cbv beta iota. fold (referencedPosts db (p :: ps)).
  destruct (0 <? List.length
                   (filter (fun post => negb (Post.userId post =? owner)%string)
                           (referencedPosts db (p :: ps))))%nat; [reflexivity |].
  unfold bind. rewrite calculateEarnings_eval.
  destruct (find AdminSettings.isActive (adminSettings db)); reflexivity.
Qed.

Lemma no_conflict_found (db : Db) (ids : list ObjectId) :
  (forall c p, In c (claims db) -> In p ids -> ~ In p (Claim.postIds c)) ->
  filter (fun c => existsb (includes ids) (Claim.postIds c)) (claims db) = [].
Proof.
  intros Hfree.
  destruct (filter (fun c => existsb (includes ids) (Claim.postIds c)) (claims db))
    as [| c l] eqn:E; [reflexivity |].
  assert (Hc : In c (c :: l)) by now left.
  rewrite <- E in Hc. apply conflicting_claim_found in Hc.
  destruct Hc as [Hc [p [Hp Hi]]]. exfalso. exact (Hfree c p Hc Hp Hi).
Qed.

(** The posts of another owner among the referenced ones. *)
Lemma offending_post_found (db : Db) (ids : list ObjectId) (owner : ObjectId)
      (q : Post.IPost) :
  In q (filter (fun post => negb (String.eqb (Post.userId post) owner))
               (referencedPosts db ids))
  <-> In q (posts db) /\ In (Post._id q) ids /\ Post.userId q <> owner.
Proof.
  unfold referencedPosts. rewrite !filter_In, includes_In, negb_true_iff,
    String.eqb_neq. tauto.
Qed.

(** C7 as stated fails: the referenced post exists and belongs to
    someone else, yet the call fails with a DuplicateClaim error, not a
    ForbiddenPost error, because the post is already claimed. *)
Lemma C7_counterexample :
  In Example.post1 (posts (Example.dbWith Example.claim1))
  /\ Post.userId Example.post1 <> Example.bob
  /\ exists e : Exception,
      ClaimService.createClaim
        (Example.submission Example.bob [Post._id Example.post1])
        Example.newClaimId 3000 (Example.dbWith Example.claim1)
      = (Thrown e, Example.dbWith Example.claim1)
      /\ kindOf e = DuplicateClaim
      /\ kindOf e <> ForbiddenPost.
Proof.
  split; [simpl; tauto |]. split; [discriminate |].
  eexists. split; [reflexivity |]. split; [reflexivity | discriminate].
Qed.

Lemma uniq_length_le (l seen : list string) :
  (List.length (uniq seen l) <= List.length l)%nat.
Proof.
  revert seen. induction l as [| x r IH]; intros seen; simpl; [lia |].
  destruct (includes seen x); simpl.
  - specialize (IH seen). lia.
  - specialize (IH (x :: seen)). lia.
Qed.

Lemma uniq_length_NoDup (l seen : list string) :
  List.length (uniq seen l) = List.length l ->
  NoDup l /\ forall x, In x l -> ~ In x seen.
Proof.
  revert seen. induction l as [| x r IH]; intros seen; simpl.
  - intros _. split; [constructor | intros x []].
  - destruct (includes seen x) eqn:E; simpl.
    + intros Hlen. pose proof (uniq_length_le r seen). lia.
    + intros Hlen. injection Hlen as Hlen.
      destruct (IH (x :: seen) Hlen) as [Hnd Hfresh].
      apply includes_false in E. split.
      * constructor; [| exact Hnd].
        intros Hin. apply (Hfresh x Hin). now left.
      * intros y [Hy | Hy].
        -- subst y. exact E.
        -- intros Hs. apply (Hfresh y Hy). now right.
Qed.

Lemma uniq_dup_length (l : list string) :
  ~ NoDup l -> (List.length (uniq [] l) =? List.length l)%nat = false.
Proof.
  intros Hdup. apply Nat.eqb_neq. intros Hlen.
  apply uniq_length_NoDup in Hlen. tauto.
Qed.

Lemma append_assoc (a b c : string) : ((a ++ b) ++ c = a ++ (b ++ c))%string.
Proof. induction a as [| x a IH]; simpl; [reflexivity | now rewrite IH]. Qed.

Lemma append_empty_r (a : string) : (a ++ EmptyString = a)%string.
Proof. induction a as [| x a IH]; simpl; [reflexivity | now rewrite IH]. Qed.

Lemma mentions_within (before text after piece : string) :
  mentions text piece -> mentions (before ++ text ++ after) piece.
Proof.
  intros [pre [post ->]]. exists (before ++ pre)%string, (post ++ after)%string.
  now rewrite !append_assoc.
Qed.

(** A list joined by a separator contains each of its elements. *)
Lemma mentions_joined (sep : string) (l : list string) (x : string) :
  In x l -> mentions (concat sep l) x.
Proof.
  induction l as [| y r IH]; [intros [] |].
  intros [-> | Hin].
  - destruct r as [| z r'].
    + exists EmptyString, EmptyString. simpl. now rewrite append_empty_r.
    + exists EmptyString, (sep ++ concat sep (z :: r'))%string. reflexivity.
  - destruct r as [| z r']; [destruct Hin |].
    destruct (IH Hin) as [pre [post Heq]].
    exists (y ++ sep ++ pre)%string, post.
    change (concat sep (y :: z :: r'))
      with (y ++ sep ++ concat sep (z :: r'))%string.
    rewrite Heq. now rewrite !append_assoc.
Qed.

(** A request that shares a post id with a stored claim is refused as a
    duplicate once its ids are known to be free of repetition. *)
Lemma createClaim_conflict_fails claimData owner ids newId now db :
  wellFormed claimData owner ids ->
  (exists c p, In c (claims db) /\ In p (Claim.postIds c) /\ In p ids) ->
  failsWith DuplicateClaim (ClaimService.createClaim claimData newId now db) db.
Proof.
  intros [Hu [Hp [Hne Hnd]]] [c [p [Hc [Hpc Hi]]]].
  destruct ids as [| q qs]; [congruence |].
  rewrite (createClaim_steps claimData owner q qs newId now db Hu Hp). cbv zeta.
  rewrite (uniq_NoDup_length _ Hnd). simpl negb. cbv iota.
  assert (Hin : In c (filter (fun c => existsb (includes (q :: qs)) (Claim.postIds c))
                             (claims db)))
    by (apply conflicting_claim_found; eauto).
  rewrite (nonempty_length _ _ Hin).
  eexists. split; reflexivity.
Qed.

(** C7, amended.  A [createClaim] call that references a stored post
    owned by someone other than the submitting owner always fails and
    persists no claim.  The checks run in the order of the source: a
    request that repeats a post id fails with an InvalidInput error;
    otherwise, when a stored claim shares a post id with the request, it
    fails with a DuplicateClaim error; otherwise it fails with a
    ForbiddenPost error whose message contains the id of every
    referenced post owned by someone else. *)
Theorem C7_foreign_post_rejected :
  forall (db : Db) (claimData : ClaimService.ClaimData) (owner : ObjectId)
         (ids : list ObjectId) (newId : ObjectId) (now : Z)
         (offending : Post.IPost),
    ClaimService.cd_userId claimData = Some owner ->
    ClaimService.cd_postIds claimData = Some ids ->
    In offending (posts db) ->
    In (Post._id offending) ids ->
    Post.userId offending <> owner ->
    (exists e : Exception,
        ClaimService.createClaim claimData newId now db = (Thrown e, db))
    /\ (~ NoDup ids ->
        failsWith InvalidInput
                  (ClaimService.createClaim claimData newId now db) db)
    /\ (NoDup ids ->
        (exists c p, In c (claims db) /\ In p (Claim.postIds c) /\ In p ids) ->
        failsWith DuplicateClaim
                  (ClaimService.createClaim claimData newId now db) db)
    /\ (NoDup ids ->
        (forall c p, In c (claims db) -> In p ids -> ~ In p (Claim.postIds c)) ->
        exists message : string,
          ClaimService.createClaim claimData newId now db
          = (Thrown (Rethrown "Error creating claim: "
                       (Error ForbiddenPost message)), db)
          /\ forall q : Post.IPost,
              In q (posts db) -> In (Post._id q) ids -> Post.userId q <> owner ->
              mentions message (Post._id q)).
Proof.
  intros db claimData owner ids newId now offending Hu Hp Hin Hid Hown.
  assert (Hne : ids <> []) by (intros ->; destruct Hid).
  split; [| split; [| split]].
  - destruct ids as [| p ps]; [destruct Hid |].
    rewrite (createClaim_steps claimData owner p ps newId now db Hu Hp). cbv zeta.
    assert (Hbad : (0 <? List.length
                            (filter (fun post =>
                                       negb (String.eqb (Post.userId post) owner))
                                    (referencedPosts db (p :: ps))))%nat = true).
    { apply (nonempty_length _ offending). apply offending_post_found. tauto. }
    destruct (negb (List.length (uniq [] (p :: ps)) =? List.length (p :: ps))%nat);
      [eexists; reflexivity |].
    destruct (0 <? List.length
                     (filter (fun c => existsb (includes (p :: ps)) (Claim.postIds c))
                             (claims db)))%nat; [eexists; reflexivity |].
    rewrite Hbad. eexists; reflexivity.
  - intros Hdup. destruct ids as [| p ps]; [destruct Hid |].
    rewrite (createClaim_steps claimData owner p ps newId now db Hu Hp). cbv zeta.
    rewrite (uniq_dup_length _ Hdup). simpl negb. cbv iota.
    eexists. split; reflexivity.
  - intros Hnd Hshared.
    apply (createClaim_conflict_fails claimData owner ids); [| exact Hshared].
    repeat split; assumption.
  - intros Hnd Hfree. destruct ids as [| p ps]; [destruct Hid |].
    rewrite (createClaim_steps claimData owner p ps newId now db Hu Hp). cbv zeta.
    assert (Hbad : (0 <? List.length
                            (filter (fun post =>
                                       negb (String.eqb (Post.userId post) owner))
                                    (referencedPosts db (p :: ps))))%nat = true).
    { apply (nonempty_length _ offending). apply offending_post_found. tauto. }
    rewrite (uniq_NoDup_length _ Hnd). simpl negb. cbv iota.
    rewrite (no_conflict_found db (p :: ps) Hfree).
    change (0 <? List.length (@nil Claim.IClaim))%nat with false. cbv iota.
    rewrite Hbad. eexists. split; [reflexivity |].
    intros q Hq Hqi Hqo. unfold ClaimService.invalidPostsMessage.
    apply mentions_within. apply mentions_joined.
    apply in_map. apply offending_post_found. tauto.
Qed.

Lemma C7_witness :
  exists message : string,
    ClaimService.createClaim
      (Example.submission Example.alice
         [Post._id Example.post3; Post._id Example.post2])
      Example.newClaimId 3000 (Example.dbWith Example.claim1)
    = (Thrown (Rethrown "Error creating claim: "
                 (Error ForbiddenPost message)),
       Example.dbWith Example.claim1)
    /\ mentions message (Post._id Example.post2).
Proof.
  destruct (proj2 (proj2 (proj2 (C7_foreign_post_rejected
                     (Example.dbWith Example.claim1)
                     (Example.submission Example.alice
                        [Post._id Example.post3; Post._id Example.post2])
                     Example.alice
                     [Post._id Example.post3; Post._id Example.post2]
                     Example.newClaimId 3000 Example.post2
                     eq_refl eq_refl
                     (or_intror (or_introl eq_refl))
                     (or_intror (or_introl eq_refl))
                     ltac:(discriminate)))))
    as [message [Hrun Hnames]].
  - repeat (constructor; [simpl; intuition discriminate |]). constructor.
  - intros c p [Hc | []] Hp Hcp. subst c. simpl in Hp, Hcp.
    destruct Hcp as [Hcp | []]. subst p.
    destruct Hp as [Hp | [Hp | []]]; discriminate.
  - exists message. split; [exact Hrun |].
    apply (Hnames Example.post2); [simpl; tauto | simpl; tauto | discriminate].
Defined.

(** ** C8: the lock *)

Ltac run_lock H :=
  unfold lookupClaim in H;
  unfold ClaimService.lockClaim, tryCatch, bind, Claim_findById, get, throw, ret;
  rewrite H.

(** The validators do not read the lock fields. *)
Lemma validate_relocked (holder : option ObjectId) (at_ : option Z)
      (c : Claim.IClaim) :
  Claim_validate (relocked holder at_ c) = Claim_validate c.
Proof. reflexivity. Qed.

(** What [lockClaim] does on a stored claim, by cases on the lock it
    finds; [save()] validates the claim as it is stored, lock fields
    apart. *)
Lemma lockClaim_eval claimId userId now db c :
  lookupClaim db claimId = Some c ->
  ClaimService.lockClaim claimId userId now db
  = let take :=
      if Claim_validate c
      then (Returned true, saved (relocked (Some userId) (Some now) c) db)
      else (Thrown (Rethrown "Error locking claim: "
                      (Error ValidationError "Claim validation failed")), db) in
    match Claim.lockedBy c with
    | Some holder =>
        if negb (String.eqb holder userId) then
          match Claim.lockTimestamp c with
          | None =>
              (Thrown (Rethrown "Error locking claim: "
                         (Error TypeError
                            "Cannot read properties of null (reading 'getTime')")),
               db)
          | Some lockedAt =>
              if (now - lockedAt <? ClaimService.lockThreshold)%Z
              then (Returned false, db)
              else take
          end
        else take
    | None => take
    end.
Proof.
  intros H. run_lock H. cbv zeta. unfold save, saved.
  change (Claim_validate
            (Claim.set_lockTimestamp (Some now)
               (Claim.set_lockedBy (Some userId) c)))
    with (Claim_validate c).
  destruct (Claim.lockedBy c) as [holder |];
    [| destruct (Claim_validate c); reflexivity].
  destruct (negb (String.eqb holder userId));
    [| destruct (Claim_validate c); reflexivity].
  destruct (Claim.lockTimestamp c) as [lockedAt |]; [| reflexivity].
  destruct (now - lockedAt <? ClaimService.lockThreshold)%Z; [reflexivity |].
  destruct (Claim_validate c); reflexivity.
Qed.

Lemma unlockClaim_eval claimId userId db c :
  lookupClaim db claimId = Some c ->
  ClaimService.unlockClaim claimId userId db
  = match Claim.lockedBy c with
    | Some holder =>
        if String.eqb holder userId then
          if Claim_validate c
          then (Returned tt, saved (relocked None None c) db)
          else (Thrown (Rethrown "Error unlocking claim: "
                          (Error ValidationError "Claim validation failed")), db)
        else (Returned tt, db)
    | None => (Returned tt, db)
    end.
Proof.
  intros H. unfold lookupClaim in H.
  unfold ClaimService.unlockClaim, tryCatch, bind, Claim_findById, get, throw, ret.
  rewrite H. unfold save, saved.
  change (Claim_validate
            (Claim.set_lockTimestamp None (Claim.set_lockedBy None c)))
    with (Claim_validate c).
  destruct (Claim.lockedBy c) as [holder |]; [| reflexivity].
  destruct (String.eqb holder userId); [| reflexivity].
  destruct (Claim_validate c); reflexivity.
Qed.

(** A history entry outside the vocabulary fails the [enum] validator. *)
Lemma legacy_entry_invalid (c : Claim.IClaim) (entry : Claim.IClaimHistory) :
  In entry (Claim.history c) ->
  ~ In (Claim.action entry) ClaimService.validActions ->
  Claim_validate c = false.
Proof.
  intros Hin Hout. destruct (Claim_validate c) eqn:Hv; [| reflexivity].
  exfalso. apply validate_parts in Hv. destruct Hv as [Hh _].
  rewrite forallb_forall in Hh. specialize (Hh entry Hin).
  unfold Claim_validateEntry in Hh. apply andb_true_iff in Hh.
  destruct Hh as [Hh _]. apply includes_In in Hh. exact (Hout Hh).
Qed.

(** C8.  [lockClaim] saves the claim without the history cleanup the
    five transitions perform before they save.  On a stored claim whose
    history holds an entry outside the vocabulary, a lock call that
    should take the lock (the claim is unlocked, or another actor's lock
    is at least 30 minutes old) fails with a ValidationError and leaves
    the store, and so the lock, as it was.  While another actor's lock is
    less than 30 minutes old the call returns false and writes nothing,
    as the claim says. *)
Theorem C8_lock_fails_on_legacy_history :
  forall (db : Db) (claimId : ObjectId) (c : Claim.IClaim) (actorB : ObjectId)
         (now : Z) (entry : Claim.IClaimHistory),
    lookupClaim db claimId = Some c ->
    In entry (Claim.history c) ->
    ~ In (Claim.action entry) ClaimService.validActions ->
    (Claim.lockedBy c = None ->
     failsWith ValidationError
               (ClaimService.lockClaim claimId actorB now db) db)
    /\ (forall (actorA : ObjectId) (lockedAt : Z),
           Claim.lockedBy c = Some actorA ->
           Claim.lockTimestamp c = Some lockedAt ->
           actorA <> actorB ->
           ((30 * 60 * 1000 <= now - lockedAt)%Z ->
            failsWith ValidationError
                      (ClaimService.lockClaim claimId actorB now db) db)
           /\ ((now - lockedAt < 30 * 60 * 1000)%Z ->
               ClaimService.lockClaim claimId actorB now db
               = (Returned false, db))).
Proof.
  intros db claimId c actorB now entry H Hin Hout.
  rewrite (lockClaim_eval claimId actorB now db c H). cbv zeta.
  rewrite (legacy_entry_invalid c entry Hin Hout). split.
  - intros Hfree. rewrite Hfree. eexists. split; reflexivity.
  - intros actorA lockedAt HA Ht Hne. apply String.eqb_neq in Hne.
    rewrite HA, Hne, Ht. cbn [negb]. unfold ClaimService.lockThreshold. split.
    + intros Hage. apply Z.ltb_ge in Hage. rewrite Hage.
      eexists. split; reflexivity.
    + intros Hage. apply Z.ltb_lt in Hage. rewrite Hage. reflexivity.
Qed.

(** The failing input of C8: [claim1] is pending, unlocked, and its
    history holds the entry "edited".  The lock call fails and the claim
    stays unlocked. *)
Lemma C8_witness :
  failsWith ValidationError
    (ClaimService.lockClaim "64d000000000000000000001" Example.admin 5
                            (Example.dbWith Example.claim1))
    (Example.dbWith Example.claim1)
  /\ Claim.lockedBy Example.claim1 = None.
Proof.
  split; [| reflexivity].
  apply (proj1 (C8_lock_fails_on_legacy_history
                  (Example.dbWith Example.claim1) "64d000000000000000000001"
                  Example.claim1 Example.admin 5
                  {| Claim.action := "edited"; Claim.by_ := Example.alice;
                     Claim.timestamp := 1500; Claim.note := None |}
                  eq_refl (or_intror (or_introl eq_refl))
                  ltac:(simpl; intuition discriminate))).
  reflexivity.
Defined.

(** ** C9: the history vocabulary *)

Lemma filter_in_vocabulary (h : list Claim.IClaimHistory) :
  historyInVocabulary
    (filter (fun entry => includes ClaimService.validActions (Claim.action entry)) h).
Proof.
  unfold historyInVocabulary. apply Forall_forall. intros e He.
  apply filter_In in He. apply includes_In. tauto.
Qed.

(** A transition that returns has loaded a stored claim, passed its
    guards and the validators of [save()], and written the claim it
    returns: the loaded claim with its history cleaned, one entry of the
    vocabulary pushed, the target status and the operation's own fields
    set. *)
Lemma perform_returned (t : Transition) claimId now db c' :
  returns (perform t claimId now db) c' ->
  exists (c : Claim.IClaim) (entry : Claim.IClaimHistory),
    lookupClaim db claimId = Some c
    /\ perform t claimId now db = (Returned c', saved c' db)
    /\ Claim_validate c' = true
    /\ keepsCoreFields c c'
    /\ Claim.status c' = targetStatus t
    /\ Claim.history c'
       = (filter (fun e => includes ClaimService.validActions (Claim.action e))
                 (Claim.history c) ++ [entry])%list
    /\ In (Claim.action entry) ClaimService.validActions
    /\ Claim.by_ entry
       = match t with
         | ApplyDeduction _ a | RespondToDeduction _ a | AccountApprove a
         | AccountReject a _ | AdminApprove a => a
         end
    /\ Claim.timestamp entry = now.
Proof.
  unfold returns, lookupClaim, keepsCoreFields, saved.
  destruct t as [d r | accepted u | r | r why | a]; unfold perform, targetStatus;
    unfold ClaimService.applyDeduction, ClaimService.respondToDeduction,
      ClaimService.accountApprove, ClaimService.accountReject,
      ClaimService.adminApprove, tryCatch, bind, Claim_findById, get, throw, save;
    destruct (find (fun c => String.eqb (Claim._id c) claimId) (claims db))
      as [c |]; try discriminate;
    repeat match goal with
           | |- context [if ?b then _ else _] => destruct b eqn:?; cbv beta iota
           end;
    try discriminate;
    intros E; cbn [fst] in E; injection E as <-;
    exists c; eexists;
    (split; [reflexivity |]); (split; [reflexivity |]);
    (split; [assumption |]);
    rewrite cleanHistory_eq;
    (split; [simpl; repeat split |]);
    (split; [reflexivity |]);
    (split; [reflexivity |]);
    (split; [simpl; tauto |]);
    split; reflexivity.
Qed.

Lemma perform_history (t : Transition) claimId now db c' :
  returns (perform t claimId now db) c' ->
  exists (c : Claim.IClaim) (entry : Claim.IClaimHistory),
    lookupClaim db claimId = Some c
    /\ Claim.history c'
       = (filter (fun e => includes ClaimService.validActions (Claim.action e))
                 (Claim.history c) ++ [entry])%list
    /\ In (Claim.action entry) ClaimService.validActions.
Proof.
  intros Hret.
  destruct (perform_returned t claimId now db c' Hret)
    as [c [entry [Hc [_ [_ [_ [_ [Hh [Ha _]]]]]]]]].
  exists c, entry. tauto.
Qed.

(** C9.  When one of the six mutating operations returns a claim, every
    entry of that claim's history has an action of the seven-element
    vocabulary: a transition returns the entries of the stored history
    that are in the vocabulary followed by one new entry of the
    vocabulary, and [createClaim] returns a history of one submitted
    entry. *)
Theorem C9_history_vocabulary :
  (forall (t : Transition) (claimId : ObjectId) (now : Z) (db : Db)
          (c' : Claim.IClaim),
      returns (perform t claimId now db) c' ->
      historyInVocabulary (Claim.history c')
      /\ exists (c : Claim.IClaim) (entry : Claim.IClaimHistory),
          lookupClaim db claimId = Some c
          /\ Claim.history c'
             = (filter (fun e =>
                          includes ClaimService.validActions (Claim.action e))
                       (Claim.history c) ++ [entry])%list)
  /\ (forall (claimData : ClaimService.ClaimData) (newId : ObjectId) (now : Z)
             (db : Db) (c' : Claim.IClaim),
         returns (ClaimService.createClaim claimData newId now db) c' ->
         historyInVocabulary (Claim.history c')
         /\ map Claim.action (Claim.history c') = ["submitted"]).
Proof.
  split.
  - intros t claimId now db c' Hret.
    destruct (perform_history t claimId now db c' Hret)
      as [c [entry [Hfind [Hhist Hvalid]]]].
    split; [| exists c, entry; tauto].
    rewrite Hhist. unfold historyInVocabulary. apply Forall_app. split.
    + apply filter_in_vocabulary.
    + constructor; [exact Hvalid | constructor].
  - intros claimData newId now db c'. unfold returns.
    destruct (ClaimService.cd_userId claimData) as [owner |] eqn:Hu;
      [| unfold ClaimService.createClaim, tryCatch; rewrite Hu; discriminate].
    destruct (ClaimService.cd_postIds claimData) as [[| p ps] |] eqn:Hp;
      try (unfold ClaimService.createClaim, tryCatch; rewrite Hu, Hp;
           discriminate).
    rewrite (createClaim_steps claimData owner p ps newId now db Hu Hp). cbv zeta.
    repeat match goal with
           | |- context [if ?b then _ else _] => destruct b
           end; try discriminate.
    destruct (fst (ClaimService.calculateEarnings (p :: ps) db));
      try discriminate.
    simpl. intros E. injection E as <-. simpl. split; [| reflexivity].
    constructor; [simpl; tauto | constructor].
Qed.

Lemma C9_witness :
  exists c' : Claim.IClaim,
    returns (perform (AccountApprove Example.reviewer)
                     "64d000000000000000000001" 99
                     (Example.dbWith Example.claim1)) c'
    /\ historyInVocabulary (Claim.history c')
    /\ map Claim.action (Claim.history Example.claim1) = ["submitted"; "edited"].
Proof.
  eexists. split; [reflexivity |]. split; [| reflexivity].
  apply (proj1 (proj1 C9_history_vocabulary
                      (AccountApprove Example.reviewer)
                      "64d000000000000000000001" 99%Z
                      (Example.dbWith Example.claim1) _ eq_refl)).
Defined.

(** ** C10: post ids that match no stored post *)






(** * Further properties of the service *)

(** ** Transitions: what they keep, what they store *)

Lemma lookup_id (db : Db) (claimId : ObjectId) (c : Claim.IClaim) :
  lookupClaim db claimId = Some c ->
  Claim._id c = claimId /\ In c (claims db).
Proof.
  unfold lookupClaim. intros H. apply find_some in H.
  destruct H as [Hin Heq]. apply String.eqb_eq in Heq. tauto.
Qed.

Lemma lookup_saved_other (db : Db) (c' : Claim.IClaim) (other : ObjectId) :
  other <> Claim._id c' ->
  lookupClaim (saved c' db) other = lookupClaim db other.
Proof.
  unfold lookupClaim, saved, replaceClaim. simpl. intros Hne.
  induction (claims db) as [| x r IH]; simpl; [reflexivity |].
  destruct (String.eqb (Claim._id x) (Claim._id c')) eqn:E.
  - apply String.eqb_eq in E.
    assert (E1 : String.eqb (Claim._id c') other = false).
    { apply String.eqb_neq. congruence. }
    assert (E2 : String.eqb (Claim._id x) other = false).
    { apply String.eqb_neq. congruence. }
    rewrite E1, E2. exact IH.
  - destruct (String.eqb (Claim._id x) other); [reflexivity | exact IH].
Qed.

Lemma saved_frame (db : Db) (c' : Claim.IClaim) :
  posts (saved c' db) = posts db
  /\ adminSettings (saved c' db) = adminSettings db
  /\ List.length (claims (saved c' db)) = List.length (claims db).
Proof.
  unfold saved, replaceClaim. simpl. repeat split. apply length_map.
Qed.

(** A transition that returns has loaded a stored claim and saved the
    claim it returns; the returned claim is the loaded one with a cleaned
    history, one more entry, the target status and the operation's own
    fields set. *)
Lemma perform_inv (t : Transition) claimId now db c' :
  returns (perform t claimId now db) c' ->
  exists c : Claim.IClaim,
    lookupClaim db claimId = Some c
    /\ perform t claimId now db = (Returned c', saved c' db)
    /\ keepsCoreFields c c'
    /\ Claim.status c' = targetStatus t.
Proof.
  intros Hret.
  destruct (perform_returned t claimId now db c' Hret)
    as [c [entry [Hc [Hrun [_ [Hkeep [Hst _]]]]]]].
  exists c. repeat split; assumption || apply Hkeep.
Qed.

(** What a returning transition leaves in the store. *)
Lemma perform_stored (t : Transition) claimId now db c' :
  returns (perform t claimId now db) c' ->
  storeAfter (perform t claimId now db) = saved c' db
  /\ lookupClaim (saved c' db) claimId = Some c'
  /\ Claim.status c' = targetStatus t.
Proof.
  intros Hret. destruct (perform_inv t claimId now db c' Hret)
    as [c [Hfind [Hrun [Hkeep Hst]]]].
  unfold storeAfter. rewrite Hrun. simpl. split; [reflexivity |].
  split; [| exact Hst].
  apply (lookup_saved db claimId c c' Hfind). apply Hkeep.
Qed.

(** X1.  No transition touches a claim's identity, owner, posts, proofs,
    calculated earnings, creator, active flag or lock. *)
Theorem transition_keeps_core_fields :
  forall (t : Transition) (claimId : ObjectId) (now : Z) (db : Db)
         (c' : Claim.IClaim),
    returns (perform t claimId now db) c' ->
    exists c : Claim.IClaim,
      lookupClaim db claimId = Some c /\ keepsCoreFields c c'.
Proof.
  intros t claimId now db c' Hret.
  destruct (perform_inv t claimId now db c' Hret) as [c [Hfind [_ [Hkeep _]]]].
  exists c. split; assumption.
Qed.

Lemma transition_keeps_core_fields_witness :
  exists c : Claim.IClaim,
    lookupClaim (Example.dbWith (Example.lockedAt 5)) "64d000000000000000000001"
    = Some c
    /\ keepsCoreFields
         c (Claim.set_updatedBy Example.reviewer
              (Claim.set_reviewedBy (Some Example.reviewer)
                 (Claim.set_status Claim.account_approved
                    (ClaimService.history_push
                       {| Claim.action := "account_approved";
                          Claim.by_ := Example.reviewer;
                          Claim.timestamp := 99;
                          Claim.note := Some "Claim approved by account reviewer" |}
                       (ClaimService.cleanHistory (Example.lockedAt 5)))))).
Proof.
  apply (transition_keeps_core_fields
           (AccountApprove Example.reviewer) "64d000000000000000000001" 99
           (Example.dbWith (Example.lockedAt 5))).
  vm_compute. reflexivity.
Defined.

(** X2.  A transition that returns has stored the claim it returns under the
    same id, and has left every other claim, the posts and the rate
    configuration as they were. *)
Theorem transition_stores_what_it_returns :
  forall (t : Transition) (claimId : ObjectId) (now : Z) (db : Db)
         (c' : Claim.IClaim),
    returns (perform t claimId now db) c' ->
    lookupClaim (storeAfter (perform t claimId now db)) claimId = Some c'
    /\ (forall other : ObjectId,
           other <> claimId ->
           lookupClaim (storeAfter (perform t claimId now db)) other
           = lookupClaim db other)
    /\ posts (storeAfter (perform t claimId now db)) = posts db
    /\ adminSettings (storeAfter (perform t claimId now db)) = adminSettings db
    /\ List.length (claims (storeAfter (perform t claimId now db)))
       = List.length (claims db).
Proof.
  intros t claimId now db c' Hret.
  destruct (perform_inv t claimId now db c' Hret) as [c [Hfind [_ [Hkeep _]]]].
  destruct (perform_stored t claimId now db c' Hret) as [Hdb [Hlook _]].
  rewrite Hdb. split; [exact Hlook |].
  split.
  - intros other Hne. apply lookup_saved_other.
    destruct (lookup_id db claimId c Hfind) as [Hid _].
    destruct Hkeep as [Hid' _]. congruence.
  - apply saved_frame.
Qed.

Lemma transition_stores_what_it_returns_witness :
  lookupClaim
    (storeAfter (perform (AccountApprove Example.reviewer)
                         "64d000000000000000000001" 99
                         (Example.dbWith Example.claim1)))
    "64d000000000000000000001"
  = Some (Claim.set_updatedBy Example.reviewer
            (Claim.set_reviewedBy (Some Example.reviewer)
               (Claim.set_status Claim.account_approved
                  (ClaimService.history_push
                     {| Claim.action := "account_approved";
                        Claim.by_ := Example.reviewer;
                        Claim.timestamp := 99;
                        Claim.note := Some "Claim approved by account reviewer" |}
                     (ClaimService.cleanHistory Example.claim1))))).
Proof.
  apply (transition_stores_what_it_returns
           (AccountApprove Example.reviewer) "64d000000000000000000001" 99
           (Example.dbWith Example.claim1)).
  vm_compute. reflexivity.
Defined.

(** ** Errors come before writes *)

Lemma perform_throws_unchanged (t : Transition) claimId now db :
  throws (perform t claimId now db) ->
  storeAfter (perform t claimId now db) = db.
Proof.
  unfold throws, storeAfter. intros [e He]. revert He.
  destruct t as [d r | accepted u | r | r why | a]; unfold perform;
    unfold ClaimService.applyDeduction, ClaimService.respondToDeduction,
      ClaimService.accountApprove, ClaimService.accountReject,
      ClaimService.adminApprove, tryCatch, bind, Claim_findById, get, throw, save;
    destruct (find (fun c => String.eqb (Claim._id c) claimId) (claims db))
      as [c |]; try reflexivity;
    repeat match goal with
           | |- context [if ?b then _ else _] => destruct b; cbv beta iota
           end;
    try reflexivity; discriminate.
Qed.

Lemma createClaim_throws_unchanged claimData newId now db :
  throws (ClaimService.createClaim claimData newId now db) ->
  storeAfter (ClaimService.createClaim claimData newId now db) = db.
Proof.
  unfold throws, storeAfter. intros [e He]. revert He.
  destruct (ClaimService.cd_userId claimData) as [owner |] eqn:Hu;
    [| unfold ClaimService.createClaim, tryCatch; rewrite Hu; reflexivity].
  destruct (ClaimService.cd_postIds claimData) as [[| p ps] |] eqn:Hp;
    try (unfold ClaimService.createClaim, tryCatch; rewrite Hu, Hp;
         reflexivity).
  rewrite (createClaim_steps claimData owner p ps newId now db Hu Hp). cbv zeta.
  repeat match goal with
         | |- context [if ?b then _ else _] => destruct b
         end; try reflexivity.
  destruct (fst (ClaimService.calculateEarnings (p :: ps) db));
    [discriminate | reflexivity].
Qed.

Lemma lockClaim_throws_unchanged claimId userId now db :
  throws (ClaimService.lockClaim claimId userId now db) ->
  storeAfter (ClaimService.lockClaim claimId userId now db) = db.
Proof.
  unfold throws, storeAfter. intros [e He]. revert He.
  unfold ClaimService.lockClaim, tryCatch, bind, Claim_findById, get, throw, ret,
    save.
  destruct (find (fun c => String.eqb (Claim._id c) claimId) (claims db))
    as [c |]; try reflexivity.
  destruct (Claim.lockedBy c) as [holder |];
    [destruct (negb (String.eqb holder userId));
     [destruct (Claim.lockTimestamp c) as [at_ |];
      [destruct (now - at_ <? ClaimService.lockThreshold)%Z |] |] |];
    cbv beta iota; try reflexivity;
    destruct (Claim_validate _); cbv beta iota; try reflexivity; discriminate.
Qed.

Lemma unlockClaim_throws_unchanged claimId userId db :
  throws (ClaimService.unlockClaim claimId userId db) ->
  storeAfter (ClaimService.unlockClaim claimId userId db) = db.
Proof.
  unfold throws, storeAfter. intros [e He]. revert He.
  unfold ClaimService.unlockClaim, tryCatch, bind, Claim_findById, get, throw, ret,
    save.
  destruct (find (fun c => String.eqb (Claim._id c) claimId) (claims db))
    as [c |]; try reflexivity.
  destruct (Claim.lockedBy c) as [holder |]; try reflexivity.
  destruct (String.eqb holder userId); [| reflexivity].
  destruct (Claim_validate _); cbv beta iota; [discriminate | reflexivity].
Qed.

(** X3.  Every mutating method of the service checks before it writes: a call
    of a transition, of [createClaim], of [lockClaim] or of [unlockClaim]
    that throws leaves the store exactly as it was. *)
Theorem failed_calls_write_nothing :
  forall db : Db,
    (forall (t : Transition) (claimId : ObjectId) (now : Z),
        throws (perform t claimId now db) ->
        storeAfter (perform t claimId now db) = db)
    /\ (forall (claimData : ClaimService.ClaimData) (newId : ObjectId) (now : Z),
           throws (ClaimService.createClaim claimData newId now db) ->
           storeAfter (ClaimService.createClaim claimData newId now db) = db)
    /\ (forall (claimId userId : ObjectId) (now : Z),
           throws (ClaimService.lockClaim claimId userId now db) ->
           storeAfter (ClaimService.lockClaim claimId userId now db) = db)
    /\ (forall claimId userId : ObjectId,
           throws (ClaimService.unlockClaim claimId userId db) ->
           storeAfter (ClaimService.unlockClaim claimId userId db) = db).
Proof.
  intros db. split; [| split; [| split]].
  - intros t claimId now. apply perform_throws_unchanged.
  - intros claimData newId now. apply createClaim_throws_unchanged.
  - intros claimId userId now. apply lockClaim_throws_unchanged.
  - intros claimId userId. apply unlockClaim_throws_unchanged.
Qed.

Lemma failed_calls_write_nothing_witness :
  storeAfter (perform (AdminApprove Example.admin) "64d000000000000000000001"
                      99 (Example.dbWith Example.claim1))
  = Example.dbWith Example.claim1
  /\ storeAfter (ClaimService.createClaim
                   (Example.submission Example.bob [Post._id Example.post1])
                   Example.newClaimId 99 (Example.dbWith Example.claim1))
     = Example.dbWith Example.claim1.
Proof.
  split.
  - apply (proj1 (failed_calls_write_nothing (Example.dbWith Example.claim1))).
    eexists. reflexivity.
  - apply (proj1 (proj2 (failed_calls_write_nothing
                           (Example.dbWith Example.claim1)))).
    eexists. reflexivity.
Defined.

(** ** The shape of the state machine *)

(** X4.  A transition leaves the claim in its target status, which is never
    pending and never settled: no operation of the service returns a
    claim to pending or marks it settled. *)
Theorem transition_never_yields_pending_or_settled :
  forall (t : Transition) (claimId : ObjectId) (now : Z) (db : Db)
         (c' : Claim.IClaim),
    returns (perform t claimId now db) c' ->
    Claim.status c' = targetStatus t
    /\ Claim.status c' <> Claim.pending
    /\ Claim.status c' <> Claim.settled.
Proof.
  intros t claimId now db c' Hret.
  destruct (perform_inv t claimId now db c' Hret) as [c [_ [_ [_ Hst]]]].
  split; [exact Hst |]. rewrite Hst.
  destruct t as [d r | [|] u | r | r why | a]; simpl; split; discriminate.
Qed.

Lemma transition_never_yields_pending_or_settled_witness :
  Claim.status
    (Claim.set_updatedBy Example.admin
       (Claim.set_finalApprovedBy (Some Example.admin)
          (Claim.set_status Claim.admin_approved
             (ClaimService.history_push
                {| Claim.action := "admin_approved";
                   Claim.by_ := Example.admin;
                   Claim.timestamp := 99;
                   Claim.note := Some "Claim finally approved by admin" |}
                (ClaimService.cleanHistory
                   (Example.withStatus Claim.user_accepted))))))
  <> Claim.settled.
Proof.
  apply (transition_never_yields_pending_or_settled
           (AdminApprove Example.admin) "64d000000000000000000001" 99
           (Example.dbWith (Example.withStatus Claim.user_accepted))).
  vm_compute. reflexivity.
Defined.

(** X5.  admin_approved and settled are terminal: on a stored claim in either
    status every transition fails with an InvalidStateTransition error. *)
Theorem approved_and_settled_are_terminal :
  forall (db : Db) (claimId : ObjectId) (c : Claim.IClaim),
    lookupClaim db claimId = Some c ->
    Claim.status c = Claim.admin_approved \/ Claim.status c = Claim.settled ->
    forall (t : Transition) (now : Z),
      failsWith InvalidStateTransition (perform t claimId now db) db.
Proof.
  intros db claimId c Hfind Hst t now.
  apply (perform_wrong_status t claimId now db c Hfind).
  destruct t; simpl; destruct Hst as [Hst | Hst]; rewrite Hst;
    intuition discriminate.
Qed.

Lemma approved_and_settled_are_terminal_witness :
  failsWith InvalidStateTransition
    (perform (AccountReject Example.reviewer "late") "64d000000000000000000001"
             99 (Example.dbWith (Example.withStatus Claim.admin_approved)))
    (Example.dbWith (Example.withStatus Claim.admin_approved)).
Proof.
  apply (approved_and_settled_are_terminal
           (Example.dbWith (Example.withStatus Claim.admin_approved))
           "64d000000000000000000001"
           (Example.withStatus Claim.admin_approved) eq_refl
           (or_introl eq_refl)).
Defined.

(** The reason [accountReject] was given is within the length the
    schema allows [deductionReason], once the call has returned. *)
Lemma accountReject_reason claimId r why now db c' :
  returns (perform (AccountReject r why) claimId now db) c' ->
  Claim_validate c' = true -> within500 (Some why) = true.
Proof.
  unfold returns, perform, ClaimService.accountReject, tryCatch, bind,
    Claim_findById, get, throw, save.
  destruct (find (fun c => String.eqb (Claim._id c) claimId) (claims db))
    as [c |]; try discriminate.
  repeat match goal with
         | |- context [if ?b then _ else _] => destruct b eqn:?; cbv beta iota
         end;
    try discriminate.
  intros E. cbn [fst] in E. injection E as <-. intros Hv.
  apply validate_parts in Hv. exact (proj2 (proj2 (proj2 Hv))).
Qed.

(** X6.  Calling the same transition again right after it succeeded fails
    with an InvalidStateTransition error and writes nothing, except for
    [accountReject], which succeeds again. *)
Theorem only_accountReject_repeats :
  forall (t : Transition) (claimId : ObjectId) (now later : Z) (db : Db)
         (c' : Claim.IClaim),
    returns (perform t claimId now db) c' ->
    match t with
    | AccountReject _ _ =>
        succeeds (perform t claimId later (storeAfter (perform t claimId now db)))
    | _ =>
        failsWith InvalidStateTransition
                  (perform t claimId later (storeAfter (perform t claimId now db)))
                  (storeAfter (perform t claimId now db))
    end.
Proof.
  intros t claimId now later db c' Hret.
  destruct (perform_stored t claimId now db c' Hret) as [Hdb [Hlook Hst]].
  rewrite Hdb.
  assert (Hfail : ~ In (targetStatus t) (sourceStatuses t) ->
                  failsWith InvalidStateTransition
                            (perform t claimId later (saved c' db)) (saved c' db)).
  { intros Hout. apply (perform_wrong_status t claimId later _ c' Hlook).
    rewrite Hst. exact Hout. }
  destruct (perform_returned t claimId now db c' Hret)
    as [c [entry [_ [_ [Hvalid _]]]]].
  destruct t as [d r | [|] u | r | r why | a];
    try (apply Hfail; simpl; intuition discriminate).
  destruct (perform_succeeds (AccountReject r why) claimId later (saved c' db) c'
                             Hlook) as [c'' [Hrun _]].
  - rewrite Hst. simpl. tauto.
  - exact I.
  - now apply valid_storable.
  - simpl. apply Nat.leb_le.
    exact (accountReject_reason claimId r why now db c' Hret Hvalid).
  - exists c''. unfold returns. rewrite Hrun. reflexivity.
Qed.

Lemma only_accountReject_repeats_witness :
  failsWith InvalidStateTransition
    (perform (AccountApprove Example.reviewer) "64d000000000000000000001" 100
       (storeAfter (perform (AccountApprove Example.reviewer)
                            "64d000000000000000000001" 99
                            (Example.dbWith Example.claim1))))
    (storeAfter (perform (AccountApprove Example.reviewer)
                         "64d000000000000000000001" 99
                         (Example.dbWith Example.claim1))).
Proof.
  apply (only_accountReject_repeats
           (AccountApprove Example.reviewer) "64d000000000000000000001" 99 100
           (Example.dbWith Example.claim1) _ eq_refl).
Defined.

(** X7.  On a claim whose history is within the vocabulary the history is
    append-only: a transition returns the stored entries in their order,
    followed by one new entry. *)
Theorem clean_history_is_append_only :
  forall (t : Transition) (claimId : ObjectId) (now : Z) (db : Db)
         (c c' : Claim.IClaim),
    lookupClaim db claimId = Some c ->
    historyInVocabulary (Claim.history c) ->
    returns (perform t claimId now db) c' ->
    exists entry : Claim.IClaimHistory,
      Claim.history c' = (Claim.history c ++ [entry])%list
      /\ Claim.by_ entry
         = match t with
           | ApplyDeduction _ a | RespondToDeduction _ a | AccountApprove a
           | AccountReject a _ | AdminApprove a => a
           end
      /\ Claim.timestamp entry = now.
Proof.
  intros t claimId now db c c' Hfind Hclean.
  assert (Hid : filter (fun e => includes ClaimService.validActions (Claim.action e))
                       (Claim.history c) = Claim.history c).
  { apply filter_all. unfold historyInVocabulary in Hclean.
    apply Forall_forall. intros e He. apply includes_In.
    rewrite Forall_forall in Hclean. now apply Hclean. }
  intros Hret.
  destruct (perform_returned t claimId now db c' Hret)
    as [c0 [entry [Hc0 [_ [_ [_ [_ [Hh [_ [Hby Hat]]]]]]]]]].
  assert (c0 = c) by congruence. subst c0.
  exists entry. rewrite Hh, Hid. repeat split; assumption.
Qed.

Lemma clean_history_is_append_only_witness :
  exists entry : Claim.IClaimHistory,
    Claim.history
      (Claim.set_updatedBy Example.reviewer
         (Claim.set_reviewedBy (Some Example.reviewer)
            (Claim.set_status Claim.account_approved
               (ClaimService.history_push
                  {| Claim.action := "account_approved";
                     Claim.by_ := Example.reviewer;
                     Claim.timestamp := 99;
                     Claim.note := Some "Claim approved by account reviewer" |}
                  (ClaimService.cleanHistory Example.cleanClaim)))))
    = (Claim.history Example.cleanClaim ++ [entry])%list
    /\ Claim.by_ entry = Example.reviewer
    /\ Claim.timestamp entry = 99%Z.
Proof.
  apply (clean_history_is_append_only
           (AccountApprove Example.reviewer) "64d000000000000000000001" 99
           (Example.dbWith Example.cleanClaim) Example.cleanClaim).
  - reflexivity.
  - repeat constructor; simpl; tauto.
  - reflexivity.
Defined.

(** ** How the transitions compose *)

Lemma filter_idem {A} (f : A -> bool) (l : list A) :
  filter f (filter f l) = filter f l.
Proof.
  apply filter_all. apply Forall_forall. intros x Hx.
  apply filter_In in Hx. tauto.
Qed.

(** X8.  The deduction path.  On a stored pending claim that passes the
    schema validators once its history is cleaned, a deduction within
    bounds whose note fits the schema, the owner's acceptance and the
    admin's approval succeed one after the other; the claim ends stored
    as admin_approved with the deduction and both reviewers recorded, its
    earnings untouched and three entries added to its cleaned history. *)
Theorem deduction_accepted_then_approved :
  forall (db : Db) (claimId : ObjectId) (c : Claim.IClaim)
         (d : ClaimService.DeductionData) (reviewerId adminId : ObjectId)
         (t1 t2 t3 : Z),
    lookupClaim db claimId = Some c ->
    Claim.status c = Claim.pending ->
    (0 <? ClaimService.amount d)%float = true ->
    (ClaimService.amount d <? Claim.calculatedEarnings c)%float = true ->
    storable c ->
    (String.length ("Deduction applied: " ++ ClaimService.reason d) <= 500)%nat ->
    exists c1 c2 c3 : Claim.IClaim,
      ClaimService.applyDeduction claimId d reviewerId t1 db
      = (Returned c1, saved c1 db)
      /\ ClaimService.respondToDeduction claimId true (Claim.userId c) t2
                                        (saved c1 db)
         = (Returned c2, saved c2 (saved c1 db))
      /\ ClaimService.adminApprove claimId adminId t3 (saved c2 (saved c1 db))
         = (Returned c3, saved c3 (saved c2 (saved c1 db)))
      /\ lookupClaim (saved c3 (saved c2 (saved c1 db))) claimId = Some c3
      /\ Claim.status c3 = Claim.admin_approved
      /\ Claim.deductionAmount c3 = ClaimService.amount d
      /\ Claim.deductionReason c3 = Some (ClaimService.reason d)
      /\ Claim.reviewedBy c3 = Some reviewerId
      /\ Claim.finalApprovedBy c3 = Some adminId
      /\ Claim.calculatedEarnings c3 = Claim.calculatedEarnings c
      /\ map Claim.action (Claim.history c3)
         = (map Claim.action
                (filter (fun e =>
                           includes ClaimService.validActions (Claim.action e))
                        (Claim.history c))
            ++ ["deduction_applied"; "user_accepted"; "admin_approved"])%list.
Proof.
  intros db claimId c d reviewerId adminId t1 t2 t3 Hfind Hst G0 G1
         Hstorable Hfit.
  destruct (lookup_id db claimId c Hfind) as [Hid _].
  (* applyDeduction *)
  assert (H1 : exists c1,
             ClaimService.applyDeduction claimId d reviewerId t1 db
             = (Returned c1, saved c1 db)
             /\ Claim_validate c1 = true
             /\ c1 = Claim.set_updatedBy reviewerId
                      (Claim.set_reviewedBy (Some reviewerId)
                         (Claim.set_status Claim.deducted
                            (Claim.set_deductionReason (Some (ClaimService.reason d))
                               (Claim.set_deductionAmount (ClaimService.amount d)
                                  (ClaimService.history_push
                                     {| Claim.action := "deduction_applied";
                                        Claim.by_ := reviewerId;
                                        Claim.timestamp := t1;
                                        Claim.note :=
                                          Some ("Deduction applied: "
                                                  ++ ClaimService.reason d) |}
                                     (ClaimService.cleanHistory c))))))).
  { eexists.
    pose proof Hfind as H. run_transition H. rewrite Hst.
    rewrite (ltb_leb_false _ _ G0), (ltb_leb_false _ _ G1).
    save_valid Hstorable.
    - now apply note_fits.
    - now apply ltb_leb.
    - apply note_fits. rewrite length_append in Hfit. simpl in Hfit. lia.
    - split; [reflexivity |]. split; [exact Hv | reflexivity]. }
  destruct H1 as [c1 [H1 [V1 E1]]].
  assert (L1 : lookupClaim (saved c1 db) claimId = Some c1).
  { apply (lookup_saved db claimId c c1 Hfind). subst c1.
    rewrite cleanHistory_eq. reflexivity. }
  (* respondToDeduction *)
  assert (H2 : exists c2,
             ClaimService.respondToDeduction claimId true (Claim.userId c) t2
                                             (saved c1 db)
             = (Returned c2, saved c2 (saved c1 db))
             /\ Claim_validate c2 = true
             /\ c2 = Claim.set_updatedBy (Claim.userId c)
                      (Claim.set_status Claim.user_accepted
                         (ClaimService.history_push
                            (responseEntry true (Claim.userId c) t2)
                            (ClaimService.cleanHistory c1)))).
  { eexists.
    pose proof L1 as H. run_transition H.
    replace (Claim.status c1) with Claim.deducted
      by (subst c1; rewrite cleanHistory_eq; reflexivity).
    replace (Claim.userId c1) with (Claim.userId c)
      by (subst c1; rewrite cleanHistory_eq; reflexivity).
    rewrite String.eqb_refl.
    save_valid (valid_storable c1 V1).
    split; [reflexivity |]. split; [exact Hv | reflexivity]. }
  destruct H2 as [c2 [H2 [V2 E2]]].
  assert (L2 : lookupClaim (saved c2 (saved c1 db)) claimId = Some c2).
  { apply (lookup_saved (saved c1 db) claimId c1 c2 L1). subst c2.
    rewrite cleanHistory_eq. reflexivity. }
  (* adminApprove *)
  assert (H3 : exists c3,
             ClaimService.adminApprove claimId adminId t3 (saved c2 (saved c1 db))
             = (Returned c3, saved c3 (saved c2 (saved c1 db)))
             /\ c3 = Claim.set_updatedBy adminId
                      (Claim.set_finalApprovedBy (Some adminId)
                         (Claim.set_status Claim.admin_approved
                            (ClaimService.history_push
                               {| Claim.action := "admin_approved";
                                  Claim.by_ := adminId;
                                  Claim.timestamp := t3;
                                  Claim.note :=
                                    Some "Claim finally approved by admin" |}
                               (ClaimService.cleanHistory c2))))).
  { eexists.
    pose proof L2 as H. run_transition H.
    replace (Claim.status c2) with Claim.user_accepted
      by (subst c2; rewrite cleanHistory_eq; reflexivity).
    save_valid (valid_storable c2 V2).
    split; reflexivity. }
  destruct H3 as [c3 [H3 E3]].
  assert (L3 : lookupClaim (saved c3 (saved c2 (saved c1 db))) claimId = Some c3).
  { apply (lookup_saved (saved c2 (saved c1 db)) claimId c2 c3 L2). subst c3.
    rewrite cleanHistory_eq. reflexivity. }
  exists c1, c2, c3.
  split; [exact H1 |]. split; [exact H2 |]. split; [exact H3 |].
  split; [exact L3 |].
  rewrite (valid_clean c2 V2) in E3. rewrite (valid_clean c1 V1) in E2.
  rewrite cleanHistory_eq in E1.
  subst c3 c2 c1. simpl.
  repeat (split; [reflexivity |]).
  rewrite !map_app. simpl. rewrite <- !app_assoc. reflexivity.
Qed.

Lemma deduction_accepted_then_approved_witness :
  exists c1 c2 c3 : Claim.IClaim,
    ClaimService.applyDeduction "64d000000000000000000001"
      (Example.deduction 0.5 "test") Example.reviewer 10
      (Example.dbWith Example.claim1)
    = (Returned c1, saved c1 (Example.dbWith Example.claim1))
    /\ ClaimService.adminApprove "64d000000000000000000001" Example.admin 30
         (saved c2 (saved c1 (Example.dbWith Example.claim1)))
       = (Returned c3, saved c3 (saved c2 (saved c1 (Example.dbWith Example.claim1))))
    /\ Claim.status c3 = Claim.admin_approved
    /\ map Claim.action (Claim.history c3)
       = ["submitted"; "deduction_applied"; "user_accepted"; "admin_approved"].
Proof.
  destruct (deduction_accepted_then_approved
              (Example.dbWith Example.claim1) "64d000000000000000000001"
              Example.claim1 (Example.deduction 0.5 "test")
              Example.reviewer Example.admin 10 20 30
              eq_refl eq_refl eq_refl eq_refl eq_refl
              ltac:(simpl; lia))
    as [c1 [c2 [c3 [H1 [_ [H3 [_ [Hst [_ [_ [_ [_ [_ Hh]]]]]]]]]]]]].
  exists c1, c2, c3. repeat split; assumption.
Defined.

(** X9.  The rejection loop.  On a stored pending claim that passes the
    schema validators once its history is cleaned, after a deduction
    within bounds whose note fits the schema, the owner's rejection
    leaves the claim stored as user_rejected with the deduction amount
    back at 0 and the reason empty, the reviewer still recorded.  From
    there no further deduction can be applied, whatever the amount,
    while [accountApprove] succeeds. *)
Theorem rejected_deduction_cannot_be_reapplied :
  forall (db : Db) (claimId : ObjectId) (c : Claim.IClaim)
         (d : ClaimService.DeductionData) (reviewerId : ObjectId) (t1 t2 : Z),
    lookupClaim db claimId = Some c ->
    Claim.status c = Claim.pending ->
    (0 <? ClaimService.amount d)%float = true ->
    (ClaimService.amount d <? Claim.calculatedEarnings c)%float = true ->
    storable c ->
    (String.length ("Deduction applied: " ++ ClaimService.reason d) <= 500)%nat ->
    exists c1 c2 : Claim.IClaim,
      ClaimService.applyDeduction claimId d reviewerId t1 db
      = (Returned c1, saved c1 db)
      /\ ClaimService.respondToDeduction claimId false (Claim.userId c) t2
                                        (saved c1 db)
         = (Returned c2, saved c2 (saved c1 db))
      /\ lookupClaim (saved c2 (saved c1 db)) claimId = Some c2
      /\ Claim.status c2 = Claim.user_rejected
      /\ Claim.deductionAmount c2 = 0%float
      /\ Claim.deductionReason c2 = Some EmptyString
      /\ Claim.reviewedBy c2 = Some reviewerId
      /\ (forall (d' : ClaimService.DeductionData) (r' : ObjectId) (t : Z),
             failsWith InvalidStateTransition
                       (ClaimService.applyDeduction claimId d' r' t
                                                    (saved c2 (saved c1 db)))
                       (saved c2 (saved c1 db)))
      /\ (forall (r' : ObjectId) (t : Z),
             succeeds (ClaimService.accountApprove claimId r' t
                                                   (saved c2 (saved c1 db)))).
Proof.
  intros db claimId c d reviewerId t1 t2 Hfind Hst G0 G1 Hstorable Hfit.
  assert (H1 : exists c1,
             ClaimService.applyDeduction claimId d reviewerId t1 db
             = (Returned c1, saved c1 db)
             /\ Claim_validate c1 = true
             /\ Claim._id c1 = Claim._id c
             /\ Claim.status c1 = Claim.deducted
             /\ Claim.userId c1 = Claim.userId c
             /\ Claim.reviewedBy c1 = Some reviewerId).
  { eexists.
    pose proof Hfind as H. run_transition H. rewrite Hst.
    rewrite (ltb_leb_false _ _ G0), (ltb_leb_false _ _ G1).
    save_valid Hstorable.
    - now apply note_fits.
    - now apply ltb_leb.
    - apply note_fits. rewrite length_append in Hfit. simpl in Hfit. lia.
    - split; [reflexivity |]. split; [exact Hv |].
      rewrite cleanHistory_eq. repeat split. }
  destruct H1 as [c1 [H1 [V1 [I1 [S1 [U1 R1]]]]]].
  assert (L1 : lookupClaim (saved c1 db) claimId = Some c1)
    by (apply (lookup_saved db claimId c c1 Hfind I1)).
  assert (H2 : exists c2,
             ClaimService.respondToDeduction claimId false (Claim.userId c) t2
                                             (saved c1 db)
             = (Returned c2, saved c2 (saved c1 db))
             /\ Claim_validate c2 = true
             /\ Claim._id c2 = Claim._id c1
             /\ Claim.status c2 = Claim.user_rejected
             /\ Claim.deductionAmount c2 = 0%float
             /\ Claim.deductionReason c2 = Some EmptyString
             /\ Claim.reviewedBy c2 = Claim.reviewedBy c1).
  { eexists.
    pose proof L1 as H. run_transition H. rewrite S1, U1.
    rewrite String.eqb_refl.
    save_valid (valid_storable c1 V1).
    split; [reflexivity |]. split; [exact Hv |].
    rewrite cleanHistory_eq. repeat split. }
  destruct H2 as [c2 [H2 [V2 [I2 [S2 [A2 [D2 R2]]]]]]].
  assert (L2 : lookupClaim (saved c2 (saved c1 db)) claimId = Some c2)
    by (apply (lookup_saved (saved c1 db) claimId c1 c2 L1 I2)).
  exists c1, c2.
  repeat (split; [assumption || congruence |]).
  split.
  - intros d' r' t.
    apply (perform_wrong_status (ApplyDeduction d' r') claimId t _ c2 L2).
    rewrite S2. simpl. intuition discriminate.
  - intros r' t.
    destruct (perform_succeeds (AccountApprove r') claimId t _ c2 L2)
      as [c3 [H3 _]].
    + rewrite S2. simpl. tauto.
    + exact I.
    + now apply valid_storable.
    + exact I.
    + exists c3. unfold returns. simpl in H3. rewrite H3. reflexivity.
Qed.

Lemma rejected_deduction_cannot_be_reapplied_witness :
  exists c1 c2 : Claim.IClaim,
    lookupClaim (saved c2 (saved c1 (Example.dbWith Example.claim1)))
                "64d000000000000000000001" = Some c2
    /\ Claim.status c2 = Claim.user_rejected
    /\ Claim.deductionAmount c2 = 0%float
    /\ failsWith InvalidStateTransition
         (ClaimService.applyDeduction "64d000000000000000000001"
            (Example.deduction 0.25 "again") Example.reviewer 30
            (saved c2 (saved c1 (Example.dbWith Example.claim1))))
         (saved c2 (saved c1 (Example.dbWith Example.claim1))).
Proof.
  destruct (rejected_deduction_cannot_be_reapplied
              (Example.dbWith Example.claim1) "64d000000000000000000001"
              Example.claim1 (Example.deduction 0.5 "test")
              Example.reviewer 10 20 eq_refl eq_refl eq_refl eq_refl eq_refl
              ltac:(simpl; lia))
    as [c1 [c2 [_ [_ [L2 [S2 [A2 [_ [_ [Hno _]]]]]]]]]].
  exists c1, c2. repeat split; try assumption. apply Hno.
Defined.

(** ** The lock *)

(** X10.  [lockClaim] returns false only under contention, when another actor
    holds a lock less than 30 minutes old, and then writes nothing; every
    other call that returns takes the lock, for the holder too (whose
    lock time is refreshed whatever its age), and changes nothing of the
    claim but [lockedBy] and [lockTimestamp]. *)
Theorem lockClaim_outcome :
  forall (db : Db) (claimId userId : ObjectId) (now : Z) (c : Claim.IClaim)
         (locked : bool),
    lookupClaim db claimId = Some c ->
    returns (ClaimService.lockClaim claimId userId now db) locked ->
    if locked then
      storeAfter (ClaimService.lockClaim claimId userId now db)
      = saved (relocked (Some userId) (Some now) c) db
      /\ lookupClaim (storeAfter (ClaimService.lockClaim claimId userId now db))
                     claimId
         = Some (relocked (Some userId) (Some now) c)
    else
      storeAfter (ClaimService.lockClaim claimId userId now db) = db
      /\ exists (holder : ObjectId) (lockedAt : Z),
          Claim.lockedBy c = Some holder /\ holder <> userId
          /\ Claim.lockTimestamp c = Some lockedAt
          /\ (now - lockedAt < 30 * 60 * 1000)%Z.
Proof.
  intros db claimId userId now c locked Hfind.
  unfold returns, storeAfter. rewrite (lockClaim_eval _ _ _ _ _ Hfind).
  cbv zeta.
  assert (Htake : lookupClaim (saved (relocked (Some userId) (Some now) c) db)
                              claimId
                  = Some (relocked (Some userId) (Some now) c))
    by (apply (lookup_saved db claimId c _ Hfind); reflexivity).
  assert (Hwrite :
            fst (if Claim_validate c
                 then (Returned true,
                       saved (relocked (Some userId) (Some now) c) db)
                 else (Thrown (Rethrown "Error locking claim: "
                                 (Error ValidationError
                                    "Claim validation failed")), db))
            = Returned locked ->
            if locked then
              snd (if Claim_validate c
                   then (Returned true,
                         saved (relocked (Some userId) (Some now) c) db)
                   else (Thrown (Rethrown "Error locking claim: "
                                   (Error ValidationError
                                      "Claim validation failed")), db))
              = saved (relocked (Some userId) (Some now) c) db
              /\ lookupClaim
                   (snd (if Claim_validate c
                         then (Returned true,
                               saved (relocked (Some userId) (Some now) c) db)
                         else (Thrown (Rethrown "Error locking claim: "
                                         (Error ValidationError
                                            "Claim validation failed")), db)))
                   claimId
                 = Some (relocked (Some userId) (Some now) c)
            else
              snd (if Claim_validate c
                   then (Returned true,
                         saved (relocked (Some userId) (Some now) c) db)
                   else (Thrown (Rethrown "Error locking claim: "
                                   (Error ValidationError
                                      "Claim validation failed")), db)) = db
              /\ exists (holder : ObjectId) (lockedAt : Z),
                  Claim.lockedBy c = Some holder /\ holder <> userId
                  /\ Claim.lockTimestamp c = Some lockedAt
                  /\ (now - lockedAt < 30 * 60 * 1000)%Z).
  { destruct (Claim_validate c); [| discriminate].
    simpl. intros E. injection E as <-. split; [reflexivity | exact Htake]. }
  destruct (Claim.lockedBy c) as [holder |] eqn:Hby; [| exact Hwrite].
  destruct (String.eqb holder userId) eqn:Heq; cbn [negb]; [exact Hwrite |].
  destruct (Claim.lockTimestamp c) as [lockedAt |] eqn:Hat; [| discriminate].
  destruct (now - lockedAt <? ClaimService.lockThreshold)%Z eqn:Hage;
    [| exact Hwrite].
  simpl. intros E. injection E as <-. split; [reflexivity |].
  exists holder, lockedAt.
  apply String.eqb_neq in Heq. apply Z.ltb_lt in Hage.
  unfold ClaimService.lockThreshold in Hage. repeat split; assumption.
Qed.

Lemma lockClaim_outcome_witness :
  lookupClaim (storeAfter (ClaimService.lockClaim "64d000000000000000000001"
                             Example.reviewer 1000050
                             (Example.dbWith (Example.cleanLockedAt 1000000))))
              "64d000000000000000000001"
  = Some (relocked (Some Example.reviewer) (Some 1000050%Z)
                   (Example.cleanLockedAt 1000000)).
Proof.
  apply (lockClaim_outcome (Example.dbWith (Example.cleanLockedAt 1000000))
                           "64d000000000000000000001" Example.reviewer 1000050
                           (Example.cleanLockedAt 1000000) true eq_refl eq_refl).
Defined.

(** X11.  [unlockClaim] on a stored claim: for the holder, when the
    claim passes the schema validators, it clears [lockedBy] and
    [lockTimestamp] and nothing else, and the cleared claim is the one
    stored afterwards; for the holder of a claim that fails them it
    throws a ValidationError and the lock stays; for anyone else, or on a
    claim nobody holds, it returns without writing. *)
Theorem unlockClaim_contract :
  forall (db : Db) (claimId userId : ObjectId) (c : Claim.IClaim),
    lookupClaim db claimId = Some c ->
    (Claim.lockedBy c = Some userId ->
     Claim_validate c = true ->
     ClaimService.unlockClaim claimId userId db
     = (Returned tt, saved (relocked None None c) db)
     /\ lookupClaim (saved (relocked None None c) db) claimId
        = Some (relocked None None c))
    /\ (Claim.lockedBy c = Some userId ->
        Claim_validate c = false ->
        failsWith ValidationError
                  (ClaimService.unlockClaim claimId userId db) db)
    /\ (Claim.lockedBy c <> Some userId ->
        ClaimService.unlockClaim claimId userId db = (Returned tt, db)).
Proof.
  intros db claimId userId c Hfind.
  rewrite (unlockClaim_eval _ _ _ _ Hfind). split; [| split].
  - intros Hby Hvalid. rewrite Hby, String.eqb_refl, Hvalid.
    split; [reflexivity |].
    apply (lookup_saved db claimId c _ Hfind). reflexivity.
  - intros Hby Hinvalid. rewrite Hby, String.eqb_refl, Hinvalid.
    eexists. split; reflexivity.
  - intros Hne. destruct (Claim.lockedBy c) as [holder |]; [| reflexivity].
    destruct (String.eqb holder userId) eqn:Heq; [| reflexivity].
    apply String.eqb_eq in Heq. subst holder. congruence.
Qed.

Lemma unlockClaim_contract_witness :
  ClaimService.unlockClaim "64d000000000000000000001" Example.admin
                           (Example.dbWith (Example.cleanLockedAt 1000000))
  = (Returned tt, Example.dbWith (Example.cleanLockedAt 1000000))
  /\ lookupClaim (saved (relocked None None (Example.cleanLockedAt 1000000))
                        (Example.dbWith (Example.cleanLockedAt 1000000)))
                 "64d000000000000000000001"
     = Some (relocked None None (Example.cleanLockedAt 1000000))
  /\ failsWith ValidationError
       (ClaimService.unlockClaim "64d000000000000000000001" Example.reviewer
                                 (Example.dbWith (Example.lockedAt 1000000)))
       (Example.dbWith (Example.lockedAt 1000000)).
Proof.
  split; [| split].
  - apply (proj2 (proj2 (unlockClaim_contract
                           (Example.dbWith (Example.cleanLockedAt 1000000))
                           "64d000000000000000000001" Example.admin
                           (Example.cleanLockedAt 1000000) eq_refl))).
    discriminate.
  - apply (proj1 (unlockClaim_contract
                    (Example.dbWith (Example.cleanLockedAt 1000000))
                    "64d000000000000000000001" Example.reviewer
                    (Example.cleanLockedAt 1000000) eq_refl));
      reflexivity.
  - apply (proj1 (proj2 (unlockClaim_contract
                           (Example.dbWith (Example.lockedAt 1000000))
                           "64d000000000000000000001" Example.reviewer
                           (Example.lockedAt 1000000) eq_refl)));
      reflexivity.
Defined.

Lemma relock_unlock (c : Claim.IClaim) (holder : option ObjectId) (at_ : option Z) :
  Claim.lockedBy c = None -> Claim.lockTimestamp c = None ->
  relocked None None (relocked holder at_ c) = c.
Proof.
  destruct c as [i u ps pf ce st lb lt da dr rb fa h cb ub ia]. simpl.
  intros -> ->. reflexivity.
Qed.

(** X12.  Lock and unlock are inverse on an unlocked claim that passes
    the schema validators: after [lockClaim] and then [unlockClaim] by
    the same actor, both succeed and the stored claim is again exactly
    the claim that was stored before. *)
Theorem lock_then_unlock_restores_claim :
  forall (db : Db) (claimId userId : ObjectId) (now : Z) (c : Claim.IClaim),
    lookupClaim db claimId = Some c ->
    Claim.lockedBy c = None ->
    Claim.lockTimestamp c = None ->
    Claim_validate c = true ->
    returns (ClaimService.lockClaim claimId userId now db) true
    /\ returns (ClaimService.unlockClaim
                  claimId userId
                  (storeAfter (ClaimService.lockClaim claimId userId now db)))
               tt
    /\ lookupClaim
         (storeAfter
            (ClaimService.unlockClaim
               claimId userId
               (storeAfter (ClaimService.lockClaim claimId userId now db))))
         claimId
       = Some c.
Proof.
  intros db claimId userId now c Hfind Hby Hat Hvalid.
  unfold returns, storeAfter.
  rewrite (lockClaim_eval _ _ _ _ _ Hfind), Hby, Hvalid. cbv zeta. cbn [fst snd].
  assert (L1 : lookupClaim (saved (relocked (Some userId) (Some now) c) db) claimId
               = Some (relocked (Some userId) (Some now) c))
    by (apply (lookup_saved db claimId c _ Hfind); reflexivity).
  rewrite (unlockClaim_eval _ _ _ _ L1), validate_relocked, Hvalid.
  change (Claim.lockedBy (relocked (Some userId) (Some now) c))
    with (Some userId).
  cbv iota beta. rewrite String.eqb_refl. cbn [fst snd].
  split; [reflexivity |]. split; [reflexivity |].
  rewrite (lookup_saved _ claimId _
             (relocked None None (relocked (Some userId) (Some now) c))
             L1 eq_refl).
  f_equal. apply relock_unlock; assumption.
Qed.

Lemma lock_then_unlock_restores_claim_witness :
  lookupClaim
    (storeAfter
       (ClaimService.unlockClaim
          "64d000000000000000000001" Example.reviewer
          (storeAfter (ClaimService.lockClaim "64d000000000000000000001"
                                              Example.reviewer 77
                                              (Example.dbWith Example.cleanClaim)))))
    "64d000000000000000000001"
  = Some Example.cleanClaim.
Proof.
  apply (lock_then_unlock_restores_claim
           (Example.dbWith Example.cleanClaim) "64d000000000000000000001"
           Example.reviewer 77 Example.cleanClaim
           eq_refl eq_refl eq_refl eq_refl).
Defined.

(** A lock without a lock time blocks everyone else: when another actor
    is recorded as holder and [lockTimestamp] is unset, [lockClaim] fails
    with a TypeError and writes nothing, at any time. *)
Theorem lock_without_timestamp_blocks_others :
  forall (db : Db) (claimId userId holder : ObjectId) (now : Z)
         (c : Claim.IClaim),
    lookupClaim db claimId = Some c ->
    Claim.lockedBy c = Some holder ->
    holder <> userId ->
    Claim.lockTimestamp c = None ->
    failsWith TypeError (ClaimService.lockClaim claimId userId now db) db.
Proof.
  intros db claimId userId holder now c Hfind Hby Hne Hat.
  rewrite (lockClaim_eval _ _ _ _ _ Hfind), Hby, Hat.
  apply String.eqb_neq in Hne. rewrite Hne. cbv zeta. cbn [negb].
  eexists. split; reflexivity.
Qed.

Lemma lock_without_timestamp_blocks_others_witness :
  failsWith TypeError
    (ClaimService.lockClaim "64d000000000000000000001" Example.admin 5
       (Example.dbWith (Claim.set_lockedBy (Some Example.reviewer) Example.claim1)))
    (Example.dbWith (Claim.set_lockedBy (Some Example.reviewer) Example.claim1)).
Proof.
  apply (lock_without_timestamp_blocks_others
           (Example.dbWith (Claim.set_lockedBy (Some Example.reviewer)
                                               Example.claim1))
           "64d000000000000000000001" Example.admin Example.reviewer 5
           (Claim.set_lockedBy (Some Example.reviewer) Example.claim1)
           eq_refl eq_refl).
  - discriminate.
  - reflexivity.
Defined.

(** X13.  Lock consistency is an invariant of the lock operations and,
    with the schema validators, keeps them total: on a stored claim that
    passes the validators and whose [lockedBy] and [lockTimestamp] are
    both set or both unset, [lockClaim] and [unlockClaim] return, and the
    claim they leave stored is consistent again. *)
Theorem lock_consistency_is_preserved :
  forall (db : Db) (claimId userId : ObjectId) (now : Z) (c : Claim.IClaim),
    lookupClaim db claimId = Some c ->
    lockConsistent c ->
    Claim_validate c = true ->
    (exists (locked : bool) (c' : Claim.IClaim),
        returns (ClaimService.lockClaim claimId userId now db) locked
        /\ lookupClaim (storeAfter (ClaimService.lockClaim claimId userId now db))
                       claimId = Some c'
        /\ lockConsistent c')
    /\ (exists c' : Claim.IClaim,
           returns (ClaimService.unlockClaim claimId userId db) tt
           /\ lookupClaim (storeAfter (ClaimService.unlockClaim claimId userId db))
                          claimId = Some c'
           /\ lockConsistent c').
Proof.
  intros db claimId userId now c Hfind Hcons Hvalid.
  assert (Hset : forall u t, lockConsistent (relocked (Some u) (Some t) c)).
  { intros u t. unfold lockConsistent. simpl. split; discriminate. }
  assert (Hclr : lockConsistent (relocked None None c)).
  { unfold lockConsistent. simpl. tauto. }
  assert (Hlook : forall c', Claim._id c' = Claim._id c ->
                             lookupClaim (saved c' db) claimId = Some c').
  { intros c' Hid. apply (lookup_saved db claimId c c' Hfind Hid). }
  unfold returns, storeAfter. split.
  - rewrite (lockClaim_eval _ _ _ _ _ Hfind), Hvalid. cbv zeta.
    destruct (Claim.lockedBy c) as [holder |] eqn:Hby.
    + destruct (negb (String.eqb holder userId)).
      * destruct (Claim.lockTimestamp c) as [lockedAt |] eqn:Hat.
        -- destruct (now - lockedAt <? ClaimService.lockThreshold)%Z.
           ++ exists false, c.
              split; [reflexivity |]. split; [exact Hfind | exact Hcons].
           ++ exists true, (relocked (Some userId) (Some now) c).
              split; [reflexivity |]. split; [apply Hlook; reflexivity | apply Hset].
        -- exfalso. unfold lockConsistent in Hcons. rewrite Hby, Hat in Hcons.
           destruct Hcons as [_ Hc]. discriminate (Hc eq_refl).
      * exists true, (relocked (Some userId) (Some now) c).
        split; [reflexivity |]. split; [apply Hlook; reflexivity | apply Hset].
    + exists true, (relocked (Some userId) (Some now) c).
      split; [reflexivity |]. split; [apply Hlook; reflexivity | apply Hset].
  - rewrite (unlockClaim_eval _ _ _ _ Hfind), Hvalid.
    destruct (Claim.lockedBy c) as [holder |] eqn:Hby.
    + destruct (String.eqb holder userId).
      * exists (relocked None None c).
        split; [reflexivity |]. split; [apply Hlook; reflexivity | exact Hclr].
      * exists c. split; [reflexivity |]. split; [exact Hfind | exact Hcons].
    + exists c. split; [reflexivity |]. split; [exact Hfind | exact Hcons].
Qed.

Lemma lock_consistency_is_preserved_witness :
  exists (locked : bool) (c' : Claim.IClaim),
    returns (ClaimService.lockClaim "64d000000000000000000001" Example.admin
                                    1000050
                                    (Example.dbWith (Example.cleanLockedAt 1000000)))
            locked
    /\ lookupClaim
         (storeAfter (ClaimService.lockClaim "64d000000000000000000001"
                                             Example.admin 1000050
                                             (Example.dbWith
                                                (Example.cleanLockedAt 1000000))))
         "64d000000000000000000001" = Some c'
    /\ lockConsistent c'.
Proof.
  apply (lock_consistency_is_preserved
           (Example.dbWith (Example.cleanLockedAt 1000000))
           "64d000000000000000000001" Example.admin 1000050
           (Example.cleanLockedAt 1000000) eq_refl).
  - unfold lockConsistent. simpl. split; discriminate.
  - reflexivity.
Defined.

(** ** [createClaim]: when it succeeds and what it leaves *)

Lemma no_conflict_when_none_found (db : Db) (ids : list ObjectId) :
  filter (fun c => existsb (includes ids) (Claim.postIds c)) (claims db) = [] ->
  conflictFree db ids.
Proof.
  intros Hnone c p Hc Hp Hcp.
  assert (Hin : In c (filter (fun c => existsb (includes ids) (Claim.postIds c))
                             (claims db)))
    by (apply conflicting_claim_found; eauto).
  rewrite Hnone in Hin. destruct Hin.
Qed.

Lemma all_owned_when_none_invalid (db : Db) (ids : list ObjectId)
      (owner : ObjectId) :
  filter (fun post => negb (String.eqb (Post.userId post) owner))
         (referencedPosts db ids) = [] ->
  allOwnedBy db ids owner.
Proof.
  intros Hnone q Hq Hi.
  destruct (String.eqb (Post.userId q) owner) eqn:E;
    [now apply String.eqb_eq |].
  assert (Hin : In q (filter (fun post =>
                                negb (String.eqb (Post.userId post) owner))
                             (referencedPosts db ids))).
  { apply offending_post_found. apply String.eqb_neq in E. tauto. }
  rewrite Hnone in Hin. destruct Hin.
Qed.

Lemma length_zero_nil {A} (l : list A) :
  (0 <? List.length l)%nat = false -> l = [].
Proof. destruct l; simpl; [reflexivity | discriminate]. Qed.

(** What a returning [createClaim] has checked and built. *)
Lemma createClaim_inv claimData newId now db c' :
  returns (ClaimService.createClaim claimData newId now db) c' ->
  exists (owner : ObjectId) (ids : list ObjectId)
         (settings : AdminSettings.IAdminSettings),
    wellFormed claimData owner ids
    /\ conflictFree db ids
    /\ allOwnedBy db ids owner
    /\ find AdminSettings.isActive (adminSettings db) = Some settings
    /\ c' = newClaim claimData owner ids
                     (roundTo2dp
                        (earningsSum (AdminSettings.ratePerLike settings)
                                     (AdminSettings.ratePer100Views settings)
                                     (referencedPosts db ids)))
                     newId now
    /\ ClaimService.createClaim claimData newId now db
       = (Returned c', inserted c' db).
Proof.
  unfold returns.
  destruct (ClaimService.cd_userId claimData) as [owner |] eqn:Hu;
    [| unfold ClaimService.createClaim, tryCatch; rewrite Hu; discriminate].
  destruct (ClaimService.cd_postIds claimData) as [[| p ps] |] eqn:Hp;
    try (unfold ClaimService.createClaim, tryCatch; rewrite Hu, Hp;
         discriminate).
  rewrite (createClaim_steps claimData owner p ps newId now db Hu Hp). cbv zeta.
  destruct (List.length (uniq [] (p :: ps)) =? List.length (p :: ps))%nat eqn:E1;
    [| discriminate]. simpl negb. cbv iota.
  destruct (0 <? List.length
                   (filter (fun c => existsb (includes (p :: ps)) (Claim.postIds c))
                           (claims db)))%nat eqn:E2; [discriminate |].
  destruct (0 <? List.length
                   (filter (fun post => negb (String.eqb (Post.userId post) owner))
                           (referencedPosts db (p :: ps))))%nat eqn:E3;
    [discriminate |].
  rewrite calculateEarnings_eval.
  destruct (find AdminSettings.isActive (adminSettings db)) as [settings |];
    [| discriminate].
  cbn [fst]. intros E. injection E as <-.
  exists owner, (p :: ps), settings.
  apply Nat.eqb_eq in E1. apply uniq_length_NoDup in E1.
  apply length_zero_nil in E2. apply length_zero_nil in E3.
  split; [repeat split; try assumption; [discriminate | tauto] |].
  split; [now apply no_conflict_when_none_found |].
  split; [now apply all_owned_when_none_invalid |].
  repeat split.
Qed.




(** X15.  Malformed input is rejected before the store is read: a request
    without an owner, without post ids, with an empty list of post ids,
    or with a post id repeated in the list fails with an InvalidInput
    error in every store. *)
Theorem createClaim_rejects_malformed_input :
  forall (db : Db) (claimData : ClaimService.ClaimData) (newId : ObjectId)
         (now : Z),
    ClaimService.cd_userId claimData = None
    \/ ClaimService.cd_postIds claimData = None
    \/ ClaimService.cd_postIds claimData = Some []
    \/ (exists ids, ClaimService.cd_postIds claimData = Some ids /\ ~ NoDup ids) ->
    failsWith InvalidInput (ClaimService.createClaim claimData newId now db) db.
Proof.
  intros db claimData newId now H.
  destruct (ClaimService.cd_userId claimData) as [owner |] eqn:Hu;
    [| unfold ClaimService.createClaim, tryCatch; rewrite Hu;
       eexists; split; reflexivity].
  destruct (ClaimService.cd_postIds claimData) as [[| p ps] |] eqn:Hp;
    try (unfold ClaimService.createClaim, tryCatch; rewrite Hu, Hp;
         eexists; split; reflexivity).
  destruct H as [H | [H | [H | [ids [H Hdup]]]]]; try discriminate.
  injection H as <-.
  rewrite (createClaim_steps claimData owner p ps newId now db Hu Hp). cbv zeta.
  rewrite (uniq_dup_length _ Hdup). simpl. eexists. split; reflexivity.
Qed.

Lemma createClaim_rejects_malformed_input_witness :
  failsWith InvalidInput
    (ClaimService.createClaim
       (Example.submission Example.alice
          [Post._id Example.post3; Post._id Example.post3])
       Example.newClaimId 99 Example.dbEmpty)
    Example.dbEmpty.
Proof.
  apply createClaim_rejects_malformed_input.
  right. right. right.
  exists [Post._id Example.post3; Post._id Example.post3].
  split; [reflexivity |].
  intros Hnd. inversion Hnd as [| x l Hx _]. apply Hx. simpl. tauto.
Defined.

(** X16.  A missing rate configuration surfaces through [createClaim]: a
    request that passes the input, duplicate and ownership checks fails
    with a ConfigurationMissing error, and stores nothing, when no rate
    configuration is active. *)
Theorem createClaim_needs_rate_configuration :
  forall (db : Db) (claimData : ClaimService.ClaimData) (owner : ObjectId)
         (ids : list ObjectId) (newId : ObjectId) (now : Z),
    wellFormed claimData owner ids ->
    conflictFree db ids ->
    allOwnedBy db ids owner ->
    find AdminSettings.isActive (adminSettings db) = None ->
    failsWith ConfigurationMissing
              (ClaimService.createClaim claimData newId now db) db.
Proof.
  intros db claimData owner ids newId now [Hu [Hp [Hne Hnd]]] Hfree Hown Hnone.
  destruct ids as [| p ps]; [congruence |].
  rewrite (createClaim_steps claimData owner p ps newId now db Hu Hp). cbv zeta.
  rewrite (uniq_NoDup_length _ Hnd). simpl negb. cbv iota.
  rewrite (no_conflict_found db (p :: ps) Hfree).
  change (0 <? List.length (@nil Claim.IClaim))%nat with false. cbv iota.
  assert (Hok : filter (fun post => negb (String.eqb (Post.userId post) owner))
                       (referencedPosts db (p :: ps)) = []).
  { destruct (filter (fun post => negb (String.eqb (Post.userId post) owner))
                     (referencedPosts db (p :: ps))) as [| q l] eqn:E;
      [reflexivity |].
    assert (Hq : In q (q :: l)) by now left.
    rewrite <- E in Hq. apply offending_post_found in Hq.
    destruct Hq as [Hq [Hi Ho]]. exfalso. apply Ho. now apply Hown. }
  rewrite Hok.
  change (0 <? List.length (@nil Post.IPost))%nat with false. cbv iota.
  rewrite calculateEarnings_eval, Hnone. cbn [fst].
  eexists. split; reflexivity.
Qed.

Lemma createClaim_needs_rate_configuration_witness :
  failsWith ConfigurationMissing
    (ClaimService.createClaim
       (Example.submission Example.alice [Post._id Example.post3])
       Example.newClaimId 99 Example.dbNoRates)
    Example.dbNoRates.
Proof.
  apply (createClaim_needs_rate_configuration
           Example.dbNoRates
           (Example.submission Example.alice [Post._id Example.post3])
           Example.alice [Post._id Example.post3]).
  - repeat split; [discriminate | repeat constructor; simpl; tauto].
  - intros c p [].
  - intros q [Hq | [Hq | [Hq | []]]] [Hi | []]; subst q;
      try reflexivity; discriminate.
  - reflexivity.
Defined.

(** X17.  The uniqueness invariant of duplicate prevention: in a store where
    no post id is referenced twice, the store a successful [createClaim]
    leaves references no post id twice either. *)
Theorem createClaim_keeps_posts_claimed_once :
  forall (db : Db) (claimData : ClaimService.ClaimData) (newId : ObjectId)
         (now : Z) (c' : Claim.IClaim),
    postsClaimedOnce db ->
    returns (ClaimService.createClaim claimData newId now db) c' ->
    postsClaimedOnce (storeAfter (ClaimService.createClaim claimData newId now db)).
Proof.
  intros db claimData newId now c' Hinv Hret.
  destruct (createClaim_inv claimData newId now db c' Hret)
    as [owner [ids [settings [[_ [_ [_ Hnd]]] [Hfree [_ [_ [Hc' Hrun]]]]]]]].
  unfold storeAfter. rewrite Hrun. unfold postsClaimedOnce, inserted, insert.
  simpl. rewrite flat_map_app. simpl. rewrite app_nil_r.
  replace (Claim.postIds c') with ids by (subst c'; reflexivity).
  apply NoDup_app; [exact Hinv | exact Hnd |].
  intros p Hp Hin. apply in_flat_map in Hp. destruct Hp as [c [Hc Hpc]].
  exact (Hfree c p Hc Hin Hpc).
Qed.

Lemma createClaim_keeps_posts_claimed_once_witness :
  postsClaimedOnce
    (storeAfter (ClaimService.createClaim
                   (Example.submission Example.alice [Post._id Example.post3])
                   Example.newClaimId 99 (Example.dbWith Example.claim1))).
Proof.
  eapply (createClaim_keeps_posts_claimed_once
            (Example.dbWith Example.claim1)
            (Example.submission Example.alice [Post._id Example.post3])
            Example.newClaimId 99).
  - unfold postsClaimedOnce. simpl. repeat constructor. simpl. tauto.
  - reflexivity.
Defined.

Lemma lookup_inserted (db : Db) (c' : Claim.IClaim) (claimId : ObjectId) :
  lookupClaim (inserted c' db) claimId
  = match lookupClaim db claimId with
    | Some c => Some c
    | None => if String.eqb (Claim._id c') claimId then Some c' else None
    end.
Proof.
  unfold lookupClaim, inserted, insert. simpl.
  induction (claims db) as [| x r IH]; simpl.
  - reflexivity.
  - destruct (String.eqb (Claim._id x) claimId); [reflexivity | exact IH].
Qed.

(** X18.  Insert and lookup.  When the id given to the new document is not in
    use, the claim [createClaim] returns is the claim found under that
    id afterwards; it is pending, active, unlocked, without deduction or
    reviewer, owned by the submitter; every claim stored before is found
    as before, and posts and rate configuration are untouched. *)
Theorem createClaim_stores_a_fresh_pending_claim :
  forall (db : Db) (claimData : ClaimService.ClaimData) (newId : ObjectId)
         (now : Z) (c' : Claim.IClaim),
    lookupClaim db newId = None ->
    returns (ClaimService.createClaim claimData newId now db) c' ->
    lookupClaim (storeAfter (ClaimService.createClaim claimData newId now db))
                newId = Some c'
    /\ (forall other : ObjectId,
           other <> newId ->
           lookupClaim (storeAfter (ClaimService.createClaim claimData newId now db))
                       other
           = lookupClaim db other)
    /\ posts (storeAfter (ClaimService.createClaim claimData newId now db))
       = posts db
    /\ adminSettings (storeAfter (ClaimService.createClaim claimData newId now db))
       = adminSettings db
    /\ Claim.status c' = Claim.pending
    /\ Claim.isActive c' = true
    /\ Claim.lockedBy c' = None /\ Claim.lockTimestamp c' = None
    /\ Claim.deductionAmount c' = 0%float /\ Claim.deductionReason c' = None
    /\ Claim.reviewedBy c' = None /\ Claim.finalApprovedBy c' = None
    /\ ClaimService.cd_userId claimData = Some (Claim.userId c').
Proof.
  intros db claimData newId now c' Hfresh Hret.
  destruct (createClaim_inv claimData newId now db c' Hret)
    as [owner [ids [settings [[Hu _] [_ [_ [_ [Hc' Hrun]]]]]]]].
  unfold storeAfter. rewrite Hrun. simpl snd.
  assert (Hid : Claim._id c' = newId) by (subst c'; reflexivity).
  split.
  - rewrite lookup_inserted, Hfresh, Hid, String.eqb_refl. reflexivity.
  - split.
    + intros other Hne. rewrite lookup_inserted.
      destruct (lookupClaim db other); [reflexivity |].
      rewrite Hid. apply not_eq_sym in Hne. apply String.eqb_neq in Hne.
      rewrite Hne. reflexivity.
    + subst c'. simpl. repeat split. exact Hu.
Qed.

Lemma createClaim_stores_a_fresh_pending_claim_witness :
  exists c' : Claim.IClaim,
    lookupClaim
      (storeAfter (ClaimService.createClaim
                     (Example.submission Example.alice [Post._id Example.post3])
                     Example.newClaimId 99 (Example.dbWith Example.claim1)))
      Example.newClaimId = Some c'
    /\ Claim.status c' = Claim.pending.
Proof.
  eexists. split.
  - apply (createClaim_stores_a_fresh_pending_claim
             (Example.dbWith Example.claim1)
             (Example.submission Example.alice [Post._id Example.post3])
             Example.newClaimId 99 _ eq_refl eq_refl).
  - reflexivity.
Defined.

(** X19.  The earnings depend on the set of requested ids only: two lists
    with the same elements, in any order and with any repetition, give
    the same result, the posts being summed in storage order. *)
Theorem earnings_depend_on_the_set_of_ids :
  forall (db : Db) (ids ids' : list ObjectId),
    (forall p, In p ids <-> In p ids') ->
    ClaimService.calculateEarnings ids db = ClaimService.calculateEarnings ids' db.
Proof.
  intros db ids ids' Hsame.
  rewrite !calculateEarnings_eval.
  assert (Hposts : referencedPosts db ids = referencedPosts db ids').
  { unfold referencedPosts. apply filter_ext. intros p.
    destruct (includes ids (Post._id p)) eqn:E.
    - symmetry. apply includes_In. apply Hsame. now apply includes_In.
    - symmetry. apply includes_false. apply includes_false in E.
      intros Hin. apply E. now apply Hsame. }
  rewrite Hposts. reflexivity.
Qed.

Lemma earnings_depend_on_the_set_of_ids_witness :
  ClaimService.calculateEarnings
    [Post._id Example.post3; Post._id Example.post1] Example.dbEmpty
  = ClaimService.calculateEarnings
      [Post._id Example.post1; Post._id Example.post3; Post._id Example.post1]
      Example.dbEmpty.
Proof.
  apply earnings_depend_on_the_set_of_ids.
  intros p. simpl. tauto.
Defined.

(** ** The read-only queries on claimed posts *)

Lemma uniq_In (l seen : list string) (x : string) :
  In x (uniq seen l) <-> In x l /\ ~ In x seen.
Proof.
  revert seen. induction l as [| y r IH]; intros seen; simpl.
  - tauto.
  - destruct (includes seen y) eqn:E.
    + apply includes_In in E. rewrite IH. split.
      * tauto.
      * intros [[Hy | Hr] Hs]; [subst; contradiction | tauto].
    + apply includes_false in E. simpl. rewrite IH. simpl. split.
      * intros [Hy | [Hr Hs]]; [subst; tauto | tauto].
      * intros [[Hy | Hr] Hs]; [now left |].
        destruct (string_dec y x) as [Heq | Hne]; [now left | right; tauto].
Qed.

Lemma uniq_NoDup (l seen : list string) : NoDup (uniq seen l).
Proof.
  revert seen. induction l as [| y r IH]; intros seen; simpl.
  - constructor.
  - destruct (includes seen y); [apply IH |].
    constructor; [| apply IH].
    rewrite uniq_In. simpl. tauto.
Qed.

Lemma checkPostsAlreadyClaimed_eval (userId : ObjectId) (ids : list ObjectId)
      (db : Db) :
  ClaimService.checkPostsAlreadyClaimed userId ids db
  = let existing :=
      filter (fun c => existsb (includes ids) (Claim.postIds c)) (claims db) in
    let details :=
      ClaimService.alreadyClaimedPostDetails ids (map (populateClaim db) existing) in
    (Returned
       (if (List.length existing =? 0)%nat
        then {| ClaimService.alreadyClaimed := false;
                ClaimService.conflictingPosts := [] |}
        else {| ClaimService.alreadyClaimed := (0 <? List.length details)%nat;
                ClaimService.conflictingPosts := uniq [] details |}),
     db).
Proof.
  unfold ClaimService.checkPostsAlreadyClaimed, tryCatch, bind,
    populate_postIds, Claim_find_postIds_in, get, ret.
  cbv beta iota zeta. rewrite length_map.
  destruct (List.length
              (filter (fun c => existsb (includes ids) (Claim.postIds c))
                      (claims db)) =? 0)%nat; reflexivity.
Qed.

(** X20.  What [checkPostsAlreadyClaimed] answers.  For post ids that
    are ObjectIds the call returns [alreadyClaimed = false] with no
    conflicting post in every store, also when stored claims reference
    the ids: the loop that collects the conflicts compares the ids with
    the rendering of the populated documents.  The store is left as it
    was and the [userId] argument plays no part. *)
Theorem checkPostsAlreadyClaimed_answer :
  forall (db : Db) (userId : ObjectId) (ids : list ObjectId),
    (forall p, In p ids -> isObjectId p = true) ->
    ClaimService.checkPostsAlreadyClaimed userId ids db
    = (Returned {| ClaimService.alreadyClaimed := false;
                   ClaimService.conflictingPosts := [] |},
       db).
Proof.
  intros db userId ids Hids.
  rewrite checkPostsAlreadyClaimed_eval. cbv zeta.
  rewrite (no_detail_collected ids _ Hids).
  destruct (List.length _ =? 0)%nat; reflexivity.
Qed.

Lemma checkPostsAlreadyClaimed_answer_witness :
  ClaimService.checkPostsAlreadyClaimed
    Example.bob [Post._id Example.post1] (Example.dbWith Example.claim1)
  = (Returned {| ClaimService.alreadyClaimed := false;
                 ClaimService.conflictingPosts := [] |},
     Example.dbWith Example.claim1)
  /\ In (Post._id Example.post1) (Claim.postIds Example.claim1).
Proof.
  split.
  - apply (checkPostsAlreadyClaimed_answer
             (Example.dbWith Example.claim1) Example.bob
             [Post._id Example.post1]).
    intros p [<- | []]. reflexivity.
  - simpl. tauto.
Defined.

(** X21.  The pre-check misses what the submission refuses: for a
    well-formed request whose post ids are ObjectIds and share a post
    with a stored claim, [checkPostsAlreadyClaimed] answers
    [alreadyClaimed = false] while [createClaim] fails with a
    DuplicateClaim error. *)
Theorem precheck_misses_what_createClaim_refuses :
  forall (db : Db) (claimData : ClaimService.ClaimData) (owner : ObjectId)
         (ids : list ObjectId) (newId : ObjectId) (now : Z)
         (c : Claim.IClaim) (p : ObjectId),
    wellFormed claimData owner ids ->
    (forall q, In q ids -> isObjectId q = true) ->
    In c (claims db) -> In p (Claim.postIds c) -> In p ids ->
    (exists r : ClaimService.PostsCheck,
        returns (ClaimService.checkPostsAlreadyClaimed owner ids db) r
        /\ ClaimService.alreadyClaimed r = false)
    /\ failsWith DuplicateClaim
                 (ClaimService.createClaim claimData newId now db) db.
Proof.
  intros db claimData owner ids newId now c p Hwf Hids Hc Hp Hi. split.
  - exists {| ClaimService.alreadyClaimed := false;
              ClaimService.conflictingPosts := [] |}.
    split; [| reflexivity]. unfold returns.
    rewrite checkPostsAlreadyClaimed_eval. cbv zeta.
    rewrite (no_detail_collected ids _ Hids).
    destruct (List.length _ =? 0)%nat; reflexivity.
  - apply (createClaim_conflict_fails claimData owner ids); [exact Hwf |].
    exists c, p. auto.
Qed.

Lemma precheck_misses_what_createClaim_refuses_witness :
  (exists r : ClaimService.PostsCheck,
      returns (ClaimService.checkPostsAlreadyClaimed
                 Example.alice [Post._id Example.post1]
                 (Example.dbWith Example.claim1)) r
      /\ ClaimService.alreadyClaimed r = false)
  /\ failsWith DuplicateClaim
       (ClaimService.createClaim
          (Example.submission Example.alice [Post._id Example.post1])
          Example.newClaimId 99 (Example.dbWith Example.claim1))
       (Example.dbWith Example.claim1).
Proof.
  apply (precheck_misses_what_createClaim_refuses
           (Example.dbWith Example.claim1)
           (Example.submission Example.alice [Post._id Example.post1])
           Example.alice [Post._id Example.post1] Example.newClaimId 99
           Example.claim1 (Post._id Example.post1)).
  - repeat split; [discriminate | repeat constructor; simpl; tauto].
  - intros q [<- | []]. reflexivity.
  - simpl. tauto.
  - simpl. tauto.
  - simpl. tauto.
Defined.

Lemma getUserClaimedPostIds_eval (userId : ObjectId) (db : Db) :
  ClaimService.getUserClaimedPostIds userId db
  = (Returned
       (uniq [] (flat_map Claim.postIds
                          (filter (fun c => String.eqb (Claim.userId c) userId
                                            && Claim.isActive c)
                                  (claims db)))),
     db).
Proof. reflexivity. Qed.

Lemma getUserClaimedPostIds_member (userId : ObjectId) (db : Db)
      (l : list string) (p : ObjectId) :
  returns (ClaimService.getUserClaimedPostIds userId db) l ->
  (In p l <-> exists c, In c (claims db) /\ Claim.userId c = userId
                        /\ Claim.isActive c = true /\ In p (Claim.postIds c)).
Proof.
  unfold returns. rewrite getUserClaimedPostIds_eval. simpl fst.
  intros Hl. injection Hl as <-.
  rewrite uniq_In, in_flat_map. split.
  - intros [[c [Hc Hp]] _]. apply filter_In in Hc. destruct Hc as [Hc Hf].
    apply andb_true_iff in Hf. destruct Hf as [Hu Ha].
    apply String.eqb_eq in Hu. exists c. auto.
  - intros [c [Hc [Hu [Ha Hp]]]]. split; [| intros []].
    exists c. split; [| exact Hp]. apply filter_In. split; [exact Hc |].
    apply andb_true_iff. split; [now apply String.eqb_eq | exact Ha].
Qed.

(** X22.  What [getUserClaimedPostIds] answers.  The call always returns and
    leaves the store as it was; the list has no repetition and holds
    exactly the post ids referenced by the stored claims that belong to
    the user and are active, whatever their status. *)
Theorem getUserClaimedPostIds_answer :
  forall (db : Db) (userId : ObjectId),
  exists l : list string,
    ClaimService.getUserClaimedPostIds userId db = (Returned l, db)
    /\ NoDup l
    /\ (forall p : ObjectId,
           In p l
           <-> exists c, In c (claims db) /\ Claim.userId c = userId
                         /\ Claim.isActive c = true /\ In p (Claim.postIds c)).
Proof.
  intros db userId. eexists. split; [apply getUserClaimedPostIds_eval |].
  split; [apply uniq_NoDup |].
  intros p. apply (getUserClaimedPostIds_member userId db). reflexivity.
Qed.

(** X23.  Every post id that [getUserClaimedPostIds] lists for some user is
    refused by [createClaim]: a well-formed request, of any user, that
    contains a listed id fails with a DuplicateClaim error and stores
    nothing. *)
Theorem listed_post_ids_cannot_be_claimed_again :
  forall (db : Db) (lister : ObjectId) (listed : list string)
         (claimData : ClaimService.ClaimData) (owner : ObjectId)
         (ids : list ObjectId) (newId : ObjectId) (now : Z) (p : ObjectId),
    returns (ClaimService.getUserClaimedPostIds lister db) listed ->
    In p listed ->
    wellFormed claimData owner ids ->
    In p ids ->
    failsWith DuplicateClaim (ClaimService.createClaim claimData newId now db) db.
Proof.
  intros db lister listed claimData owner ids newId now p Hret Hp Hwf Hi.
  apply (getUserClaimedPostIds_member lister db listed p Hret) in Hp.
  destruct Hp as [c [Hc [_ [_ Hpc]]]].
  apply (createClaim_conflict_fails claimData owner ids); [exact Hwf |].
  exists c, p. auto.
Qed.

Lemma listed_post_ids_cannot_be_claimed_again_witness :
  failsWith DuplicateClaim
    (ClaimService.createClaim
       (Example.submission Example.bob
          [Post._id Example.post3; Post._id Example.post1])
       Example.newClaimId 99 (Example.dbWith Example.claim1))
    (Example.dbWith Example.claim1).
Proof.
  eapply (listed_post_ids_cannot_be_claimed_again
            (Example.dbWith Example.claim1) Example.alice _
            (Example.submission Example.bob
               [Post._id Example.post3; Post._id Example.post1])
            Example.bob [Post._id Example.post3; Post._id Example.post1]
            Example.newClaimId 99 (Post._id Example.post1)).
  - reflexivity.
  - simpl. left. reflexivity.
  - repeat split; [discriminate |].
    constructor; [| repeat constructor; simpl; tauto].
    simpl. intros [H | []]. discriminate.
  - simpl. right. left. reflexivity.
Defined.

(** ** The endpoints of the claim controller *)

(** A transition endpoint is its role check, its check of the body, and
    the service call. *)
Lemma serve_eval (e : Endpoint) (user : option IUser) (id : ObjectId) (now : Z)
      (db : Db) :
  (user = None /\ code (fst (serve e user id now db)) = 401
   /\ snd (serve e user id now db) = db)
  \/ (exists u, user = Some u /\ role u <> endpointRole e
                /\ code (fst (serve e user id now db)) = 403
                /\ snd (serve e user id now db) = db)
  \/ (exists u, user = Some u /\ role u = endpointRole e
                /\ endpointCall e (user_id u) = None
                /\ code (fst (serve e user id now db)) = 400
                /\ snd (serve e user id now db) = db)
  \/ (exists u t, user = Some u /\ role u = endpointRole e
                  /\ endpointCall e (user_id u) = Some t
                  /\ snd (serve e user id now db) = storeAfter (perform t id now db)
                  /\ match fst (perform t id now db) with
                     | Returned c' =>
                         code (fst (serve e user id now db)) = 200
                     | Thrown _ =>
                         code (fst (serve e user id now db)) = 500
                     end).
Proof.
  destruct user as [u |]; [| left; destruct e; auto].
  right.
  destruct (String.eqb (role u) (endpointRole e)) eqn:Erole.
  - apply String.eqb_eq in Erole. right.
    destruct e; simpl in Erole;
      unfold serve, ClaimController.applyDeduction,
        ClaimController.respondToDeduction, ClaimController.accountApprove,
        ClaimController.accountReject, ClaimController.adminApprove;
      rewrite Erole; cbn [String.eqb Ascii.eqb Bool.eqb negb].
    + destruct body0 as [[amount |] [[| a r] |]]; cbn;
        try (left; exists u; auto; fail).
      destruct (falsyNumber amount);
        [left; exists u; auto |].
      right. eexists u, _. split; [reflexivity |]. split; [assumption |].
      split; [reflexivity |]. unfold perform, storeAfter.
      destruct (ClaimService.applyDeduction _ _ _ _ _) as [[c' | err] db'];
        split; reflexivity.
    + destruct accepted as [accepted |]; cbn;
        [| left; exists u; auto].
      right. eexists u, _. split; [reflexivity |]. split; [assumption |].
      split; [reflexivity |]. unfold perform, storeAfter.
      destruct (ClaimService.respondToDeduction _ _ _ _ _) as [[c' | err] db'];
        split; reflexivity.
    + right. eexists u, _. split; [reflexivity |]. split; [assumption |].
      split; [reflexivity |]. unfold perform, storeAfter.
      destruct (ClaimService.accountApprove _ _ _ _) as [[c' | err] db'];
        split; reflexivity.
    + destruct reason as [[| a r] |]; cbn;
        try (left; exists u; auto; fail).
      right. eexists u, _. split; [reflexivity |]. split; [assumption |].
      split; [reflexivity |]. unfold perform, storeAfter.
      destruct (ClaimService.accountReject _ _ _ _ _) as [[c' | err] db'];
        split; reflexivity.
    + right. eexists u, _. split; [reflexivity |]. split; [assumption |].
      split; [reflexivity |]. unfold perform, storeAfter.
      destruct (ClaimService.adminApprove _ _ _ _) as [[c' | err] db'];
        split; reflexivity.
  - left. exists u. split; [reflexivity |].
    split; [now apply String.eqb_neq |].
    destruct e; simpl in Erole;
      unfold serve, ClaimController.applyDeduction,
        ClaimController.respondToDeduction, ClaimController.accountApprove,
        ClaimController.accountReject, ClaimController.adminApprove;
      rewrite Erole; split; reflexivity.
Qed.

(** X24.  A transition endpoint writes nothing unless it answers 200: with any
    other status code (401, 403, 400 or 500) the store is the one the
    request found. *)
Theorem endpoint_writes_only_when_it_answers_200 :
  forall (e : Endpoint) (user : option IUser) (id : ObjectId) (now : Z) (db : Db),
    code (fst (serve e user id now db)) <> 200 ->
    snd (serve e user id now db) = db.
Proof.
  intros e user id now db Hcode.
  destruct (serve_eval e user id now db)
    as [[_ [_ H]] | [[u [_ [_ [_ H]]]] | [[u [_ [_ [_ [_ H]]]]]
                                         | [u [t [_ [_ [_ [Hst Hout]]]]]]]]];
    try exact H.
  rewrite Hst.
  destruct (fst (perform t id now db)) as [c' | err] eqn:E;
    [contradiction |].
  apply perform_throws_unchanged. exists err. exact E.
Qed.

Lemma endpoint_writes_only_when_it_answers_200_witness :
  snd (serve PutAdminApprove (Some Example.adminUser)
             (Claim._id Example.claim1) 99 (Example.dbWith Example.claim1))
  = Example.dbWith Example.claim1.
Proof.
  apply endpoint_writes_only_when_it_answers_200.
  vm_compute. discriminate.
Defined.

(** X25.  An answer of 200 from a transition endpoint means an authorised
    transition took place: the caller holds the role of the endpoint,
    the claim was stored in a source status of the transition, the claim
    stored afterwards under the same id is in the target status, and its
    id, owner, posts, proofs, earnings, creator, active flag and lock are
    those it had. *)
Theorem endpoint_200_is_an_authorised_transition :
  forall (e : Endpoint) (user : option IUser) (id : ObjectId) (now : Z) (db : Db),
    code (fst (serve e user id now db)) = 200 ->
    exists (u : IUser) (t : Transition) (c c' : Claim.IClaim),
      user = Some u
      /\ role u = endpointRole e
      /\ endpointCall e (user_id u) = Some t
      /\ lookupClaim db id = Some c
      /\ In (Claim.status c) (sourceStatuses t)
      /\ lookupClaim (snd (serve e user id now db)) id = Some c'
      /\ Claim.status c' = targetStatus t
      /\ keepsCoreFields c c'.
Proof.
  intros e user id now db Hcode.
  destruct (serve_eval e user id now db)
    as [[_ [H _]] | [[u [_ [_ [H _]]]] | [[u [_ [_ [_ [H _]]]]]
                                         | [u [t [Hu [Hrole [Hcall [Hst Hout]]]]]]]]];
    try (rewrite H in Hcode; discriminate).
  destruct (fst (perform t id now db)) as [c' | err] eqn:E;
    [| rewrite Hout in Hcode; discriminate].
  destruct (perform_inv t id now db c' E) as [c [Hc [Hrun [Hkeep Htarget]]]].
  destruct (perform_stored t id now db c' E) as [Hstore [Hlook _]].
  exists u, t, c, c'. repeat split; try assumption; try apply Hkeep.
  - apply (perform_returns_source t id now db c Hc). exists c'. exact E.
  - rewrite Hst, Hstore. exact Hlook.
Qed.

Lemma endpoint_200_is_an_authorised_transition_witness :
  exists (u : IUser) (t : Transition) (c c' : Claim.IClaim),
    Some Example.reviewerUser = Some u
    /\ role u = endpointRole PutAccountApprove
    /\ endpointCall PutAccountApprove (user_id u) = Some t
    /\ lookupClaim (Example.dbWith Example.claim1) (Claim._id Example.claim1)
       = Some c
    /\ In (Claim.status c) (sourceStatuses t)
    /\ lookupClaim
         (snd (serve PutAccountApprove (Some Example.reviewerUser)
                     (Claim._id Example.claim1) 99
                     (Example.dbWith Example.claim1)))
         (Claim._id Example.claim1) = Some c'
    /\ Claim.status c' = targetStatus t
    /\ keepsCoreFields c c'.
Proof.
  apply (endpoint_200_is_an_authorised_transition
           PutAccountApprove (Some Example.reviewerUser)
           (Claim._id Example.claim1) 99 (Example.dbWith Example.claim1)).
  reflexivity.
Defined.



(** X27.  The unlock endpoint reports success whether or not it unlocked: a
    caller who does not hold the lock of a stored claim is answered 200
    with the message of a successful unlock, and the store, the lock
    included, is as it was. *)
Theorem unlock_endpoint_reports_success_without_unlocking :
  forall (db : Db) (u : IUser) (id : ObjectId) (c : Claim.IClaim),
    lookupClaim db id = Some c ->
    Claim.lockedBy c <> Some (user_id u) ->
    ClaimController.unlockClaim (Some u) id db
    = ({| code := 200; body := Success "Claim unlocked successfully" |}, db).
Proof.
  intros db u id c Hc Hother.
  unfold ClaimController.unlockClaim.
  rewrite (unlockClaim_eval id (user_id u) db c Hc).
  destruct (Claim.lockedBy c) as [holder |]; [| reflexivity].
  destruct (String.eqb holder (user_id u)) eqn:E; [| reflexivity].
  apply String.eqb_eq in E. subst holder. contradiction.
Qed.

Lemma unlock_endpoint_reports_success_without_unlocking_witness :
  ClaimController.unlockClaim
    (Some Example.aliceUser) (Claim._id Example.claim1)
    (Example.dbWith (Example.lockedAt 1000))
  = ({| code := 200; body := Success "Claim unlocked successfully" |},
     Example.dbWith (Example.lockedAt 1000)).
Proof.
  apply (unlock_endpoint_reports_success_without_unlocking
           (Example.dbWith (Example.lockedAt 1000)) Example.aliceUser
           (Claim._id Example.claim1) (Example.lockedAt 1000)).
  - reflexivity.
  - discriminate.
Defined.

(** ** The rate configuration endpoints *)

Lemma leb_ltb_false (x y : float) :
  (x <=? y)%float = true -> (y <? x)%float = false.
Proof.
  intros Hle. destruct (y <? x)%float eqn:E; [| reflexivity].
  apply ltb_leb_false in E. congruence.
Qed.

Lemma none_active_after_deactivateAll (db : Db) :
  filter AdminSettings.isActive (adminSettings (AdminController.deactivateAll db))
  = [].
Proof.
  unfold AdminController.deactivateAll. simpl.
  induction (adminSettings db) as [| s r IH]; simpl; [reflexivity |].
  destruct (AdminSettings.isActive s) eqn:E; simpl; [exact IH |].
  rewrite E. exact IH.
Qed.

Lemma find_filter {A} (f : A -> bool) (l : list A) :
  find f l = hd_error (filter f l).
Proof.
  induction l as [| x r IH]; simpl; [reflexivity |].
  destruct (f x); [reflexivity | exact IH].
Qed.

(** X28.  Saving new rates.  A request of an authenticated caller with two
    rates that are numbers not below zero is answered 200; afterwards
    the new record is the only active one, whatever was stored before;
    posts and claims, with the earnings the claims were stored with, are
    untouched; [getCurrentSettings] reports the new rates and
    [calculateEarnings] prices every list of posts with them. *)
Theorem updateAdminSettings_installs_the_rates :
  forall (db : Db) (user : ObjectId) (body : AdminController.RatesBody)
         (rl rv : float),
    AdminController.ratePerLike body = Some rl ->
    AdminController.ratePer100Views body = Some rv ->
    (0 <=? rl)%float = true ->
    (0 <=? rv)%float = true ->
    exists db' : Db,
      AdminController.updateAdminSettings (Some user) body db
      = ({| code := 200;
            body := SettingsSaved "Admin settings updated successfully"
                      {| AdminSettings.ratePerLike := rl;
                         AdminSettings.ratePer100Views := rv;
                         AdminSettings.isActive := true |} |}, db')
      /\ filter AdminSettings.isActive (adminSettings db')
         = [ {| AdminSettings.ratePerLike := rl;
                AdminSettings.ratePer100Views := rv;
                AdminSettings.isActive := true |} ]
      /\ posts db' = posts db
      /\ claims db' = claims db
      /\ AdminController.getCurrentSettings db'
         = ({| code := 200; body := Rates rl rv |}, db')
      /\ forall ids : list ObjectId,
          ClaimService.calculateEarnings ids db'
          = (Returned (roundTo2dp (earningsSum rl rv (referencedPosts db ids))),
             db').
Proof.
  intros db user body rl rv Hl Hv Hrl Hrv.
  unfold AdminController.updateAdminSettings.
  rewrite Hl, Hv, (leb_ltb_false _ _ Hrl), (leb_ltb_false _ _ Hrv).
  cbn [orb]. cbv zeta. unfold respond.
  eexists. split; [reflexivity |].
  set (db1 := if (0 <? List.length (filter AdminSettings.isActive (adminSettings db)))%nat
              then AdminController.deactivateAll db else db).
  assert (Hnone : filter AdminSettings.isActive (adminSettings db1) = []).
  { unfold db1.
    destruct (filter AdminSettings.isActive (adminSettings db)) as [| s l] eqn:E.
    - exact E.
    - apply none_active_after_deactivateAll. }
  assert (Hposts : posts db1 = posts db)
    by (unfold db1; destruct (0 <? _)%nat; reflexivity).
  assert (Hclaims : claims db1 = claims db)
    by (unfold db1; destruct (0 <? _)%nat; reflexivity).
  assert (Hactive : filter AdminSettings.isActive
                           (adminSettings
                              (AdminController.insertSettings
                                 {| AdminSettings.ratePerLike := rl;
                                    AdminSettings.ratePer100Views := rv;
                                    AdminSettings.isActive := true |} db1))
                    = [ {| AdminSettings.ratePerLike := rl;
                           AdminSettings.ratePer100Views := rv;
                           AdminSettings.isActive := true |} ]).
  { unfold AdminController.insertSettings. simpl.
    rewrite filter_app, Hnone. reflexivity. }
  split; [exact Hactive |].
  split; [exact Hposts |].
  split; [exact Hclaims |].
  split.
  - unfold AdminController.getCurrentSettings.
    rewrite find_filter, Hactive. reflexivity.
  - intros ids. rewrite calculateEarnings_eval, find_filter, Hactive. simpl.
    unfold referencedPosts. simpl. rewrite Hposts. reflexivity.
Qed.

Lemma updateAdminSettings_installs_the_rates_witness :
  exists db' : Db,
    AdminController.updateAdminSettings
      (Some Example.admin)
      {| AdminController.ratePerLike := Some 0.02%float;
         AdminController.ratePer100Views := Some 1%float |}
      Example.dbEmpty
    = ({| code := 200;
          body := SettingsSaved "Admin settings updated successfully"
                    {| AdminSettings.ratePerLike := 0.02;
                       AdminSettings.ratePer100Views := 1;
                       AdminSettings.isActive := true |} |}, db')
    /\ filter AdminSettings.isActive (adminSettings db')
       = [ {| AdminSettings.ratePerLike := 0.02;
              AdminSettings.ratePer100Views := 1;
              AdminSettings.isActive := true |} ]
    /\ posts db' = posts Example.dbEmpty
    /\ claims db' = claims Example.dbEmpty
    /\ AdminController.getCurrentSettings db'
       = ({| code := 200; body := Rates 0.02 1 |}, db')
    /\ forall ids : list ObjectId,
        ClaimService.calculateEarnings ids db'
        = (Returned (roundTo2dp (earningsSum 0.02 1
                                   (referencedPosts Example.dbEmpty ids))),
           db').
Proof.
  apply (updateAdminSettings_installs_the_rates
           Example.dbEmpty Example.admin
           {| AdminController.ratePerLike := Some 0.02%float;
              AdminController.ratePer100Views := Some 1%float |}
           0.02%float 1%float);
    reflexivity.
Defined.

(** X29.  The rates shown and the rates used.  [getCurrentSettings] always
    answers 200 with two rates and writes nothing.  When
    [calculateEarnings] returns, it has priced the posts with the rates
    shown; when no configuration is active the rates shown are the
    defaults 1 and 50, which [calculateEarnings] does not use: it fails
    with a ConfigurationMissing error. *)
Theorem rates_shown_and_rates_used :
  forall (db : Db) (ids : list ObjectId),
  exists rl rv : float,
    AdminController.getCurrentSettings db
    = ({| code := 200; body := Rates rl rv |}, db)
    /\ match fst (ClaimService.calculateEarnings ids db) with
       | Returned earnings =>
           earnings = roundTo2dp (earningsSum rl rv (referencedPosts db ids))
       | Thrown e =>
           kindOf e = ConfigurationMissing /\ rl = 1%float /\ rv = 50%float
       end.
Proof.
  intros db ids. unfold AdminController.getCurrentSettings.
  rewrite calculateEarnings_eval.
  destruct (find AdminSettings.isActive (adminSettings db)) as [s |].
  - exists (AdminSettings.ratePerLike s), (AdminSettings.ratePer100Views s).
    split; reflexivity.
  - exists 1%float, 50%float. repeat split.
Qed.

(** ** Soft deletion of posts *)

(** Two stores that differ only in fields of posts the claim service
    does not read. *)
Section PostsUpToUnreadFields.
Variable g : Post.IPost -> Post.IPost.
Hypothesis g_id : forall p, Post._id (g p) = Post._id p.
Hypothesis g_userId : forall p, Post.userId (g p) = Post.userId p.
Hypothesis g_contentText : forall p, Post.contentText (g p) = Post.contentText p.
Hypothesis g_likeCount : forall p, Post.likeCount (g p) = Post.likeCount p.
Hypothesis g_viewCount : forall p, Post.viewCount (g p) = Post.viewCount p.
Variables db db' : Db.
Hypothesis Hposts : posts db' = map g (posts db).
Hypothesis Hclaims : claims db' = claims db.
Hypothesis Hrates : adminSettings db' = adminSettings db.

Lemma find_post_map (id : ObjectId) (l : list Post.IPost) :
  find (fun p => String.eqb (Post._id p) id) (map g l)
  = option_map g (find (fun p => String.eqb (Post._id p) id) l).
Proof.
  induction l as [| x r IH]; simpl; [reflexivity |].
  rewrite g_id. destruct (String.eqb (Post._id x) id); [reflexivity | exact IH].
Qed.

Lemma referencedPosts_map (ids : list ObjectId) :
  referencedPosts db' ids = map g (referencedPosts db ids).
Proof.
  unfold referencedPosts. rewrite Hposts. generalize (posts db).
  intros l. induction l as [| x r IH]; cbn [filter map]; [reflexivity |].
  rewrite g_id. destruct (includes ids (Post._id x)); cbn [map]; now rewrite IH.
Qed.

Lemma earningsSum_map (rl rv : float) (l : list Post.IPost) :
  earningsSum rl rv (map g l) = earningsSum rl rv l.
Proof.
  unfold earningsSum. generalize 0%float.
  induction l as [| x r IH]; intros acc; simpl; [reflexivity |].
  rewrite g_likeCount, g_viewCount. apply IH.
Qed.

Lemma populatePost_same (id : ObjectId) : populatePost db' id = populatePost db id.
Proof.
  unfold populatePost. rewrite Hposts, find_post_map.
  destruct (find (fun p => String.eqb (Post._id p) id) (posts db)); simpl;
    [rewrite g_id, g_contentText |]; reflexivity.
Qed.

Lemma populateClaim_same (cs : list Claim.IClaim) :
  map (populateClaim db') cs = map (populateClaim db) cs.
Proof.
  apply map_ext. intros c. unfold populateClaim. f_equal.
  apply flat_map_ext. intros postId. now rewrite populatePost_same.
Qed.

Lemma calculateEarnings_same (ids : list ObjectId) :
  fst (ClaimService.calculateEarnings ids db')
  = fst (ClaimService.calculateEarnings ids db).
Proof.
  rewrite !calculateEarnings_eval, Hrates, referencedPosts_map.
  destruct (find AdminSettings.isActive (adminSettings db)); simpl;
    [rewrite earningsSum_map |]; reflexivity.
Qed.

Lemma invalidPosts_map (owner : ObjectId) (l : list Post.IPost) :
  filter (fun post => negb (String.eqb (Post.userId post) owner)) (map g l)
  = map g (filter (fun post => negb (String.eqb (Post.userId post) owner)) l).
Proof.
  induction l as [| x r IH]; simpl; [reflexivity |].
  rewrite g_userId.
  destruct (negb (String.eqb (Post.userId x) owner)); simpl; now rewrite IH.
Qed.

Lemma map_id_map (l : list Post.IPost) :
  map Post._id (map g l) = map Post._id l.
Proof. rewrite map_map. apply map_ext. exact g_id. Qed.

Lemma createClaim_same (claimData : ClaimService.ClaimData) (newId : ObjectId)
      (now : Z) :
  fst (ClaimService.createClaim claimData newId now db')
  = fst (ClaimService.createClaim claimData newId now db).
Proof.
  destruct (ClaimService.cd_userId claimData) as [owner |] eqn:Hu;
    [| unfold ClaimService.createClaim, tryCatch; rewrite Hu; reflexivity].
  destruct (ClaimService.cd_postIds claimData) as [[| p ps] |] eqn:Hp;
    try (unfold ClaimService.createClaim, tryCatch; rewrite Hu, Hp;
         reflexivity).
  rewrite !(createClaim_steps claimData owner p ps newId now _ Hu Hp).
  cbv zeta.
  rewrite Hclaims, populateClaim_same, referencedPosts_map, invalidPosts_map,
    map_id_map, length_map, calculateEarnings_same.
  destruct (negb (List.length (uniq [] (p :: ps)) =? List.length (p :: ps))%nat);
    [reflexivity |].
  destruct (0 <? List.length
                   (filter (fun c => existsb (includes (p :: ps)) (Claim.postIds c))
                           (claims db)))%nat; [reflexivity |].
  destruct (0 <? List.length
                   (filter (fun post => negb (String.eqb (Post.userId post) owner))
                           (referencedPosts db (p :: ps))))%nat; [reflexivity |].
  destruct (fst (ClaimService.calculateEarnings (p :: ps) db)); reflexivity.
Qed.
End PostsUpToUnreadFields.

Lemma unique_post_found (db : Db) (id : ObjectId) (post p : Post.IPost) :
  postIdsUnique db ->
  PostController.Post_findById db id = Some post ->
  In p (posts db) -> Post._id p = id -> p = post.
Proof.
  unfold postIdsUnique, PostController.Post_findById.
  induction (posts db) as [| x r IH]; simpl; intros Hnd Hfind Hin Hid;
    [destruct Hin |].
  inversion Hnd as [| ? ? Hx Hr]; subst.
  destruct (String.eqb (Post._id x) (Post._id p)) eqn:E.
  - injection Hfind as <-. destruct Hin as [-> | Hin]; [reflexivity |].
    exfalso. apply Hx. apply String.eqb_eq in E. rewrite E.
    now apply in_map.
  - destruct Hin as [-> | Hin];
      [rewrite String.eqb_refl in E; discriminate |].
    now apply IH.
Qed.

(** X30.  A deleted post stays claimable.  [deletePost] answers 200 only to
    the owner of the post and only marks the post inactive; the claim
    service does not read that mark: afterwards [calculateEarnings]
    gives every list of ids the result it gave before, and [createClaim]
    returns for every request the claim, or throws the error, it would
    have without the deletion. *)
Theorem deleted_post_remains_claimable :
  forall (db : Db) (user : option IUser) (id : ObjectId),
    postIdsUnique db ->
    code (fst (PostController.deletePost user id db)) = 200 ->
    (exists (u : IUser) (post : Post.IPost),
        user = Some u
        /\ PostController.Post_findById db id = Some post
        /\ Post.userId post = user_id u
        /\ PostController.Post_findById
             (snd (PostController.deletePost user id db)) id
           = Some (PostController.set_isActive false post))
    /\ (forall ids : list ObjectId,
           fst (ClaimService.calculateEarnings
                  ids (snd (PostController.deletePost user id db)))
           = fst (ClaimService.calculateEarnings ids db))
    /\ (forall (claimData : ClaimService.ClaimData) (newId : ObjectId) (now : Z),
           fst (ClaimService.createClaim
                  claimData newId now (snd (PostController.deletePost user id db)))
           = fst (ClaimService.createClaim claimData newId now db)).
Proof.
  intros db user id Huniq Hcode.
  unfold PostController.deletePost in *.
  destruct user as [u |]; [| discriminate].
  destruct (PostController.Post_findById db id) as [post |] eqn:Hfind;
    [| discriminate].
  destruct (String.eqb (Post.userId post) (user_id u)) eqn:Eown;
    [| discriminate].
  cbn [negb] in *. cbv zeta in *.
  destruct (PostController.Post_validate (PostController.set_isActive false post));
    [| discriminate].
  unfold respond in *. cbn [fst snd] in *.
  set (g := fun p : Post.IPost =>
              if String.eqb (Post._id p) id
              then PostController.set_isActive false p else p).
  assert (Hposts : posts (PostController.updatePostById
                            id (fun _ => PostController.set_isActive false post) db)
                   = map g (posts db)).
  { unfold PostController.updatePostById. simpl. apply map_ext_in.
    intros p Hin. unfold g.
    destruct (String.eqb (Post._id p) id) eqn:E; [| reflexivity].
    apply String.eqb_eq in E.
    now rewrite (unique_post_found db id post p Huniq Hfind Hin E). }
  assert (g_id : forall p, Post._id (g p) = Post._id p)
    by (intros p; unfold g; destruct (String.eqb (Post._id p) id); reflexivity).
  assert (g_userId : forall p, Post.userId (g p) = Post.userId p)
    by (intros p; unfold g; destruct (String.eqb (Post._id p) id); reflexivity).
  assert (g_text : forall p, Post.contentText (g p) = Post.contentText p)
    by (intros p; unfold g; destruct (String.eqb (Post._id p) id); reflexivity).
  assert (g_likes : forall p, Post.likeCount (g p) = Post.likeCount p)
    by (intros p; unfold g; destruct (String.eqb (Post._id p) id); reflexivity).
  assert (g_views : forall p, Post.viewCount (g p) = Post.viewCount p)
    by (intros p; unfold g; destruct (String.eqb (Post._id p) id); reflexivity).
  split; [| split].
  - exists u, post. split; [reflexivity |]. split; [reflexivity |].
    split; [now apply String.eqb_eq |].
    unfold PostController.Post_findById in *.
    rewrite Hposts, (find_post_map g g_id), Hfind. simpl. unfold g.
    apply find_some in Hfind. destruct Hfind as [_ Hid]. now rewrite Hid.
  - intros ids.
    apply (calculateEarnings_same g g_id g_likes g_views db _ Hposts eq_refl).
  - intros claimData newId now.
    apply (createClaim_same g g_id g_userId g_text g_likes g_views db _
                            Hposts eq_refl eq_refl).
Qed.

Lemma deleted_post_remains_claimable_witness :
  exists c : Claim.IClaim,
    fst (ClaimService.createClaim
           (Example.submission Example.alice [Post._id Example.post1])
           Example.newClaimId 99
           (snd (PostController.deletePost
                   (Some Example.aliceUser) (Post._id Example.post1)
                   Example.dbEmpty)))
    = Returned c.
Proof.
  eexists.
  rewrite (proj2 (proj2 (deleted_post_remains_claimable
                           Example.dbEmpty (Some Example.aliceUser)
                           (Post._id Example.post1)
                           ltac:(repeat constructor; simpl; intuition discriminate)
                           eq_refl))).
  reflexivity.
Defined.
